(** * Ghostfolio: data-provider aggregation, quote cache and API gateway

    A shallow embedding of [DataProviderService] (quotes, historical data,
    search) and of [GhostfolioController] (daily rate limit), with the
    properties of the aggregation layer proved over it.

    Conventions of the embedding.
    - A JavaScript object used as a dictionary is an association list in
      insertion order ([Js.obj]); assigning to an existing key keeps the
      key's position.  Keys that look like array indices would be listed
      first by the engine; no statement below depends on the order of keys.
    - A JavaScript number is a binary64 float.  A field that the code tests
      with [isNumber] is a [Js.value].
    - A [Date] is its time value in milliseconds, [None] for an invalid date.
    - Asynchronous code is written in a writer-and-exception monad [M]: the
      log holds the calls made to the outside (upstream providers, Redis,
      the market-data store, the database, the logger), in order.  A promise
      is the outcome it settles with; the order in which the callbacks of
      [Promise.all] run is the parameter [schedule].
    - The [then] callbacks of [getQuotes] mutate the object [response] that
      they share; they are written in [Callback], which threads that object.
      The callback of every fulfilled request runs, also in a call that
      fails, and the log holds its calls.
    - [Logger.debug] and [performance.now] have no influence on any result
      and are left out. *)

From Stdlib Require Import String Ascii List ZArith NArith Bool Lia.
From Stdlib Require Import Permutation Sorted Floats DecimalString.
Import ListNotations.

Open Scope string_scope.
Open Scope list_scope.

(** ** JavaScript values *)

Module Js.

(** An object used as a map from property names to values. *)
Definition obj (A : Type) : Type := list (string * A).

Definition empty {A : Type} : obj A := [].

(** [o[k]] *)
Fixpoint get {A : Type} (k : string) (o : obj A) : option A :=
  match o with
  | [] => None
  | (k', v) :: rest => if String.eqb k k' then Some v else get k rest
  end.

(** [o[k] = v] *)
Fixpoint set {A : Type} (k : string) (v : A) (o : obj A) : obj A :=
  match o with
  | [] => [(k, v)]
  | (k', v') :: rest =>
      if String.eqb k k' then (k, v) :: rest else (k', v') :: set k v rest
  end.

(** [Object.keys(o)] and [Object.entries(o)] *)
Definition keys {A : Type} (o : obj A) : list string := map fst o.
Definition entries {A : Type} (o : obj A) : list (string * A) := o.

(** An object has each key once. *)
Definition wf {A : Type} (o : obj A) : Prop := NoDup (keys o).

(** [a.includes(x)] on an array of strings *)
Definition includes (x : string) (a : list string) : bool :=
  existsb (String.eqb x) a.

(** [a.slice(from, to)] for [0 <= from] and [0 <= to] *)
Fixpoint slice {A : Type} (from to : N) (a : list A) : list A :=
  match a with
  | [] => []
  | x :: rest =>
      if (to =? 0)%N then []
      else if (from =? 0)%N then x :: slice 0 (N.pred to) rest
      else slice (N.pred from) (N.pred to) rest
  end.

(** [a.join(sep)] *)
Fixpoint join (sep : string) (a : list string) : string :=
  match a with
  | [] => EmptyString
  | [x] => x
  | x :: rest => x ++ sep ++ join sep rest
  end.

(** Truthiness of a string: the empty string is falsy. *)
Definition truthy (s : string) : bool :=
  match s with EmptyString => false | _ => true end.

(** [Number.MAX_SAFE_INTEGER] *)
Definition MAX_SAFE_INTEGER : N := 9007199254740991.

(** A value read from a field typed [number]: a number (which may be NaN
    or infinite) or anything else ([undefined], [null], ...). *)
Inductive value : Type :=
| Number (x : float)
| NotANumber.

(** lodash [isNumber] *)
Definition isNumber (v : value) : bool :=
  match v with Number _ => true | NotANumber => false end.

(** [v > 0] *)
Definition gt0 (v : value) : bool :=
  match v with Number x => PrimFloat.ltb 0 x | NotANumber => false end.

(** A [Date]: the time value, or [None] for [Invalid Date]. *)
Definition Date : Type := option Z.

(** date-fns [isValid] and [isBefore] *)
Definition isValid (d : Date) : bool :=
  match d with Some _ => true | None => false end.

Definition isBefore (d1 d2 : Date) : bool :=
  match d1, d2 with
  | Some t1, Some t2 => (t1 <? t2)%Z
  | _, _ => false
  end.

End Js.

(** lodash [groupBy] on the key [f]: the groups in the order in which their
    keys first occur, each with its elements in their original order. *)
Fixpoint groupInsert {A : Type} (k : string) (x : A)
    (groups : list (string * list A)) : list (string * list A) :=
  match groups with
  | [] => [(k, [x])]
  | (k', xs) :: rest =>
      if String.eqb k k' then (k', xs ++ [x]) :: rest
      else (k', xs) :: groupInsert k x rest
  end.

Definition groupBy {A : Type} (f : A -> string) (a : list A)
    : list (string * list A) :=
  fold_left (fun groups x => groupInsert (f x) x groups) a [].

(** lodash [uniqWith]: the first element of each class of [same] is kept. *)
Fixpoint uniqWithAcc {A : Type} (same : A -> A -> bool) (seen a : list A)
    : list A :=
  match a with
  | [] => []
  | x :: rest =>
      if existsb (fun y => same y x) seen then uniqWithAcc same seen rest
      else x :: uniqWithAcc same (seen ++ [x]) rest
  end.

Definition uniqWith {A : Type} (a : list A) (same : A -> A -> bool) : list A :=
  uniqWithAcc same [] a.

(** [Array.prototype.sort]: a stable sort; [le x y] says that the comparator
    does not put [y] before [x]. *)
Fixpoint sortInsert {A : Type} (le : A -> A -> bool) (x : A) (sorted : list A)
    : list A :=
  match sorted with
  | [] => [x]
  | y :: rest => if le x y then x :: y :: rest else y :: sortInsert le x rest
  end.

Definition sortBy {A : Type} (le : A -> A -> bool) (a : list A) : list A :=
  fold_right (sortInsert le) [] a.

(** ** Data model *)

Definition DataSource : Type := string.

(** [AssetProfileIdentifier] *)
Record AssetProfileIdentifier : Type := {
  dataSource : DataSource;
  symbol : string
}.

(** [IDataProviderResponse]: a quote. *)
Module Quote.
Record t : Type := {
  currency : string;
  dataSource : DataSource;
  marketPrice : Js.value;
  marketState : string
}.
End Quote.

(** [IDataProviderHistoricalResponse] *)
Module Historical.
Record t : Type := { marketPrice : Js.value }.
End Historical.

(** An entry of [DERIVED_CURRENCIES]. *)
Module Derived.
Record t : Type := {
  currency : string;
  factor : float;
  rootCurrency : string
}.
End Derived.

(** A row of the [MarketData] table, with the columns the code reads. *)
Module MarketData.
Record t : Type := {
  date : Js.Date;
  marketPrice : Js.value;
  symbol : string
}.
End MarketData.

(** An element of the [data] passed to [MarketDataService.updateMany]. *)
Module Update.
Record t : Type := {
  symbol : string;
  dataSource : DataSource;
  date : Js.Date;
  marketPrice : Js.value;
  state : string
}.
End Update.

(** [LookupItem], with its [dataProviderInfo]. *)
Module Info.
Record t : Type := {
  isPremium : bool;
  dataSource : option DataSource;
  name : option string;
  url : option string
}.
End Info.

Module LookupItem.
Record t : Type := {
  assetSubClass : string;
  currency : option string;
  dataProviderInfo : Info.t;
  name : string;
  symbol : string
}.
End LookupItem.

(** [UserWithSettings], with the fields the code reads. *)
Module User.
Record t : Type := {
  id : string;
  createdAt : Js.Date;
  role : string;
  subscriptionType : string;
  isExperimentalFeatures : bool
}.
End User.

(** ** Exceptions, the log of outside calls, and the monad *)

Inductive Exception : Type :=
| Error (message : string)
| HttpException (response : string) (status : Z)
| DoesNotTerminate.

(** A call of a method of [GhostfolioService] by the controller. *)
Inductive ServiceCall : Type :=
| GetMaxDailyRequests
| GetAssetProfile (symbol : string)
| GetDividends (symbol : string) (from : Js.Date) (granularity : option string)
    (to : Js.Date)
| GetHistorical (symbol : string) (from : Js.Date)
    (granularity : option string) (to : Js.Date)
| Lookup (includeIndices : bool) (query : string)
| GetQuotes (symbols : list string)
| IncrementDailyRequests (userId : string).

Inductive Event : Type :=
| GhostfolioServiceCall (call : ServiceCall)
| ProviderGetQuotes (provider : string) (requestTimeout : option Z)
    (symbols : list string)
| ProviderGetHistorical (provider : string) (from : Js.Date) (symbol : string)
    (to : Js.Date) (requestTimeout : Z)
| ProviderSearch (provider : string) (includeIndices : bool) (query : string)
    (userId : string)
| RedisSet (key value : string) (ttl : Z)
| MarketDataUpdateMany (data : list Update.t)
| PrismaQueryRawUnsafe (query : string)
| LoggerError (error : Exception) (context : string).

Definition M (A : Type) : Type := list Event * (Exception + A).

Definition ret {A : Type} (a : A) : M A := ([], inr a).

Definition bind {A B : Type} (m : M A) (k : A -> M B) : M B :=
  match m with
  | (log, inl e) => (log, inl e)
  | (log, inr a) => let '(log', r) := k a in (log ++ log', r)
  end.

Definition throw {A : Type} (e : Exception) : M A := ([], inl e).

Definition emit (ev : Event) : M unit := ([ev], inr tt).

(** [try { body } catch (error) { handler(error) }] *)
Definition tryCatch {A : Type} (body : M A) (handler : Exception -> M A) : M A :=
  match body with
  | (log, inl e) => let '(log', r) := handler e in (log ++ log', r)
  | (log, inr a) => (log, inr a)
  end.

(** The outcome of an awaited call, lifted into the monad. *)
Definition settle {A : Type} (outcome : Exception + A) : M A := ([], outcome).

Declare Scope monad_scope.
Delimit Scope monad_scope with monad.
Notation "x <- m ;; k" := (bind m (fun x => k))
  (at level 61, m at next level, right associativity) : monad_scope.
Notation "m ;;; k" := (bind m (fun _ => k))
  (at level 61, right associativity) : monad_scope.
Open Scope monad_scope.

Definition trace {A : Type} (m : M A) : list Event := fst m.
Definition outcome {A : Type} (m : M A) : Exception + A := snd m.

(** A [then] callback of [getQuotes] mutates the object [response] that its
    closure shares with the other callbacks.  A computation in [Callback]
    takes the object as it finds it and gives the calls it makes, the object
    as it leaves it (also when it throws: what was assigned stays assigned)
    and its outcome. *)
Definition Callback (A : Type) : Type :=
  Js.obj Quote.t -> list Event * Js.obj Quote.t * (Exception + A).

Definition retC {A : Type} (a : A) : Callback A :=
  fun response => ([], response, inr a).

Definition bindC {A B : Type} (m : Callback A) (k : A -> Callback B)
    : Callback B :=
  fun response =>
    match m response with
    | (log, response, inl e) => (log, response, inl e)
    | (log, response, inr a) =>
        let '(log', response, r) := k a response in (log ++ log', response, r)
    end.

(** A computation that leaves [response] alone. *)
Definition perform {A : Type} (m : M A) : Callback A :=
  fun response => (trace m, response, outcome m).

(** [response[key] = quote] *)
Definition assignTo (key : string) (quote : Quote.t) : Callback unit :=
  fun response => ([], Js.set key quote response, inr tt).

(** [response], as it is now. *)
Definition current : Callback (Js.obj Quote.t) :=
  fun response => ([], response, inr response).

(** The calls made by a callback that has run. *)
Definition logOf {A : Type} (ran : list Event * Js.obj Quote.t * A)
    : list Event :=
  fst (fst ran).

Declare Scope callback_scope.
Delimit Scope callback_scope with callback.
Notation "x <- m ;; k" := (bindC m (fun x => k))
  (at level 61, m at next level, right associativity) : callback_scope.
Notation "m ;;; k" := (bindC m (fun _ => k))
  (at level 61, right associativity) : callback_scope.

(** ** Injected services *)

(** [DataProviderInterface]: an upstream provider.  A method that returns a
    promise is the outcome the promise settles with. *)
Module DataProviderInterface.
Record t : Type := {
  getName : string;
  canHandle : string -> bool;
  getDataProviderInfo : Info.t;
  getMaxNumberOfSymbolsPerRequest : option N;
  getQuotes : option Z -> list string -> Exception + Js.obj Quote.t;
  getHistorical :
    Js.Date -> string -> Js.Date -> Z ->
    Exception + option (Js.obj (Js.obj Historical.t));
  search : bool -> string -> string -> Exception + option (list LookupItem.t)
}.
End DataProviderInterface.

(** [ConfigurationService.get], one field per key. *)
Module ConfigurationService.
Record t : Type := {
  CACHE_QUOTES_TTL : Z;
  DATA_SOURCE_EXCHANGE_RATES : DataSource;
  DATA_SOURCE_IMPORT : DataSource;
  DATA_SOURCES : list DataSource;
  DATA_SOURCES_LEGACY : option (list DataSource);
  ENABLE_FEATURE_SUBSCRIPTION : bool
}.
End ConfigurationService.

(** [RedisCacheService]: [get] reads the store as it is when [getQuotes]
    starts; [set] is an entry of the log. *)
Module RedisCacheService.
Record t : Type := {
  get : string -> option string;
  getQuoteKey : DataSource -> string -> string
}.
End RedisCacheService.

Module MarketDataService.
Record t : Type := { updateMany : list Update.t -> Exception + unit }.
End MarketDataService.

Module PrismaService.
Record t : Type := {
  queryRawUnsafe : string -> Exception + list MarketData.t
}.
End PrismaService.

Module PropertyService.
Record t : Type := { getByKey : string -> option string }.
End PropertyService.

(** The instance of [DataProviderService]: its constructor arguments and the
    [dataProviderMapping] that [onModuleInit] loads. *)
Record DataProviderService : Type := {
  configurationService : ConfigurationService.t;
  dataProviderInterfaces : list DataProviderInterface.t;
  marketDataService : MarketDataService.t;
  prismaService : PrismaService.t;
  propertyService : PropertyService.t;
  redisCacheService : RedisCacheService.t;
  dataProviderMapping : Js.obj string
}.

(** A pending upstream [getQuotes] request with what its [then] callback
    closes over. *)
Record PendingQuotes : Type := {
  pendingDataSource : DataSource;
  pendingSymbolsChunk : list string;
  pendingResult : Exception + Js.obj Quote.t
}.

(** An element of [allData] in [getHistoricalRaw]. *)
Record HistoricalData : Type := {
  data : option (Js.obj Historical.t);
  dataSymbol : string
}.

(** ** GhostfolioController *)

Module GhostfolioService.
Section Responses.
Variables AssetProfileResponse DividendsResponse HistoricalResponse
  LookupResponse QuotesResponse : Type.

(** What each method settles with. *)
Record t : Type := {
  getMaxDailyRequests : Exception + Z;
  getAssetProfile : string -> Exception + AssetProfileResponse;
  getDividends :
    string -> Js.Date -> option string -> Js.Date ->
    Exception + DividendsResponse;
  getHistorical :
    string -> Js.Date -> option string -> Js.Date ->
    Exception + HistoricalResponse;
  lookup : bool -> string -> Exception + LookupResponse;
  getQuotes : list string -> Exception + QuotesResponse;
  incrementDailyRequests : string -> Exception + unit
}.
End Responses.

Arguments getMaxDailyRequests {_ _ _ _ _} _.
Arguments getAssetProfile {_ _ _ _ _} _ _.
Arguments getDividends {_ _ _ _ _} _ _ _ _ _.
Arguments getHistorical {_ _ _ _ _} _ _ _ _ _.
Arguments lookup {_ _ _ _ _} _ _ _.
Arguments getQuotes {_ _ _ _ _} _ _.
Arguments incrementDailyRequests {_ _ _ _ _} _ _.
End GhostfolioService.

(** [this.request.user] *)
Module RequestUser.
Record t : Type := {
  id : string;
  dataProviderGhostfolioDailyRequests : Z
}.
End RequestUser.

Module GhostfolioController.
Section Controller.
Variables AssetProfileResponse DividendsResponse HistoricalResponse
  LookupResponse QuotesResponse : Type.

(** [parseDate] of the helpers, [isISIN] of class-validator, and the
    case conversions of strings. *)
Variable parseDate : string -> Js.Date.
Variable isISIN : string -> bool.
Variable toUpperCase : string -> string.
Variable toLowerCase : string -> string.

Let Service : Type :=
  GhostfolioService.t AssetProfileResponse DividendsResponse
    HistoricalResponse LookupResponse QuotesResponse.

Record t : Type := {
  ghostfolioService : Service;
  user : RequestUser.t
}.

(** [StatusCodes] with [getReasonPhrase] *)
Definition TOO_MANY_REQUESTS : Exception :=
  HttpException "Too Many Requests" 429.
Definition INTERNAL_SERVER_ERROR : Exception :=
  HttpException "Internal Server Error" 500.

Definition awaitMaxDailyRequests (this : t) : M Z :=
  emit (GhostfolioServiceCall GetMaxDailyRequests) ;;;
  settle (GhostfolioService.getMaxDailyRequests (ghostfolioService this)).

Definition awaitIncrementDailyRequests (this : t) : M unit :=
  emit (GhostfolioServiceCall
          (IncrementDailyRequests (RequestUser.id (user this)))) ;;;
  settle (GhostfolioService.incrementDailyRequests (ghostfolioService this)
            (RequestUser.id (user this))).

Definition getAssetProfile (this : t) (symbol : string)
    : M AssetProfileResponse :=
  maxDailyRequests <- awaitMaxDailyRequests this ;;
  if (maxDailyRequests
      <? RequestUser.dataProviderGhostfolioDailyRequests (user this))%Z
  then throw TOO_MANY_REQUESTS
  else
    tryCatch
      (emit (GhostfolioServiceCall (GetAssetProfile symbol)) ;;;
       assetProfile <-
         settle (GhostfolioService.getAssetProfile (ghostfolioService this)
                   symbol) ;;
       awaitIncrementDailyRequests this ;;;
       ret assetProfile)
      (fun _ => throw INTERNAL_SERVER_ERROR).

Definition getDividends (this : t) (symbol : string)
    (queryFrom : string) (queryGranularity : option string)
    (queryTo : string) : M DividendsResponse :=
  maxDailyRequests <- awaitMaxDailyRequests this ;;
  if (maxDailyRequests
      <? RequestUser.dataProviderGhostfolioDailyRequests (user this))%Z
  then throw TOO_MANY_REQUESTS
  else
    tryCatch
      (emit (GhostfolioServiceCall
               (GetDividends symbol (parseDate queryFrom) queryGranularity
                  (parseDate queryTo))) ;;;
       dividends <-
         settle (GhostfolioService.getDividends (ghostfolioService this)
                   symbol (parseDate queryFrom) queryGranularity
                   (parseDate queryTo)) ;;
       awaitIncrementDailyRequests this ;;;
       ret dividends)
      (fun _ => throw INTERNAL_SERVER_ERROR).

Definition getHistorical (this : t) (symbol : string)
    (queryFrom : string) (queryGranularity : option string)
    (queryTo : string) : M HistoricalResponse :=
  maxDailyRequests <- awaitMaxDailyRequests this ;;
  if (maxDailyRequests
      <? RequestUser.dataProviderGhostfolioDailyRequests (user this))%Z
  then throw TOO_MANY_REQUESTS
  else
    tryCatch
      (emit (GhostfolioServiceCall
               (GetHistorical symbol (parseDate queryFrom) queryGranularity
                  (parseDate queryTo))) ;;;
       historicalData <-
         settle (GhostfolioService.getHistorical (ghostfolioService this)
                   symbol (parseDate queryFrom) queryGranularity
                   (parseDate queryTo)) ;;
       awaitIncrementDailyRequests this ;;;
       ret historicalData)
      (fun _ => throw INTERNAL_SERVER_ERROR).

Definition lookupSymbol (this : t) (includeIndicesParam : string)
    (query : string) : M LookupResponse :=
  let includeIndices := String.eqb includeIndicesParam "true" in
  maxDailyRequests <- awaitMaxDailyRequests this ;;
  if (maxDailyRequests
      <? RequestUser.dataProviderGhostfolioDailyRequests (user this))%Z
  then throw TOO_MANY_REQUESTS
  else
    tryCatch
      (let lookupQuery :=
         if isISIN (toUpperCase query) then toUpperCase query
         else toLowerCase query in
       emit (GhostfolioServiceCall (Lookup includeIndices lookupQuery)) ;;;
       result <-
         settle (GhostfolioService.lookup (ghostfolioService this)
                   includeIndices lookupQuery) ;;
       awaitIncrementDailyRequests this ;;;
       ret result)
      (fun _ => throw INTERNAL_SERVER_ERROR).

Definition getQuotes (this : t) (querySymbols : list string)
    : M QuotesResponse :=
  maxDailyRequests <- awaitMaxDailyRequests this ;;
  if (maxDailyRequests
      <? RequestUser.dataProviderGhostfolioDailyRequests (user this))%Z
  then throw TOO_MANY_REQUESTS
  else
    tryCatch
      (emit (GhostfolioServiceCall (GetQuotes querySymbols)) ;;;
       quotes <-
         settle (GhostfolioService.getQuotes (ghostfolioService this)
                   querySymbols) ;;
       awaitIncrementDailyRequests this ;;;
       ret quotes)
      (fun _ => throw INTERNAL_SERVER_ERROR).

(** The calls of the data methods and of [incrementDailyRequests] in a
    log. *)
Definition isDataCall (ev : Event) : bool :=
  match ev with
  | GhostfolioServiceCall GetMaxDailyRequests => false
  | GhostfolioServiceCall (IncrementDailyRequests _) => false
  | GhostfolioServiceCall _ => true
  | _ => false
  end.

Definition isIncrement (ev : Event) : bool :=
  match ev with
  | GhostfolioServiceCall (IncrementDailyRequests _) => true
  | _ => false
  end.

(** What an endpoint guarded by the daily limit does, given the call
    that it makes to the service and what that call settles with. *)
Definition rateLimited {R : Type} (this : t) (endpoint : M R)
    (call : ServiceCall) (settled : Exception + R) : Prop :=
  let getMax := GhostfolioServiceCall GetMaxDailyRequests in
  let increment :=
    GhostfolioServiceCall
      (IncrementDailyRequests (RequestUser.id (user this))) in
  match GhostfolioService.getMaxDailyRequests (ghostfolioService this) with
  | inl e => endpoint = ([getMax], inl e)
  | inr maxDailyRequests =>
      if (maxDailyRequests
          <? RequestUser.dataProviderGhostfolioDailyRequests (user this))%Z
      then endpoint = ([getMax], inl TOO_MANY_REQUESTS)
      else
        match settled with
        | inl _ =>
            endpoint
            = ([getMax; GhostfolioServiceCall call],
               inl INTERNAL_SERVER_ERROR)
        | inr response =>
            match GhostfolioService.incrementDailyRequests
                    (ghostfolioService this)
                    (RequestUser.id (user this)) with
            | inl _ =>
                endpoint
                = ([getMax; GhostfolioServiceCall call; increment],
                   inl INTERNAL_SERVER_ERROR)
            | inr _ =>
                endpoint
                = ([getMax; GhostfolioServiceCall call; increment],
                   inr response)
            end
        end
  end.

End Controller.
End GhostfolioController.


(** ** ShowAccessTokenDialog

    The component of the registration page: its two fields with their
    initialisers and its two methods.  A use of the component is the list
    of the methods that the template calls, in order. *)
Module ShowAccessTokenDialog.

Record t : Type := {
  isCreateAccountButtonDisabled : bool;
  disclaimerChecked : bool
}.

(** The component as it is constructed. *)
Definition create : t :=
  {| isCreateAccountButtonDisabled := true;
     disclaimerChecked := false |}.

Definition onChangeDislaimerChecked (this : t) : t :=
  {| isCreateAccountButtonDisabled := isCreateAccountButtonDisabled this;
     disclaimerChecked := negb (disclaimerChecked this) |}.

Definition enableCreateAccountButton (this : t) : t :=
  {| isCreateAccountButtonDisabled := false;
     disclaimerChecked := disclaimerChecked this |}.

Inductive Call : Type :=
| OnChangeDislaimerChecked
| EnableCreateAccountButton.

Definition call (this : t) (c : Call) : t :=
  match c with
  | OnChangeDislaimerChecked => onChangeDislaimerChecked this
  | EnableCreateAccountButton => enableCreateAccountButton this
  end.

Definition calls (this : t) (cs : list Call) : t := fold_left call cs this.

Definition isEnable (c : Call) : bool :=
  match c with EnableCreateAccountButton => true | _ => false end.

Definition isChange (c : Call) : bool :=
  match c with OnChangeDislaimerChecked => true | _ => false end.

End ShowAccessTokenDialog.
(** ** A sample installation

    Concrete values for what the service imports and for its injected
    services, used to run the model. *)

Module Sample.

Definition DEFAULT_CURRENCY : string := "USD".

Definition DERIVED_CURRENCIES : list Derived.t :=
  [ {| Derived.currency := "GBp"; Derived.factor := 100;
       Derived.rootCurrency := "GBP" |};
    {| Derived.currency := "ILA"; Derived.factor := 100;
       Derived.rootCurrency := "ILS" |};
    {| Derived.currency := "ZAc"; Derived.factor := 100;
       Derived.rootCurrency := "ZAR" |} ].

Definition PROPERTY_API_KEY_GHOSTFOLIO : string := "API_KEY_GHOSTFOLIO".
Definition DATE_FORMAT : string := "yyyy-MM-dd".

(** [s.replace(pattern, '')]: the first occurrence is removed. *)
Fixpoint removeFirst (pattern s : string) : string :=
  if String.prefix pattern s
  then substring (String.length pattern)
         (String.length s - String.length pattern) s
  else
    match s with
    | EmptyString => EmptyString
    | String c rest => String c (removeFirst pattern rest)
    end.

Definition getCurrencyFromSymbol (aSymbol : string) : string :=
  removeFirst DEFAULT_CURRENCY aSymbol.

Definition isDerivedCurrency (aCurrency : string) : bool :=
  String.eqb aCurrency "USX"
  || existsb (fun d => String.eqb (Derived.currency d) aCurrency)
       DERIVED_CURRENCIES.

Definition currencies : list string :=
  ["CHF"; "EUR"; "GBP"; "ILS"; "USD"; "ZAR"].

Definition isCurrency (aCurrency : string) : bool :=
  Js.truthy aCurrency
  && (Js.includes aCurrency currencies || isDerivedCurrency aCurrency).

Definition hasRole (user : User.t) (role : string) : bool :=
  String.eqb (User.role user) role.

Definition isFinite (x : float) : bool :=
  negb (PrimFloat.is_nan x) && negb (PrimFloat.is_infinity x).

(** The product of two finite numbers, in binary64. *)
Definition Big_mul_toNumber (a b : Js.value) : option float :=
  match a, b with
  | Js.Number x, Js.Number y =>
      if isFinite x && isFinite y then Some (x * y)%float else None
  | _, _ => None
  end.

Definition millisecondsPerDay : Z := 86400000.

Definition getStartOfUtcDate (date : Js.Date) : Js.Date :=
  match date with
  | Some t => Some (t / millisecondsPerDay * millisecondsPerDay)%Z
  | None => None
  end.

(** Days are printed by their number since the epoch. *)
Definition format (t : Z) (pattern : string) : string :=
  "day " ++ NilZero.string_of_int (Z.to_int (t / millisecondsPerDay)).

Fixpoint daysFrom (n : nat) (t : Z) : list Js.Date :=
  match n with
  | O => []
  | S n' => Some t :: daysFrom n' (t + millisecondsPerDay)%Z
  end.

Definition eachDayOfInterval (from to : Js.Date)
    : Exception + list Js.Date :=
  match from, to with
  | Some start, Some finish =>
      if (finish <? start)%Z then inl (Error "Invalid interval")
      else
        inr (daysFrom (S (Z.to_nat ((finish - start) / millisecondsPerDay)))
               (start / millisecondsPerDay * millisecondsPerDay)%Z)
  | _, _ => inl (Error "Invalid interval")
  end.

Definition quote (currency : string) (dataSource : DataSource)
    (marketPrice : float) (marketState : string) : Quote.t :=
  {| Quote.currency := currency;
     Quote.dataSource := dataSource;
     Quote.marketPrice := Js.Number marketPrice;
     Quote.marketState := marketState |}.

(** The cached strings of the sample and what they parse to. *)
Definition JSON_parse (text : string) : option Quote.t :=
  if String.eqb text "{AAPL 180}" then Some (quote "USD" "YAHOO" 180 "closed")
  else if String.eqb text "{MSFT 410}"
  then Some (quote "USD" "FINANCIAL_MODELING_PREP" 410 "open")
  else if String.eqb text "{USDUSX 99}"
  then Some (quote "USX" "YAHOO" 99 "open")
  else if String.eqb text "{USDGBp 70}"
  then Some (quote "GBp" "YAHOO" 70 "open")
  else None.

Definition JSON_stringify (q : Quote.t) : string :=
  "{" ++ Quote.currency q ++ " " ++ Quote.dataSource q ++ " "
  ++ Quote.marketState q ++ "}".

Definition lowerAscii (c : ascii) : ascii :=
  let n := nat_of_ascii c in
  if (65 <=? n)%nat && (n <=? 90)%nat then ascii_of_nat (n + 32) else c.

Fixpoint toLowerCase (s : string) : string :=
  match s with
  | EmptyString => EmptyString
  | String c rest => String (lowerAscii c) (toLowerCase rest)
  end.

Definition toUpperCase (s : string) : string := s.

Definition localeCompare_le (a b : string) : bool := String.leb a b.

(** 2025-11-03T10:00:00Z *)
Definition now : Js.Date := Some 1762164000000%Z.

Definition schedule (A : Type) (promises : list A) : list A := promises.
Definition scheduleReversed (A : Type) (promises : list A) : list A :=
  rev promises.

(** *** Upstream providers *)

Definition noInfo (isPremium : bool) : Info.t :=
  {| Info.isPremium := isPremium; Info.dataSource := None;
     Info.name := None; Info.url := None |}.

(** The entries of [table] for the requested symbols. *)
Definition quotesFor (table : Js.obj Quote.t) (symbols : list string)
    : Js.obj Quote.t :=
  filter (fun entry => Js.includes (fst entry) symbols) table.

Definition yahooQuotes : Js.obj Quote.t :=
  [ ("AAPL", quote "USD" "YAHOO" 181 "open");
    ("USDGBP", quote "GBP" "YAHOO" 0.75 "open");
    ("USDCHF", quote "CHF" "YAHOO" 0.5 "closed");
    ("BTCUSD", quote "USD" "YAHOO" 0 "open") ].

Definition yahooSeries : Js.obj Historical.t :=
  [ ("day 19723", {| Historical.marketPrice := Js.Number 0.75 |});
    ("day 19724", {| Historical.marketPrice := Js.NotANumber |});
    ("day 19725", {| Historical.marketPrice := Js.Number 0.5 |}) ].

Definition lookupItem (name symbol : string) (currency : option string)
    (assetSubClass : string) (isPremium : bool) : LookupItem.t :=
  {| LookupItem.assetSubClass := assetSubClass;
     LookupItem.currency := currency;
     LookupItem.dataProviderInfo := noInfo isPremium;
     LookupItem.name := name;
     LookupItem.symbol := symbol |}.

Definition yahoo : DataProviderInterface.t :=
  {| DataProviderInterface.getName := "YAHOO";
     DataProviderInterface.canHandle := fun _ => true;
     DataProviderInterface.getDataProviderInfo := noInfo false;
     DataProviderInterface.getMaxNumberOfSymbolsPerRequest := None;
     DataProviderInterface.getQuotes :=
       fun _ symbols => inr (quotesFor yahooQuotes symbols);
     DataProviderInterface.getHistorical :=
       fun _ symbol _ _ =>
         if String.eqb symbol "USDGBP"
         then inr (Some [(symbol, yahooSeries)])
         else inr None;
     DataProviderInterface.search :=
       fun _ _ _ =>
         inr (Some [ lookupItem "microsoft" "MSFT" (Some "USD") "STOCK"
                       false;
                     lookupItem "Bitcoin USD" "BTCUSD" (Some "USD")
                       "CRYPTOCURRENCY" false;
                     lookupItem "Unlisted" "XXX" None "STOCK" false ]) |}.

Definition premiumQuotes : Js.obj Quote.t :=
  [ ("MSFT", quote "USD" "FINANCIAL_MODELING_PREP" 411 "open");
    ("NVDA", quote "USD" "FINANCIAL_MODELING_PREP" 120 "delayed");
    ("AAPL", quote "USD" "FINANCIAL_MODELING_PREP" 182 "open");
    ("USDEUR", quote "EUR" "FINANCIAL_MODELING_PREP" 0.875 "open") ].

Definition premium : DataProviderInterface.t :=
  {| DataProviderInterface.getName := "FINANCIAL_MODELING_PREP";
     DataProviderInterface.canHandle := fun _ => true;
     DataProviderInterface.getDataProviderInfo := noInfo true;
     DataProviderInterface.getMaxNumberOfSymbolsPerRequest := Some 2%N;
     DataProviderInterface.getQuotes :=
       fun _ symbols => inr (quotesFor premiumQuotes symbols);
     DataProviderInterface.getHistorical := fun _ _ _ _ => inr None;
     DataProviderInterface.search :=
       fun _ _ _ =>
         inr (Some [ lookupItem "Apple" "AAPL" (Some "USD") "STOCK" true ])
  |}.

(** A provider that handles no symbol (one without API key). *)
Definition rapidApi : DataProviderInterface.t :=
  {| DataProviderInterface.getName := "RAPID_API";
     DataProviderInterface.canHandle := fun _ => false;
     DataProviderInterface.getDataProviderInfo := noInfo false;
     DataProviderInterface.getMaxNumberOfSymbolsPerRequest := None;
     DataProviderInterface.getQuotes := fun _ _ => inr Js.empty;
     DataProviderInterface.getHistorical := fun _ _ _ _ => inr None;
     DataProviderInterface.search := fun _ _ _ => inr None |}.

(** *** The service *)

Definition configuration (exchangeRates : DataSource)
    : ConfigurationService.t :=
  {| ConfigurationService.CACHE_QUOTES_TTL := 60000;
     ConfigurationService.DATA_SOURCE_EXCHANGE_RATES := exchangeRates;
     ConfigurationService.DATA_SOURCE_IMPORT := "YAHOO";
     ConfigurationService.DATA_SOURCES :=
       ["YAHOO"; "FINANCIAL_MODELING_PREP"];
     ConfigurationService.DATA_SOURCES_LEGACY := None;
     ConfigurationService.ENABLE_FEATURE_SUBSCRIPTION := true |}.

Definition getQuoteKey (dataSource : DataSource) (symbol : string)
    : string :=
  "quote-" ++ dataSource ++ "-" ++ symbol.

Definition redis (store : Js.obj string) : RedisCacheService.t :=
  {| RedisCacheService.get := fun key => Js.get key store;
     RedisCacheService.getQuoteKey := getQuoteKey |}.

Definition store : Js.obj string :=
  [ ("quote-YAHOO-AAPL", "{AAPL 180}");
    ("quote-FINANCIAL_MODELING_PREP-MSFT", "{MSFT 410}");
    ("quote-YAHOO-TSLA", "not json") ].

Definition rows : list MarketData.t :=
  [ {| MarketData.date := Some 1704067200000%Z;
       MarketData.marketPrice := Js.Number 180;
       MarketData.symbol := "AAPL" |};
    {| MarketData.date := Some 1704153600000%Z;
       MarketData.marketPrice := Js.Number 181;
       MarketData.symbol := "AAPL" |} ].

Definition service (exchangeRates : DataSource) (store : Js.obj string)
    (updateMany : list Update.t -> Exception + unit)
    (queryRawUnsafe : string -> Exception + list MarketData.t)
    : DataProviderService :=
  {| configurationService := configuration exchangeRates;
     dataProviderInterfaces := [yahoo; premium; rapidApi];
     marketDataService := {| MarketDataService.updateMany := updateMany |};
     prismaService := {| PrismaService.queryRawUnsafe := queryRawUnsafe |};
     propertyService := {| PropertyService.getByKey := fun _ => None |};
     redisCacheService := redis store;
     dataProviderMapping := Js.empty |}.

Definition this : DataProviderService :=
  service "YAHOO" store (fun _ => inl (Error "database is down"))
    (fun _ => inr rows).

Definition basicUser : User.t :=
  {| User.id := "user-1";
     User.createdAt := Some 1762000000000%Z;
     User.role := "USER";
     User.subscriptionType := "Basic";
     User.isExperimentalFeatures := true |}.

Definition identifier (dataSource : DataSource) (symbol : string)
    : AssetProfileIdentifier :=
  {| dataSource := dataSource; symbol := symbol |}.

(** A portfolio: two cached symbols, a root pair with its derived pair,
    three symbols of the premium provider and the fixed pair. *)
Definition items : list AssetProfileIdentifier :=
  [ identifier "YAHOO" "AAPL";
    identifier "YAHOO" "USDGBP";
    identifier "YAHOO" "USDGBp";
    identifier "FINANCIAL_MODELING_PREP" "MSFT";
    identifier "FINANCIAL_MODELING_PREP" "NVDA";
    identifier "FINANCIAL_MODELING_PREP" "USDEUR";
    identifier "FINANCIAL_MODELING_PREP" "BTCUSD";
    identifier "YAHOO" "USDUSX" ].

(** The same service with a quote cached under the key of the fixed pair. *)
Definition thisWithCachedUSX : DataProviderService :=
  service "YAHOO" [("quote-YAHOO-USDUSX", "{USDUSX 99}")]
    (fun _ => inr tt) (fun _ => inr rows).


(** 2024-01-01 and 2024-01-03 *)
Definition from : Js.Date := Some 1704067200000%Z.
Definition to : Js.Date := Some 1704240000000%Z.

(** *** More services, for the further properties *)

(** A provider whose requests all fail. *)
Definition broken : DataProviderInterface.t :=
  {| DataProviderInterface.getName := "COINGECKO";
     DataProviderInterface.canHandle := fun _ => true;
     DataProviderInterface.getDataProviderInfo := noInfo false;
     DataProviderInterface.getMaxNumberOfSymbolsPerRequest := None;
     DataProviderInterface.getQuotes :=
       fun _ _ => inl (Error "socket hang up");
     DataProviderInterface.getHistorical :=
       fun _ _ _ _ => inl (Error "socket hang up");
     DataProviderInterface.search :=
       fun _ _ _ => inl (Error "socket hang up") |}.

(** A service with that provider among its data sources. *)
Definition thisWithBroken : DataProviderService :=
  {| configurationService :=
       {| ConfigurationService.CACHE_QUOTES_TTL := 60000;
          ConfigurationService.DATA_SOURCE_EXCHANGE_RATES := "YAHOO";
          ConfigurationService.DATA_SOURCE_IMPORT := "YAHOO";
          ConfigurationService.DATA_SOURCES := ["YAHOO"; "COINGECKO"];
          ConfigurationService.DATA_SOURCES_LEGACY := None;
          ConfigurationService.ENABLE_FEATURE_SUBSCRIPTION := true |};
     dataProviderInterfaces := [yahoo; broken];
     marketDataService :=
       {| MarketDataService.updateMany := fun _ => inr tt |};
     prismaService :=
       {| PrismaService.queryRawUnsafe := fun _ => inr rows |};
     propertyService := {| PropertyService.getByKey := fun _ => None |};
     redisCacheService := redis store;
     dataProviderMapping := Js.empty |}.

(** The sample service with YAHOO mapped to the premium provider. *)
Definition thisWithMapping : DataProviderService :=
  {| configurationService := configuration "YAHOO";
     dataProviderInterfaces := [yahoo; premium; rapidApi];
     marketDataService :=
       {| MarketDataService.updateMany := fun _ => inr tt |};
     prismaService :=
       {| PrismaService.queryRawUnsafe := fun _ => inr rows |};
     propertyService := {| PropertyService.getByKey := fun _ => None |};
     redisCacheService := redis store;
     dataProviderMapping := [("YAHOO", "FINANCIAL_MODELING_PREP")] |}.

(** Rows in which AAPL has two prices for 2024-01-01 (as when two data
    sources have the symbol), and rows of which one has no valid date. *)
Definition rowsOfTwoSources : list MarketData.t :=
  rows
  ++ [ {| MarketData.date := Some 1704067200000%Z;
          MarketData.marketPrice := Js.Number 179;
          MarketData.symbol := "AAPL" |} ].

Definition rowsWithInvalidDate : list MarketData.t :=
  rows
  ++ [ {| MarketData.date := None;
          MarketData.marketPrice := Js.Number 179;
          MarketData.symbol := "AAPL" |} ].

Definition thisWithTwoSources : DataProviderService :=
  service "YAHOO" store (fun _ => inr tt) (fun _ => inr rowsOfTwoSources).

Definition thisWithInvalidRow : DataProviderService :=
  service "YAHOO" store (fun _ => inr tt)
    (fun _ => inr rowsWithInvalidDate).

(** The two further methods of the providers. *)
Definition getTestSymbol (dataProvider : DataProviderInterface.t)
    : string :=
  if String.eqb (DataProviderInterface.getName dataProvider) "YAHOO"
  then "AAPL"
  else "MSFT".

Definition SymbolProfile : Type := string.

Definition getAssetProfile (dataProvider : DataProviderInterface.t)
    (symbol : string) : Exception + SymbolProfile :=
  if String.eqb (DataProviderInterface.getName dataProvider) "COINGECKO"
  then inl (Error "socket hang up")
  else inr (DataProviderInterface.getName dataProvider ++ ":" ++ symbol)%string.

(** A provider that declares a maximum of 0 symbols per request, and a
    service with it. *)
Definition stuck : DataProviderInterface.t :=
  {| DataProviderInterface.getName := "MANUAL";
     DataProviderInterface.canHandle := fun _ => true;
     DataProviderInterface.getDataProviderInfo := noInfo false;
     DataProviderInterface.getMaxNumberOfSymbolsPerRequest := Some 0%N;
     DataProviderInterface.getQuotes := fun _ _ => inr Js.empty;
     DataProviderInterface.getHistorical := fun _ _ _ _ => inr None;
     DataProviderInterface.search := fun _ _ _ => inr None |}.

Definition thisWithStuck : DataProviderService :=
  {| configurationService := configuration "YAHOO";
     dataProviderInterfaces := [yahoo; stuck];
     marketDataService :=
       {| MarketDataService.updateMany := fun _ => inr tt |};
     prismaService :=
       {| PrismaService.queryRawUnsafe := fun _ => inr rows |};
     propertyService := {| PropertyService.getByKey := fun _ => None |};
     redisCacheService := redis store;
     dataProviderMapping := Js.empty |}.

(** *** Services in which the cache holds a derived pair, a quote has no
    price, or two providers have the same pair *)


(** A provider whose quote of USDGBP has no market price, and whose
    history of USDGBP is not that of the provider of the exchange rates. *)
Definition eodQuotes : Js.obj Quote.t :=
  [ ("USDCHF", quote "CHF" "EOD_HISTORICAL_DATA" 0.5 "open");
    ("USDGBP",
     {| Quote.currency := "GBP";
        Quote.dataSource := "EOD_HISTORICAL_DATA";
        Quote.marketPrice := Js.NotANumber;
        Quote.marketState := "open" |});
    ("USDZAR", quote "ZAR" "EOD_HISTORICAL_DATA" 18 "open") ].

Definition eodSeries : Js.obj Historical.t :=
  [ ("day 19723", {| Historical.marketPrice := Js.Number 2 |}) ].

Definition eod : DataProviderInterface.t :=
  {| DataProviderInterface.getName := "EOD_HISTORICAL_DATA";
     DataProviderInterface.canHandle := fun _ => true;
     DataProviderInterface.getDataProviderInfo := noInfo false;
     DataProviderInterface.getMaxNumberOfSymbolsPerRequest := None;
     DataProviderInterface.getQuotes :=
       fun _ symbols => inr (quotesFor eodQuotes symbols);
     DataProviderInterface.getHistorical :=
       fun _ symbol _ _ =>
         if String.eqb symbol "USDGBP"
         then inr (Some [(symbol, eodSeries)])
         else inr None;
     DataProviderInterface.search := fun _ _ _ => inr None |}.

Definition thisWithEod : DataProviderService :=
  {| configurationService := configuration "YAHOO";
     dataProviderInterfaces := [yahoo; eod];
     marketDataService :=
       {| MarketDataService.updateMany := fun _ => inr tt |};
     prismaService :=
       {| PrismaService.queryRawUnsafe := fun _ => inr rows |};
     propertyService := {| PropertyService.getByKey := fun _ => None |};
     redisCacheService := redis [];
     dataProviderMapping := Js.empty |}.

End Sample.

(** ** DataProviderService *)

Section DataProviderService.

(** *** What the module imports

    [@ghostfolio/common/config] and [@ghostfolio/common/helper] *)
Variable DEFAULT_CURRENCY : string.
Variable DERIVED_CURRENCIES : list Derived.t.
Variable PROPERTY_API_KEY_GHOSTFOLIO : string.
Variable DATE_FORMAT : string.
Variable getCurrencyFromSymbol : string -> string.
Variable getStartOfUtcDate : Js.Date -> Js.Date.
Variable isCurrency : string -> bool.
Variable isDerivedCurrency : string -> bool.

(** [@ghostfolio/common/permissions] *)
Variable hasRole : User.t -> string -> bool.

(** big.js: [new Big(a).mul(b).toNumber()], [None] when big.js throws
    (it rejects NaN, the infinities and what is not a number). *)
Variable Big_mul_toNumber : Js.value -> Js.value -> option float.

(** date-fns: [format] of a valid date, and [eachDayOfInterval], which
    throws on an invalid interval. *)
Variable format : Z -> string -> string.
Variable eachDayOfInterval : Js.Date -> Js.Date -> Exception + list Js.Date.

(** [JSON.parse] of a cached quote ([None] when it throws) and
    [JSON.stringify]. *)
Variable JSON_parse : string -> option Quote.t.
Variable JSON_stringify : Quote.t -> string.

(** [String.prototype.toLowerCase], and [a.localeCompare(b) <= 0]. *)
Variable toLowerCase : string -> string.
Variable localeCompare_le : string -> string -> bool.

(** [new Date()]: the clock. *)
Variable now : Js.Date.

(** The order in which the settled promises of one [Promise.all] have
    their callbacks run. *)
Variable schedule : forall A : Type, list A -> list A.

(** [ms('30 seconds')] *)
Definition ms_30_seconds : Z := 30000.

(** [format(date, DATE_FORMAT)], which throws a [RangeError] on an
    invalid date. *)
Definition formatDate (date : Js.Date) : Exception + string :=
  match date with
  | Some t => inr (format t DATE_FORMAT)
  | None => inl (Error "Invalid time value")
  end.

(** *** getDataProvider *)

Fixpoint getDataProviderFrom (this : DataProviderService)
    (providerName : DataSource) (interfaces : list DataProviderInterface.t)
    : Exception + DataProviderInterface.t :=
  match interfaces with
  | [] => inl (Error "No data provider has been found.")
  | dataProviderInterface :: rest =>
      let mappedDataProviderInterface :=
        match Js.get (DataProviderInterface.getName dataProviderInterface)
                (dataProviderMapping this) with
        | Some mapped =>
            if Js.truthy mapped then
              find (fun currentDataProviderInterface =>
                      String.eqb
                        (DataProviderInterface.getName
                           currentDataProviderInterface)
                        mapped)
                   (dataProviderInterfaces this)
            else None
        | None => None
        end in
      match mappedDataProviderInterface with
      | Some mapped => inr mapped
      | None =>
          if String.eqb (DataProviderInterface.getName dataProviderInterface)
               providerName
          then inr dataProviderInterface
          else getDataProviderFrom this providerName rest
      end
  end.

Definition getDataProvider (this : DataProviderService)
    (providerName : DataSource) : Exception + DataProviderInterface.t :=
  getDataProviderFrom this providerName (dataProviderInterfaces this).

Definition getDataSourceForExchangeRates (this : DataProviderService)
    : DataSource :=
  ConfigurationService.DATA_SOURCE_EXCHANGE_RATES (configurationService this).

Definition getDataSourceForImport (this : DataProviderService) : DataSource :=
  ConfigurationService.DATA_SOURCE_IMPORT (configurationService this).

(** *** getDataSources *)

(** [new Date('2025-03-23')] *)
Definition date_2025_03_23 : Js.Date := Some 1742688000000%Z.

Definition getDataSources (this : DataProviderService)
    (includeGhostfolio : bool) (user : User.t) : list DataSource :=
  let legacy :=
    negb (hasRole user "ADMIN")
    && Js.isBefore (User.createdAt user) date_2025_03_23
    && match ConfigurationService.DATA_SOURCES_LEGACY
               (configurationService this) with
       | Some l => (0 <? length l)%nat
       | None => false
       end in
  let dataSources :=
    if legacy then
      match ConfigurationService.DATA_SOURCES_LEGACY
              (configurationService this) with
      | Some l => l
      | None => []
      end
    else ConfigurationService.DATA_SOURCES (configurationService this) in
  let ghostfolioApiKey :=
    PropertyService.getByKey (propertyService this)
      PROPERTY_API_KEY_GHOSTFOLIO in
  let dataSources :=
    if includeGhostfolio
       || match ghostfolioApiKey with
          | Some key => Js.truthy key
          | None => false
          end
    then dataSources ++ ["GHOSTFOLIO"]
    else dataSources in
  sortBy String.leb dataSources.

(** *** getHistorical *)

Definition doubleQuote : string := String (ascii_of_nat 34) EmptyString.
Definition newline : string := String (ascii_of_nat 10) EmptyString.

(** The text of the query, as the template literal builds it. *)
Definition queryRaw (dataSources symbols : list string)
    (granularityQuery rangeQuery : string) : string :=
  newline ++ "        SELECT *"
  ++ newline ++ "        FROM " ++ doubleQuote ++ "MarketData" ++ doubleQuote
  ++ newline ++ "        WHERE " ++ doubleQuote ++ "dataSource" ++ doubleQuote
  ++ " IN ('" ++ Js.join "','" dataSources ++ "')"
  ++ newline ++ "          AND " ++ doubleQuote ++ "symbol" ++ doubleQuote
  ++ " IN ('" ++ Js.join "','" symbols ++ "') "
  ++ granularityQuery ++ " " ++ rangeQuery
  ++ newline ++ "        ORDER BY date;".

(** The callback of [marketDataByGranularity.reduce]. *)
Fixpoint reduceMarketData (rows : list MarketData.t)
    (r : Js.obj (Js.obj Historical.t))
    : Exception + Js.obj (Js.obj Historical.t) :=
  match rows with
  | [] => inr r
  | marketData :: rest =>
      match formatDate (MarketData.date marketData) with
      | inl e => inl e
      | inr key =>
          let previous :=
            match Js.get (MarketData.symbol marketData) r with
            | Some o => o
            | None => Js.empty
            end in
          reduceMarketData rest
            (Js.set (MarketData.symbol marketData)
               (Js.set key
                  {| Historical.marketPrice :=
                       MarketData.marketPrice marketData |}
                  previous)
               r)
      end
  end.

(** [try { response = body } catch (error) { handler } finally { return
    response }]: the value of [response] is returned whatever happens in
    the [try] and [catch] blocks. *)
Definition tryCatchFinallyReturn {A : Type} (response : A) (body : M A)
    (handler : Exception -> M unit) : M A :=
  match body with
  | (log, inr a) => (log, inr a)
  | (log, inl e) => let '(log', _) := handler e in (log ++ log', inr response)
  end.

Definition getHistorical (this : DataProviderService)
    (aItems : list AssetProfileIdentifier) (aGranularity : string)
    (from to : Js.Date) : M (Js.obj (Js.obj Historical.t)) :=
  let response : Js.obj (Js.obj Historical.t) := Js.empty in
  if match aItems with [] => true | _ => false end
     || negb (Js.isValid from) || negb (Js.isValid to)
  then ret response
  else
    let granularityQuery :=
      if String.eqb aGranularity "month"
      then "AND (date_part('day', date) = 1 OR date >= TIMESTAMP 'yesterday')"
      else EmptyString in
    (* [from && to] holds: both are Date objects *)
    formattedFrom <- settle (formatDate from) ;;
    formattedTo <- settle (formatDate to) ;;
    let rangeQuery : string :=
      ("AND date >= '" ++ formattedFrom ++ "' AND date <= '" ++ formattedTo
       ++ "'")%string in
    let dataSources := map dataSource aItems in
    let symbols := map symbol aItems in
    tryCatchFinallyReturn response
      (let query := queryRaw dataSources symbols granularityQuery rangeQuery in
       emit (PrismaQueryRawUnsafe query) ;;;
       marketDataByGranularity <-
         settle (PrismaService.queryRawUnsafe (prismaService this) query) ;;
       settle (reduceMarketData marketDataByGranularity Js.empty))
      (fun error => emit (LoggerError error "DataProviderService")).

(** *** Promise.all *)

Fixpoint firstRejection {A : Type} (promises : list (Exception + A))
    : option Exception :=
  match promises with
  | [] => None
  | inl e :: _ => Some e
  | inr _ :: rest => firstRejection rest
  end.

Fixpoint fulfilled {A : Type} (promises : list (Exception + A)) : list A :=
  match promises with
  | [] => []
  | inl _ :: rest => fulfilled rest
  | inr a :: rest => a :: fulfilled rest
  end.

(** [await Promise.all(promises)] for promises without callbacks: the
    values in the order of [promises], or the rejection that comes first
    in time. *)
Definition Promise_all {A : Type} (promises : list (Exception + A))
    : M (list A) :=
  match firstRejection (schedule _ promises) with
  | Some e => throw e
  | None => ret (fulfilled promises)
  end.

Fixpoint mapM {A B : Type} (f : A -> M B) (a : list A) : M (list B) :=
  match a with
  | [] => ret []
  | x :: rest => y <- f x ;; ys <- mapM f rest ;; ret (y :: ys)
  end.

(** *** getHistoricalRaw *)

Definition hasCurrency (this : DataProviderService)
    (assetProfileIdentifiers : list AssetProfileIdentifier)
    (currency : string) : bool :=
  existsb
    (fun i =>
       String.eqb (dataSource i) (getDataSourceForExchangeRates this)
       && String.eqb (symbol i) currency)
    assetProfileIdentifiers.

(** The loop over [DERIVED_CURRENCIES] that opens [getHistoricalRaw]. *)
Fixpoint replaceDerivedCurrencies (this : DataProviderService)
    (derived : list Derived.t)
    (assetProfileIdentifiers : list AssetProfileIdentifier)
    : list AssetProfileIdentifier :=
  match derived with
  | [] => assetProfileIdentifiers
  | d :: rest =>
      if hasCurrency this assetProfileIdentifiers
           (DEFAULT_CURRENCY ++ Derived.currency d)
      then
        replaceDerivedCurrencies this rest
          (filter
             (fun i =>
                negb (String.eqb (symbol i)
                        (DEFAULT_CURRENCY ++ Derived.currency d)))
             assetProfileIdentifiers
           ++ [ {| dataSource := getDataSourceForExchangeRates this;
                   symbol := DEFAULT_CURRENCY ++ Derived.rootCurrency d |} ])
      else replaceDerivedCurrencies this rest assetProfileIdentifiers
  end.

Definition sameIdentifier (obj1 obj2 : AssetProfileIdentifier) : bool :=
  String.eqb (dataSource obj1) (dataSource obj2)
  && String.eqb (symbol obj1) (symbol obj2).

(** The series of the pair with USX: 100 on every day of the interval. *)
Fixpoint fixedSeries (days : list Js.Date) (data : Js.obj Historical.t)
    : Exception + Js.obj Historical.t :=
  match days with
  | [] => inr data
  | date :: rest =>
      match formatDate date with
      | inl e => inl e
      | inr key =>
          fixedSeries rest
            (Js.set key {| Historical.marketPrice := Js.Number 100 |} data)
      end
  end.

(** The loop that creates the promises of [getHistoricalRaw]. *)
Fixpoint historicalPromises (this : DataProviderService) (from to : Js.Date)
    (assetProfileIdentifiers : list AssetProfileIdentifier)
    : M (list (Exception + HistoricalData)) :=
  match assetProfileIdentifiers with
  | [] => ret []
  | i :: rest =>
      dataProvider <- settle (getDataProvider this (dataSource i)) ;;
      if DataProviderInterface.canHandle dataProvider (symbol i) then
        if String.eqb (symbol i) (DEFAULT_CURRENCY ++ "USX") then
          days <- settle (eachDayOfInterval from to) ;;
          series <- settle (fixedSeries days Js.empty) ;;
          promises <- historicalPromises this from to rest ;;
          ret (inr {| data := Some series; dataSymbol := symbol i |}
               :: promises)
        else
          emit (ProviderGetHistorical
                  (DataProviderInterface.getName dataProvider)
                  from (symbol i) to ms_30_seconds) ;;;
          let promise :=
            match DataProviderInterface.getHistorical dataProvider
                    from (symbol i) to ms_30_seconds with
            | inl e => inl e
            | inr response =>
                inr {| data :=
                         match response with
                         | Some o => Js.get (symbol i) o
                         | None => None
                         end;
                       dataSymbol := symbol i |}
            end in
          promises <- historicalPromises this from to rest ;;
          ret (promise :: promises)
      else historicalPromises this from to rest
  end.

(** The loop over the dates of [rootData] in [transformHistoricalData]. *)
Fixpoint transformDates (factor : float) (rootData : Js.obj Historical.t)
    (dates : list string) (data : Js.obj Historical.t)
    : Exception + Js.obj Historical.t :=
  match dates with
  | [] => inr data
  | date :: rest =>
      match Js.get date rootData with
      | Some h =>
          if Js.isNumber (Historical.marketPrice h) then
            match Big_mul_toNumber (Js.Number factor)
                    (Historical.marketPrice h) with
            | Some price =>
                transformDates factor rootData rest
                  (Js.set date
                     {| Historical.marketPrice := Js.Number price |} data)
            | None => inl (Error "[big.js] Invalid number")
            end
          else transformDates factor rootData rest data
      | None => transformDates factor rootData rest data
      end
  end.

Definition transformHistoricalData (allData : list HistoricalData)
    (currency : string) (factor : float)
    : Exception + Js.obj Historical.t :=
  let rootData :=
    match find (fun d => String.eqb (dataSymbol d) currency) allData with
    | Some d => data d
    | None => None
    end in
  match rootData with
  | Some rootData =>
      transformDates factor rootData (Js.keys rootData) Js.empty
  | None => inr Js.empty
  end.

(** The loop over [allData] that fills [result]. *)
Fixpoint collectHistorical (allData remaining : list HistoricalData)
    (result : Js.obj (option (Js.obj Historical.t)))
    : Exception + Js.obj (option (Js.obj Historical.t)) :=
  match remaining with
  | [] => inr result
  | d :: rest =>
      let currency :=
        find
          (fun c =>
             String.eqb (DEFAULT_CURRENCY ++ Derived.rootCurrency c)
               (dataSymbol d))
          DERIVED_CURRENCIES in
      let derived :=
        match currency with
        | Some c =>
            match transformHistoricalData allData
                    (DEFAULT_CURRENCY ++ Derived.rootCurrency c)
                    (Derived.factor c) with
            | inl e => inl e
            | inr series =>
                inr (Js.set (DEFAULT_CURRENCY ++ Derived.currency c)
                       (Some series) result)
            end
        | None => inr result
        end in
      match derived with
      | inl e => inl e
      | inr result =>
          collectHistorical allData rest
            (Js.set (dataSymbol d) (data d) result)
      end
  end.

Definition getHistoricalRaw (this : DataProviderService)
    (assetProfileIdentifiers : list AssetProfileIdentifier)
    (from to : Js.Date) : M (Js.obj (option (Js.obj Historical.t))) :=
  let assetProfileIdentifiers :=
    replaceDerivedCurrencies this DERIVED_CURRENCIES
      assetProfileIdentifiers in
  let assetProfileIdentifiers :=
    uniqWith assetProfileIdentifiers sameIdentifier in
  promises <- historicalPromises this from to assetProfileIdentifiers ;;
  tryCatch
    (allData <- Promise_all promises ;;
     settle (collectHistorical allData allData Js.empty))
    (fun error =>
       emit (LoggerError error "DataProviderService") ;;; throw error).

(** *** getQuotes *)

(** The quote of the pair with USX. *)
Definition quoteUSX (this : DataProviderService) : Quote.t :=
  {| Quote.currency := "USX";
     Quote.dataSource := getDataSourceForExchangeRates this;
     Quote.marketPrice := Js.Number 100;
     Quote.marketState := "open" |}.

(** The loop "Get items from cache": the response and [itemsToFetch]. *)
Fixpoint getItemsFromCache (this : DataProviderService) (useCache : bool)
    (items : list AssetProfileIdentifier) (response : Js.obj Quote.t)
    (itemsToFetch : list AssetProfileIdentifier)
    : Js.obj Quote.t * list AssetProfileIdentifier :=
  match items with
  | [] => (response, itemsToFetch)
  | i :: rest =>
      let cachedDataProviderResponse :=
        if useCache then
          match RedisCacheService.get (redisCacheService this)
                  (RedisCacheService.getQuoteKey (redisCacheService this)
                     (dataSource i) (symbol i)) with
          | Some quoteString =>
              if Js.truthy quoteString then JSON_parse quoteString else None
          | None => None
          end
        else None in
      match cachedDataProviderResponse with
      | Some quote =>
          getItemsFromCache this useCache rest
            (Js.set (symbol i) quote response) itemsToFetch
      | None =>
          getItemsFromCache this useCache rest response
            (itemsToFetch
             ++ [ {| dataSource := dataSource i; symbol := symbol i |} ])
      end
  end.

(** The filter applied to the identifiers of one data source. *)
Definition keepSymbol (this : DataProviderService)
    (dataProvider : DataProviderInterface.t) (user : option User.t)
    (symbol : string) : bool :=
  if isCurrency (getCurrencyFromSymbol symbol) then
    (* Keep non-derived currencies *)
    negb (isDerivedCurrency (getCurrencyFromSymbol symbol))
  else if
    Info.isPremium (DataProviderInterface.getDataProviderInfo dataProvider)
    && ConfigurationService.ENABLE_FEATURE_SUBSCRIPTION
         (configurationService this)
    && match user with
       | Some u => String.eqb (User.subscriptionType u) "Basic"
       | None => false
       end
  then
    (* Skip symbols of Premium data providers for users without
       subscription *)
    false
  else true.

Definition symbolsToFetch (this : DataProviderService)
    (dataProvider : DataProviderInterface.t) (user : option User.t)
    (assetProfileIdentifiers : list AssetProfileIdentifier) : list string :=
  map symbol
    (filter (fun i => keepSymbol this dataProvider user (symbol i))
       assetProfileIdentifiers).

(** The loop [for (let i = 0; i < symbols.length; i += maximum...)], which
    calls the provider for each chunk.  It does not terminate when the
    maximum is 0; [fuel] bounds the number of rounds of the model. *)
Fixpoint requestChunks (fuel : nat) (dataSource : DataSource)
    (dataProvider : DataProviderInterface.t) (requestTimeout : option Z)
    (symbols : list string) (maximumNumberOfSymbolsPerRequest i : N)
    : M (list PendingQuotes) :=
  if (i <? N.of_nat (length symbols))%N then
    match fuel with
    | O => throw DoesNotTerminate
    | S fuel' =>
        let symbolsChunk :=
          Js.slice i (i + maximumNumberOfSymbolsPerRequest) symbols in
        emit (ProviderGetQuotes (DataProviderInterface.getName dataProvider)
                requestTimeout symbolsChunk) ;;;
        let promise :=
          {| pendingDataSource := dataSource;
             pendingSymbolsChunk := symbolsChunk;
             pendingResult :=
               DataProviderInterface.getQuotes dataProvider requestTimeout
                 symbolsChunk |} in
        promises <-
          requestChunks fuel' dataSource dataProvider requestTimeout symbols
            maximumNumberOfSymbolsPerRequest
            (i + maximumNumberOfSymbolsPerRequest) ;;
        ret (promise :: promises)
    end
  else ret [].

Definition maximumNumberOfSymbolsPerRequest
    (dataProvider : DataProviderInterface.t) : N :=
  match DataProviderInterface.getMaxNumberOfSymbolsPerRequest
          dataProvider with
  | Some maximum => maximum
  | None => Js.MAX_SAFE_INTEGER
  end.

(** The loop over [Object.entries(itemsGroupedByDataSource)]. *)
Fixpoint requestGroups (this : DataProviderService) (user : option User.t)
    (requestTimeout : option Z)
    (groups : list (string * list AssetProfileIdentifier))
    : M (list PendingQuotes) :=
  match groups with
  | [] => ret []
  | (dataSource, assetProfileIdentifiers) :: rest =>
      dataProvider <- settle (getDataProvider this dataSource) ;;
      let symbols :=
        symbolsToFetch this dataProvider user assetProfileIdentifiers in
      promises <-
        requestChunks (length symbols) dataSource dataProvider requestTimeout
          symbols (maximumNumberOfSymbolsPerRequest dataProvider) 0 ;;
      morePromises <- requestGroups this user requestTimeout rest ;;
      ret (promises ++ morePromises)
  end.

(** The symbols whose entries of a provider's result are skipped. *)
Definition skippedSymbols : list string :=
  map (fun d => (DEFAULT_CURRENCY ++ Derived.currency d)%string)
    DERIVED_CURRENCIES
  ++ [(DEFAULT_CURRENCY ++ "USX")%string].

(** The quote of a derived currency, made from the quote of its root. *)
Definition derivedQuote (dataProviderResponse : Quote.t) (currency : string)
    (marketPrice : float) : Quote.t :=
  {| Quote.currency := currency;
     Quote.dataSource := Quote.dataSource dataProviderResponse;
     Quote.marketPrice := Js.Number marketPrice;
     Quote.marketState := "open" |}.

(** The inner loop over [DERIVED_CURRENCIES] for one entry of a result. *)
Fixpoint addDerivedQuotes (this : DataProviderService)
    (dataSource : DataSource) (result : Js.obj Quote.t) (symbol : string)
    (dataProviderResponse : Quote.t) (derived : list Derived.t)
    : Callback unit :=
  match derived with
  | [] => retC tt
  | d :: rest =>
      if String.eqb symbol (DEFAULT_CURRENCY ++ Derived.rootCurrency d) then
        (rootQuote <-
           perform
             match Js.get (DEFAULT_CURRENCY ++ Derived.rootCurrency d)
                     result with
             | Some q => ret q
             | None => throw (Error "Cannot read properties of undefined")
             end ;;
         marketPrice <-
           perform
             match Big_mul_toNumber (Quote.marketPrice rootQuote)
                     (Js.Number (Derived.factor d)) with
             | Some price => ret price
             | None => throw (Error "[big.js] Invalid number")
             end ;;
         let quote :=
           derivedQuote dataProviderResponse (Derived.currency d)
             marketPrice in
         assignTo (DEFAULT_CURRENCY ++ Derived.currency d) quote ;;;
         perform
           (emit (RedisSet
                    (RedisCacheService.getQuoteKey (redisCacheService this)
                       dataSource (DEFAULT_CURRENCY ++ Derived.currency d))
                    (JSON_stringify quote)
                    (ConfigurationService.CACHE_QUOTES_TTL
                       (configurationService this)))) ;;;
         addDerivedQuotes this dataSource result symbol dataProviderResponse
           rest)%callback
      else
        addDerivedQuotes this dataSource result symbol dataProviderResponse
          rest
  end.

(** The loop over [Object.entries(result)] in the [then] callback. *)
Fixpoint addQuotes (this : DataProviderService) (dataSource : DataSource)
    (result : Js.obj Quote.t) (entries : list (string * Quote.t))
    : Callback unit :=
  match entries with
  | [] => retC tt
  | (symbol, dataProviderResponse) :: rest =>
      if Js.includes symbol skippedSymbols then
        addQuotes this dataSource result rest
      else
        (assignTo symbol dataProviderResponse ;;;
         perform
           (emit (RedisSet
                    (RedisCacheService.getQuoteKey (redisCacheService this)
                       dataSource symbol)
                    (JSON_stringify dataProviderResponse)
                    (ConfigurationService.CACHE_QUOTES_TTL
                       (configurationService this)))) ;;;
         addDerivedQuotes this dataSource result symbol dataProviderResponse
           DERIVED_CURRENCIES ;;;
         addQuotes this dataSource result rest)%callback
  end.

(** The [data] of [marketDataService.updateMany]. *)
Definition isIntraday (response : Js.obj Quote.t) (symbol : string) : bool :=
  match Js.get symbol response with
  | Some quote =>
      Js.isNumber (Quote.marketPrice quote)
      && Js.gt0 (Quote.marketPrice quote)
      && String.eqb (Quote.marketState quote) "open"
  | None => false
  end.

Definition intradayUpdate (response : Js.obj Quote.t) (symbol : string)
    : list Update.t :=
  match Js.get symbol response with
  | Some quote =>
      [ {| Update.symbol := symbol;
           Update.dataSource := Quote.dataSource quote;
           Update.date := getStartOfUtcDate now;
           Update.marketPrice := Quote.marketPrice quote;
           Update.state := "INTRADAY" |} ]
  | None => []
  end.

Definition intradayData (response : Js.obj Quote.t) : list Update.t :=
  flat_map (intradayUpdate response)
    (filter (isIntraday response) (Js.keys response)).

(** The [then] callback of one upstream request.  When the loop over the
    entries throws, the callback ends there, before [updateMany]. *)
Definition onQuotes (this : DataProviderService) (promise : PendingQuotes)
    (result : Js.obj Quote.t) : Callback unit :=
  (addQuotes this (pendingDataSource promise) result (Js.entries result) ;;;
   response <- current ;;
   perform
     (tryCatch
        (emit (MarketDataUpdateMany (intradayData response)) ;;;
         settle (MarketDataService.updateMany (marketDataService this)
                   (intradayData response)))%monad
        (fun _ => ret tt)))%callback.

(** The callbacks of the requests, in the order in which the requests
    settle.  The callback of every fulfilled request runs, whatever becomes
    of the other requests and callbacks; a rejected request has no callback
    run.  The promise [promise.then(callback)] is rejected when the request
    is, or when the callback throws.  The result is the calls made,
    [response] as the callbacks leave it, and the first rejection, if any:
    the one that [Promise.all] is rejected with. *)
Fixpoint runCallbacks (this : DataProviderService)
    (settled : list PendingQuotes) (response : Js.obj Quote.t)
    : list Event * Js.obj Quote.t * option Exception :=
  match settled with
  | [] => ([], response, None)
  | promise :: rest =>
      let '(log, response, rejection) :=
        match pendingResult promise with
        | inl e => ([], response, Some e)
        | inr result =>
            match onQuotes this promise result response with
            | (log, response, inl e) => (log, response, Some e)
            | (log, response, inr _) => (log, response, None)
            end
        end in
      let '(log', response, rejection') :=
        runCallbacks this rest response in
      (log ++ log', response,
       match rejection with
       | Some e => Some e
       | None => rejection'
       end)
  end.

(** The requests that the loop over the groups has made when it throws at
    a data source without provider: those of the groups before. *)
Fixpoint createdRequests (this : DataProviderService)
    (user : option User.t) (requestTimeout : option Z)
    (groups : list (string * list AssetProfileIdentifier))
    : list PendingQuotes :=
  match groups with
  | [] => []
  | (dataSource, assetProfileIdentifiers) :: rest =>
      match getDataProvider this dataSource with
      | inl _ => []
      | inr dataProvider =>
          let symbols :=
            symbolsToFetch this dataProvider user assetProfileIdentifiers in
          match outcome
                  (requestChunks (length symbols) dataSource dataProvider
                     requestTimeout symbols
                     (maximumNumberOfSymbolsPerRequest dataProvider) 0) with
          | inl _ => []
          | inr promises =>
              promises ++ createdRequests this user requestTimeout rest
          end
      end
  end.

Definition initialResponse (this : DataProviderService)
    (items : list AssetProfileIdentifier) : Js.obj Quote.t :=
  if existsb
       (fun i => String.eqb (symbol i) (DEFAULT_CURRENCY ++ "USX")) items
  then Js.set (DEFAULT_CURRENCY ++ "USX") (quoteUSX this) Js.empty
  else Js.empty.

(** The loop over the groups is synchronous: no callback runs before it
    ends, and none ever runs when it does not end.  When it throws, the
    call is rejected at once, and the callbacks of the requests made so
    far run later.  Otherwise the call awaits [Promise.all]. *)
Definition getQuotes (this : DataProviderService)
    (items : list AssetProfileIdentifier) (requestTimeout : option Z)
    (useCache : bool) (user : option User.t) : M (Js.obj Quote.t) :=
  let response := initialResponse this items in
  let '(response, itemsToFetch) :=
    getItemsFromCache this useCache items response [] in
  let itemsGroupedByDataSource := groupBy dataSource itemsToFetch in
  match requestGroups this user requestTimeout itemsGroupedByDataSource with
  | (log, inr promises) =>
      let '(log', response, rejection) :=
        runCallbacks this (schedule _ promises) response in
      (log ++ log',
       match rejection with
       | Some e => inl e
       | None => inr response
       end)
  | (log, inl DoesNotTerminate) => (log, inl DoesNotTerminate)
  | (log, inl e) =>
      let promises :=
        createdRequests this user requestTimeout itemsGroupedByDataSource in
      let '(log', _, _) :=
        runCallbacks this (schedule _ promises) response in
      (log ++ log', inl e)
  end.

(** *** search *)

(** [name.replace(new RegExp(` ${DEFAULT_CURRENCY}$`), '')], for a
    [DEFAULT_CURRENCY] made of letters: the suffix is removed when the name
    ends with it. *)
Definition removeSuffix (suffix name : string) : string :=
  let n := String.length name in
  let m := String.length suffix in
  if (m <=? n)%nat && String.eqb (substring (n - m) m name) suffix
  then substring 0 (n - m) name
  else name.

(** The callback of [.map] on the filtered lookup items. *)
Definition adjustLookupItem (this : DataProviderService) (user : User.t)
    (lookupItem : LookupItem.t) : LookupItem.t :=
  let info := LookupItem.dataProviderInfo lookupItem in
  let info :=
    if ConfigurationService.ENABLE_FEATURE_SUBSCRIPTION
         (configurationService this)
    then
      {| Info.isPremium :=
           if String.eqb (User.subscriptionType user) "Premium"
           then false
           else Info.isPremium info;
         Info.dataSource := None;
         Info.name := None;
         Info.url := None |}
    else
      {| Info.isPremium := false;
         Info.dataSource := Info.dataSource info;
         Info.name := Info.name info;
         Info.url := Info.url info |} in
  let name :=
    if String.eqb (LookupItem.assetSubClass lookupItem) "CRYPTOCURRENCY"
       && User.isExperimentalFeatures user
    then
      (* Remove DEFAULT_CURRENCY at the end of cryptocurrency names *)
      removeSuffix (" " ++ DEFAULT_CURRENCY) (LookupItem.name lookupItem)
    else LookupItem.name lookupItem in
  {| LookupItem.assetSubClass := LookupItem.assetSubClass lookupItem;
     LookupItem.currency := LookupItem.currency lookupItem;
     LookupItem.dataProviderInfo := info;
     LookupItem.name := name;
     LookupItem.symbol := LookupItem.symbol lookupItem |}.

(** Only allow symbols with supported currency *)
Definition hasSupportedCurrency (lookupItem : LookupItem.t) : bool :=
  match LookupItem.currency lookupItem with
  | Some c => Js.truthy c
  | None => false
  end.

(** The comparator of the final sort does not put [item2] first. *)
Definition nameLe (item1 item2 : LookupItem.t) : bool :=
  localeCompare_le (toLowerCase (LookupItem.name item1))
    (toLowerCase (LookupItem.name item2)).

(** The concatenation of the item lists of the search results. *)
Fixpoint concatItems (searchResults : list (option (list LookupItem.t)))
    (lookupItems : list LookupItem.t) : list LookupItem.t :=
  match searchResults with
  | [] => lookupItems
  | Some items :: rest =>
      if (0 <? length items)%nat
      then concatItems rest (lookupItems ++ items)
      else concatItems rest lookupItems
  | None :: rest => concatItems rest lookupItems
  end.

Definition search (this : DataProviderService) (includeIndices : bool)
    (query : string) (user : User.t) : M (list LookupItem.t) :=
  if (String.length query <? 2)%nat then ret []
  else
    let dataSources := getDataSources this false user in
    dataProviderServices <-
      mapM (fun dataSource => settle (getDataProvider this dataSource))
        dataSources ;;
    promises <-
      mapM
        (fun dataProviderService =>
           emit (ProviderSearch
                   (DataProviderInterface.getName dataProviderService)
                   includeIndices query (User.id user)) ;;;
           ret (DataProviderInterface.search dataProviderService
                  includeIndices query (User.id user)))
        dataProviderServices ;;
    searchResults <- Promise_all promises ;;
    let lookupItems := concatItems searchResults [] in
    ret (sortBy nameLe
           (map (adjustLookupItem this user)
              (filter hasSupportedCurrency lookupItems))).

(** *** Views of [getQuotes] used to state its properties *)

(** The assignments [response[key] = quote] that the inner loop over
    [DERIVED_CURRENCIES] makes for one entry of a result, in order. *)
Fixpoint derivedAssignments (result : Js.obj Quote.t) (symbol : string)
    (dataProviderResponse : Quote.t) (derived : list Derived.t)
    : Exception + list (string * Quote.t) :=
  match derived with
  | [] => inr []
  | d :: rest =>
      if String.eqb symbol (DEFAULT_CURRENCY ++ Derived.rootCurrency d) then
        match Js.get (DEFAULT_CURRENCY ++ Derived.rootCurrency d) result with
        | None => inl (Error "Cannot read properties of undefined")
        | Some rootQuote =>
            match Big_mul_toNumber (Quote.marketPrice rootQuote)
                    (Js.Number (Derived.factor d)) with
            | None => inl (Error "[big.js] Invalid number")
            | Some price =>
                match derivedAssignments result symbol dataProviderResponse
                        rest with
                | inl e => inl e
                | inr assignments =>
                    inr (((DEFAULT_CURRENCY ++ Derived.currency d)%string,
                          derivedQuote dataProviderResponse
                            (Derived.currency d) price)
                         :: assignments)
                end
            end
        end
      else derivedAssignments result symbol dataProviderResponse rest
  end.

(** The assignments that the [then] callback makes for a result. *)
Fixpoint quoteAssignments (result : Js.obj Quote.t)
    (entries : list (string * Quote.t))
    : Exception + list (string * Quote.t) :=
  match entries with
  | [] => inr []
  | (symbol, dataProviderResponse) :: rest =>
      if Js.includes symbol skippedSymbols then quoteAssignments result rest
      else
        match derivedAssignments result symbol dataProviderResponse
                DERIVED_CURRENCIES with
        | inl e => inl e
        | inr derived =>
            match quoteAssignments result rest with
            | inl e => inl e
            | inr assignments =>
                inr ((symbol, dataProviderResponse) :: derived ++ assignments)
            end
        end
  end.

Definition assign (assignments : list (string * Quote.t))
    (response : Js.obj Quote.t) : Js.obj Quote.t :=
  fold_left (fun r kv => Js.set (fst kv) (snd kv) r) assignments response.

(** The call of [redisCacheService.set] that follows an assignment. *)
Definition cacheWrite (this : DataProviderService) (dataSource : DataSource)
    (kv : string * Quote.t) : Event :=
  RedisSet
    (RedisCacheService.getQuoteKey (redisCacheService this) dataSource
       (fst kv))
    (JSON_stringify (snd kv))
    (ConfigurationService.CACHE_QUOTES_TTL (configurationService this)).

(** The quote that the cache holds for an identifier, when it is used. *)
Definition cachedQuote (this : DataProviderService) (useCache : bool)
    (i : AssetProfileIdentifier) : option Quote.t :=
  if useCache then
    match RedisCacheService.get (redisCacheService this)
            (RedisCacheService.getQuoteKey (redisCacheService this)
               (dataSource i) (symbol i)) with
    | Some quoteString =>
        if Js.truthy quoteString then JSON_parse quoteString else None
    | None => None
    end
  else None.

(** [itemsToFetch] and the pending requests of a call of [getQuotes]. *)
Definition itemsToFetch (this : DataProviderService) (useCache : bool)
    (items : list AssetProfileIdentifier) : list AssetProfileIdentifier :=
  snd (getItemsFromCache this useCache items (initialResponse this items) []).

Definition responseFromCache (this : DataProviderService) (useCache : bool)
    (items : list AssetProfileIdentifier) : Js.obj Quote.t :=
  fst (getItemsFromCache this useCache items (initialResponse this items) []).

Definition upstreamRequests (this : DataProviderService)
    (items : list AssetProfileIdentifier) (requestTimeout : option Z)
    (useCache : bool) (user : option User.t) : M (list PendingQuotes) :=
  requestGroups this user requestTimeout
    (groupBy dataSource (itemsToFetch this useCache items)).

(** The calls of upstream [getQuotes] and of [updateMany] in a log. *)
Definition isProviderGetQuotes (ev : Event) : bool :=
  match ev with ProviderGetQuotes _ _ _ => true | _ => false end.

Definition isUpdateMany (ev : Event) : bool :=
  match ev with MarketDataUpdateMany _ => true | _ => false end.

(** The same service with another market-data store. *)
Definition withMarketDataService (this : DataProviderService)
    (store : MarketDataService.t) : DataProviderService :=
  {| configurationService := configurationService this;
     dataProviderInterfaces := dataProviderInterfaces this;
     marketDataService := store;
     prismaService := prismaService this;
     propertyService := propertyService this;
     redisCacheService := redisCacheService this;
     dataProviderMapping := dataProviderMapping this |}.

(** The requests of a call whose callbacks run, in the order in which
    they settle. *)
Definition settledRequests (this : DataProviderService)
    (items : list AssetProfileIdentifier) (requestTimeout : option Z)
    (useCache : bool) (user : option User.t) : list PendingQuotes :=
  match outcome (upstreamRequests this items requestTimeout useCache user) with
  | inr promises => schedule _ promises
  | inl DoesNotTerminate => []
  | inl _ =>
      schedule _
        (createdRequests this user requestTimeout
           (groupBy dataSource (itemsToFetch this useCache items)))
  end.

(** The callback of a request reaches [updateMany]: the request is
    fulfilled and the loop over the entries of its result does not throw. *)
Definition reachesUpdate (promise : PendingQuotes) : bool :=
  match pendingResult promise with
  | inl _ => false
  | inr result =>
      match quoteAssignments result (Js.entries result) with
      | inl _ => false
      | inr _ => true
      end
  end.

(** The accumulated response, as the callback of each request of
    [settled] that reaches [updateMany] finds it there, from [response]
    on. *)
Fixpoint snapshots (this : DataProviderService)
    (settled : list PendingQuotes) (response : Js.obj Quote.t)
    : list (Js.obj Quote.t) :=
  match settled with
  | [] => []
  | promise :: rest =>
      match pendingResult promise with
      | inl _ => snapshots this rest response
      | inr result =>
          match addQuotes this (pendingDataSource promise) result
                  (Js.entries result) response with
          | (_, response, inl _) => snapshots this rest response
          | (_, response, inr _) =>
              response :: snapshots this rest response
          end
      end
  end.

(** What a pending request was made for. *)
Definition requestOf (dataSource : DataSource)
    (dataProvider : DataProviderInterface.t) (requestTimeout : option Z)
    (promise : PendingQuotes) : Prop :=
  pendingDataSource promise = dataSource
  /\ pendingSymbolsChunk promise <> []
  /\ (N.of_nat (length (pendingSymbolsChunk promise))
      <= maximumNumberOfSymbolsPerRequest dataProvider)%N
  /\ pendingResult promise
     = DataProviderInterface.getQuotes dataProvider requestTimeout
         (pendingSymbolsChunk promise).

Definition requestEvent (dataProvider : DataProviderInterface.t)
    (requestTimeout : option Z) (promise : PendingQuotes) : Event :=
  ProviderGetQuotes (DataProviderInterface.getName dataProvider)
    requestTimeout (pendingSymbolsChunk promise).

(** The requests made for one group of [itemsGroupedByDataSource]. *)
Definition groupRequests (this : DataProviderService) (user : option User.t)
    (requestTimeout : option Z)
    (group : string * list AssetProfileIdentifier)
    (promises : list PendingQuotes) : Prop :=
  exists dataProvider,
    getDataProvider this (fst group) = inr dataProvider
    /\ concat (map pendingSymbolsChunk promises)
       = symbolsToFetch this dataProvider user (snd group)
    /\ Forall (requestOf (fst group) dataProvider requestTimeout) promises
    /\ (DataProviderInterface.getMaxNumberOfSymbolsPerRequest dataProvider
        = None ->
        (N.of_nat (length (symbolsToFetch this dataProvider user (snd group)))
         <= Js.MAX_SAFE_INTEGER)%N ->
        (length promises <= 1)%nat).

(** The entry of the log for a pending request. *)
Definition issued (this : DataProviderService) (requestTimeout : option Z)
    (ev : Event) (promise : PendingQuotes) : Prop :=
  exists dataProvider,
    getDataProvider this (pendingDataSource promise) = inr dataProvider
    /\ ev = requestEvent dataProvider requestTimeout promise.

(** The assignments of the callback of a settled request. *)
Definition settledAssignments (promise : PendingQuotes)
    (assignments : list (string * Quote.t)) : Prop :=
  exists result,
    pendingResult promise = inr result
    /\ quoteAssignments result (Js.entries result) = inr assignments.

(** The log of the callbacks of [settled], given their assignments. *)
Fixpoint callbacksLog (this : DataProviderService)
    (settled : list PendingQuotes)
    (assignments : list (list (string * Quote.t)))
    (response : Js.obj Quote.t) : list Event :=
  match settled, assignments with
  | promise :: settled', a :: assignments' =>
      map (cacheWrite this (pendingDataSource promise)) a
      ++ MarketDataUpdateMany (intradayData (assign a response))
      :: callbacksLog this settled' assignments' (assign a response)
  | _, _ => []
  end.

(** *** Assumptions on what the module imports *)

(** The derived currencies have distinct names, and no root currency is a
    derived currency or USX. *)
Definition wellFormedDerivedCurrencies : Prop :=
  NoDup (map Derived.currency DERIVED_CURRENCIES)
  /\ (forall d d',
         In d DERIVED_CURRENCIES -> In d' DERIVED_CURRENCIES ->
         Derived.rootCurrency d <> Derived.currency d')
  /\ (forall d,
         In d DERIVED_CURRENCIES -> Derived.rootCurrency d <> "USX").

(** The helpers recognise the pair of [DEFAULT_CURRENCY] with a derived
    currency as a derived currency. *)
Definition derivedPairsRecognised : Prop :=
  forall d,
    In d DERIVED_CURRENCIES ->
    isCurrency
      (getCurrencyFromSymbol (DEFAULT_CURRENCY ++ Derived.currency d))
    = true
    /\ isDerivedCurrency
         (getCurrencyFromSymbol (DEFAULT_CURRENCY ++ Derived.currency d))
       = true.

(** The helpers recognise the pair of [DEFAULT_CURRENCY] with USX as a
    derived currency. *)
Definition pairUSXRecognised : Prop :=
  isCurrency (getCurrencyFromSymbol (DEFAULT_CURRENCY ++ "USX")) = true
  /\ isDerivedCurrency (getCurrencyFromSymbol (DEFAULT_CURRENCY ++ "USX"))
     = true.

(** The result of an upstream request is an object. *)
Definition resultsAreObjects (this : DataProviderService) : Prop :=
  forall dataProvider requestTimeout symbols result,
    In dataProvider (dataProviderInterfaces this) ->
    DataProviderInterface.getQuotes dataProvider requestTimeout symbols
    = inr result ->
    Js.wf result.

(** Every settled promise has its callback run. *)
Definition fairSchedule : Prop :=
  forall (A : Type) (promises : list A),
    Permutation (schedule A promises) promises.

(** The derived quote that [response] holds for [d] was made from the
    quote that it holds for the root of [d]. *)
Definition derivedFromRoot (P : Quote.t -> Prop) (d : Derived.t)
    (response : Js.obj Quote.t) : Prop :=
  exists rootQuote price,
    P rootQuote
    /\ Js.get (DEFAULT_CURRENCY ++ Derived.rootCurrency d) response
       = Some rootQuote
    /\ Big_mul_toNumber (Quote.marketPrice rootQuote)
         (Js.Number (Derived.factor d))
       = Some price
    /\ Js.get (DEFAULT_CURRENCY ++ Derived.currency d) response
       = Some (derivedQuote rootQuote (Derived.currency d) price).

(** Every symbol of an upstream request belongs to an identifier to fetch
    and passes the filter for the provider that is asked. *)
Definition requestedSymbolsKept (this : DataProviderService)
    (user : option User.t) (toFetch : list AssetProfileIdentifier)
    (ev : Event) : Prop :=
  match ev with
  | ProviderGetQuotes name _ symbols =>
      forall s,
        In s symbols ->
        exists i dataProvider,
          In i toFetch
          /\ symbol i = s
          /\ getDataProvider this (dataSource i) = inr dataProvider
          /\ DataProviderInterface.getName dataProvider = name
          /\ keepSymbol this dataProvider user s = true
  | _ => True
  end.

(** The pairs of [DEFAULT_CURRENCY] with a derived currency. *)
Definition derivedPairs : list string :=
  map (fun d => (DEFAULT_CURRENCY ++ Derived.currency d)%string)
    DERIVED_CURRENCIES.

(** The assignments of the loop "Get items from cache". *)
Definition cacheAssignments (this : DataProviderService) (useCache : bool)
    (items : list AssetProfileIdentifier) : list (string * Quote.t) :=
  flat_map
    (fun i =>
       match cachedQuote this useCache i with
       | Some quote => [(symbol i, quote)]
       | None => []
       end)
    items.

Definition notCached (this : DataProviderService) (useCache : bool)
    (i : AssetProfileIdentifier) : bool :=
  match cachedQuote this useCache i with
  | Some _ => false
  | None => true
  end.

(** The result of an upstream request holds requested symbols only. *)
Definition resultsAnswerRequests (this : DataProviderService) : Prop :=
  forall dataProvider requestTimeout symbols result k,
    In dataProvider (dataProviderInterfaces this) ->
    DataProviderInterface.getQuotes dataProvider requestTimeout symbols
    = inr result ->
    In k (Js.keys result) ->
    In k symbols.

(** *** Views of [getHistoricalRaw] *)

(** The identifiers for which promises are created. *)
Definition historicalIdentifiers (this : DataProviderService)
    (assetProfileIdentifiers : list AssetProfileIdentifier)
    : list AssetProfileIdentifier :=
  uniqWith
    (replaceDerivedCurrencies this DERIVED_CURRENCIES
       assetProfileIdentifiers)
    sameIdentifier.

(** The provider of an identifier can handle its symbol. *)
Definition isHandled (this : DataProviderService)
    (i : AssetProfileIdentifier) : bool :=
  match getDataProvider this (dataSource i) with
  | inr dataProvider =>
      DataProviderInterface.canHandle dataProvider (symbol i)
  | inl _ => false
  end.

(** What the promise made for [symbol] with [dataProvider] settles with. *)
Definition historicalEntry (dataProvider : DataProviderInterface.t)
    (from to : Js.Date) (symbol : string) : Exception + HistoricalData :=
  if String.eqb symbol (DEFAULT_CURRENCY ++ "USX") then
    match eachDayOfInterval from to with
    | inl e => inl e
    | inr days =>
        match fixedSeries days Js.empty with
        | inl e => inl e
        | inr series => inr {| data := Some series; dataSymbol := symbol |}
        end
    end
  else
    match DataProviderInterface.getHistorical dataProvider from symbol to
            ms_30_seconds with
    | inl e => inl e
    | inr response =>
        inr {| data :=
                 match response with
                 | Some o => Js.get symbol o
                 | None => None
                 end;
               dataSymbol := symbol |}
    end.

Definition entryOf (this : DataProviderService) (from to : Js.Date)
    (i : AssetProfileIdentifier) (entry : HistoricalData) : Prop :=
  exists dataProvider,
    getDataProvider this (dataSource i) = inr dataProvider
    /\ DataProviderInterface.canHandle dataProvider (symbol i) = true
    /\ historicalEntry dataProvider from to (symbol i) = inr entry.

Definition isProviderGetHistorical (ev : Event) : bool :=
  match ev with ProviderGetHistorical _ _ _ _ _ => true | _ => false end.


(** *** Views of [search] *)



(** *** Views of [getDataProvider] *)

(** The interface that [dataProviderMapping] maps the name of
    [dataProviderInterface] to, when there is one. *)
Definition mappedInterface (this : DataProviderService)
    (dataProviderInterface : DataProviderInterface.t)
    : option DataProviderInterface.t :=
  match Js.get (DataProviderInterface.getName dataProviderInterface)
          (dataProviderMapping this) with
  | Some mapped =>
      if Js.truthy mapped then
        find (fun currentDataProviderInterface =>
                String.eqb
                  (DataProviderInterface.getName
                     currentDataProviderInterface)
                  mapped)
             (dataProviderInterfaces this)
      else None
  | None => None
  end.

Definition hasName (providerName : DataSource)
    (dataProviderInterface : DataProviderInterface.t) : bool :=
  String.eqb (DataProviderInterface.getName dataProviderInterface)
    providerName.

(** *** Views of [getDataSources] *)

(** The configured data sources that [getDataSources] starts from: those
    of [DATA_SOURCES_LEGACY] for a user without the role ADMIN created
    before 2025-03-23 when that list is not empty, those of
    [DATA_SOURCES] otherwise. *)
Definition configuredDataSources (this : DataProviderService)
    (user : User.t) : list DataSource :=
  match ConfigurationService.DATA_SOURCES_LEGACY
          (configurationService this) with
  | Some (dataSource :: rest) =>
      if negb (hasRole user "ADMIN")
         && Js.isBefore (User.createdAt user) date_2025_03_23
      then dataSource :: rest
      else ConfigurationService.DATA_SOURCES (configurationService this)
  | _ => ConfigurationService.DATA_SOURCES (configurationService this)
  end.

(** An API key of Ghostfolio is stored. *)
Definition hasGhostfolioApiKey (this : DataProviderService) : bool :=
  match PropertyService.getByKey (propertyService this)
          PROPERTY_API_KEY_GHOSTFOLIO with
  | Some key => Js.truthy key
  | None => false
  end.

(** *** Views of the cache writes of [getQuotes] *)

(** A write to the cache is made with the configured time to live, under
    the quote key of one of [dataSources] and of a symbol other than the
    pair with USX; other entries of the log are not constrained. *)
Definition writtenBy (this : DataProviderService)
    (dataSources : list DataSource) (ev : Event) : Prop :=
  match ev with
  | RedisSet key value ttl =>
      ttl = ConfigurationService.CACHE_QUOTES_TTL (configurationService this)
      /\ exists dataSource s q,
           In dataSource dataSources
           /\ key
              = RedisCacheService.getQuoteKey (redisCacheService this)
                  dataSource s
           /\ value = JSON_stringify q
           /\ s <> (DEFAULT_CURRENCY ++ "USX")%string
  | _ => True
  end.

(** The same service in front of a cache with other contents. *)
Definition withCachedValues (this : DataProviderService)
    (get : string -> option string) : DataProviderService :=
  {| configurationService := configurationService this;
     dataProviderInterfaces := dataProviderInterfaces this;
     marketDataService := marketDataService this;
     prismaService := prismaService this;
     propertyService := propertyService this;
     redisCacheService :=
       {| RedisCacheService.get := get;
          RedisCacheService.getQuoteKey :=
            RedisCacheService.getQuoteKey (redisCacheService this) |};
     dataProviderMapping := dataProviderMapping this |}.

(** *** checkQuote and getAssetProfiles

    Two more methods of [DataProviderInterface], each given as a function
    of the provider: [getTestSymbol], and [getAssetProfile] with what its
    promise settles with.  [SymbolProfile] is what a provider returns for
    an asset. *)
Variable getTestSymbol : DataProviderInterface.t -> string.
Variable SymbolProfile : Type.
Variable getAssetProfile :
  DataProviderInterface.t -> string -> Exception + SymbolProfile.

(** [quotes[symbol]?.marketPrice > 0] *)
Definition hasPositivePrice (symbol : string) (quotes : Js.obj Quote.t)
    : bool :=
  match Js.get symbol quotes with
  | Some quote => Js.gt0 (Quote.marketPrice quote)
  | None => false
  end.

Definition checkQuote (this : DataProviderService) (dataSource : DataSource)
    : M bool :=
  dataProvider <- settle (getDataProvider this dataSource) ;;
  let symbol := getTestSymbol dataProvider in
  quotes <-
    getQuotes this [ {| dataSource := dataSource; symbol := symbol |} ]
      (Some ms_30_seconds) false None ;;
  if hasPositivePrice symbol quotes then ret true else ret false.

(** A promise of [getAssetProfiles] with the symbol that its [then]
    callback closes over. *)
Record PendingProfile : Type := {
  profileSymbol : string;
  profileResult : Exception + SymbolProfile
}.

(** The inner loop over the symbols of one data source. *)
Fixpoint requestProfiles (this : DataProviderService)
    (dataSource : DataSource) (symbols : list string)
    : M (list PendingProfile) :=
  match symbols with
  | [] => ret []
  | symbol :: rest =>
      dataProvider <- settle (getDataProvider this dataSource) ;;
      let promise :=
        {| profileSymbol := symbol;
           profileResult := getAssetProfile dataProvider symbol |} in
      promises <- requestProfiles this dataSource rest ;;
      ret (promise :: promises)
  end.

(** The loop over [Object.entries(itemsGroupedByDataSource)]. *)
Fixpoint requestProfileGroups (this : DataProviderService)
    (groups : list (string * list AssetProfileIdentifier))
    : M (list PendingProfile) :=
  match groups with
  | [] => ret []
  | (dataSource, assetProfileIdentifiers) :: rest =>
      let symbols := map symbol assetProfileIdentifiers in
      promises <- requestProfiles this dataSource symbols ;;
      morePromises <- requestProfileGroups this rest ;;
      ret (promises ++ morePromises)
  end.

(** [await Promise.all(promises)]: the [then] callbacks run in the order
    in which the promises settle; the first rejection rejects the
    whole. *)
Fixpoint assignProfiles (settled : list PendingProfile)
    (response : Js.obj SymbolProfile) : M (Js.obj SymbolProfile) :=
  match settled with
  | [] => ret response
  | promise :: rest =>
      symbolProfile <- settle (profileResult promise) ;;
      assignProfiles rest
        (Js.set (profileSymbol promise) symbolProfile response)
  end.

Definition getAssetProfiles (this : DataProviderService)
    (items : list AssetProfileIdentifier) : M (Js.obj SymbolProfile) :=
  let response : Js.obj SymbolProfile := Js.empty in
  let itemsGroupedByDataSource := groupBy dataSource items in
  promises <- requestProfileGroups this itemsGroupedByDataSource ;;
  tryCatch (assignProfiles (schedule _ promises) response)
    (fun error =>
       emit (LoggerError error "DataProviderService") ;;; throw error).

(** What the promise made for [symbol] with the provider of [dataSource]
    settles with. *)
Definition profileOf (this : DataProviderService)
    (request : DataSource * string) (promise : PendingProfile) : Prop :=
  profileSymbol promise = snd request
  /\ exists dataProvider,
       getDataProvider this (fst request) = inr dataProvider
       /\ profileResult promise
          = getAssetProfile dataProvider (snd request).

(** The requests of [getAssetProfiles], in the order of the loops. *)
Definition profileRequests
    (groups : list (string * list AssetProfileIdentifier))
    : list (DataSource * string) :=
  flat_map (fun group => map (fun i => (fst group, symbol i)) (snd group))
    groups.


(** ** Properties *)

(** *** Objects *)

Lemma get_set_same : forall (A : Type) (k : string) (v : A) (o : Js.obj A),
    Js.get k (Js.set k v o) = Some v.
Proof using.
  intros A k v o. induction o as [|[k' v'] o IH]; simpl.
  - now rewrite String.eqb_refl.
  - destruct (String.eqb k k') eqn:E; simpl.
    + now rewrite String.eqb_refl.
    + now rewrite E.
Qed.

Lemma get_set_other : forall (A : Type) (k k' : string) (v : A) (o : Js.obj A),
    k' <> k -> Js.get k' (Js.set k v o) = Js.get k' o.
Proof using.
  intros A k k' v o Hne. induction o as [|[k0 v0] o IH]; simpl.
  - apply String.eqb_neq in Hne. now rewrite Hne.
  - destruct (String.eqb k k0) eqn:E; simpl.
    + apply String.eqb_eq in E. subst k0.
      apply String.eqb_neq in Hne. now rewrite Hne.
    + destruct (String.eqb k' k0); auto.
Qed.

Lemma get_set : forall (A : Type) (k k' : string) (v : A) (o : Js.obj A),
    Js.get k' (Js.set k v o) = if String.eqb k' k then Some v else Js.get k' o.
Proof using.
  intros A k k' v o. destruct (String.eqb_spec k' k) as [->|Hne].
  - apply get_set_same.
  - now apply get_set_other.
Qed.

Lemma get_some_in_keys : forall (A : Type) (k : string) (v : A) (o : Js.obj A),
    Js.get k o = Some v -> In k (Js.keys o).
Proof using.
  intros A k v o. induction o as [|[k' v'] o IH]; simpl; [discriminate|].
  destruct (String.eqb_spec k k') as [->|Hne]; auto.
Qed.

Lemma in_keys_get : forall (A : Type) (k : string) (o : Js.obj A),
    In k (Js.keys o) -> exists v, Js.get k o = Some v.
Proof using.
  intros A k o. induction o as [|[k' v'] o IH]; simpl; [intros []|].
  intros [->|Hin].
  - rewrite String.eqb_refl. eauto.
  - destruct (String.eqb k k'); eauto.
Qed.

Lemma get_some_in : forall (A : Type) (k : string) (v : A) (o : Js.obj A),
    Js.get k o = Some v -> In (k, v) o.
Proof using.
  intros A k v o. induction o as [|[k' v'] o IH]; simpl; [discriminate|].
  destruct (String.eqb_spec k k') as [->|Hne].
  - intros [= ->]. now left.
  - auto.
Qed.

Lemma in_wf_get : forall (A : Type) (k : string) (v : A) (o : Js.obj A),
    Js.wf o -> In (k, v) o -> Js.get k o = Some v.
Proof using.
  intros A k v o. unfold Js.wf, Js.keys.
  induction o as [|[k' v'] o IH]; simpl; [intros _ []|].
  intros Hnd [Heq|Hin]; inversion Hnd as [|? ? Hnotin Hnd']; subst.
  - injection Heq as -> ->. now rewrite String.eqb_refl.
  - destruct (String.eqb_spec k k') as [->|Hne]; auto.
    exfalso. apply Hnotin. change k' with (fst (k', v)). now apply in_map.
Qed.

Lemma keys_set : forall (A : Type) (k : string) (v : A) (o : Js.obj A) (k' : string),
    In k' (Js.keys (Js.set k v o)) <-> k' = k \/ In k' (Js.keys o).
Proof using.
  intros A k v o k'. unfold Js.keys.
  induction o as [|[k0 v0] o IH]; simpl.
  - split; [intros [H|[]]; auto | intros [H|[]]; auto].
  - destruct (String.eqb_spec k k0) as [->|Hne]; simpl.
    + split; [intros [H|H]; auto | intros [H|[H|H]]; auto].
    + rewrite IH.
      split; [intros [H|[H|H]]; auto | intros [H|[H|H]]; auto].
Qed.

Lemma set_wf : forall (A : Type) (k : string) (v : A) (o : Js.obj A),
    Js.wf o -> Js.wf (Js.set k v o).
Proof using.
  intros A k v o. unfold Js.wf.
  induction o as [|[k0 v0] o IH]; simpl; intros Hnd.
  - repeat constructor. simpl. intros [].
  - inversion Hnd as [|? ? Hnotin Hnd']; subst.
    destruct (String.eqb_spec k k0) as [->|Hne]; simpl.
    + now constructor.
    + constructor; auto.
      intros Hin. apply (keys_set A k v o k0) in Hin.
      destruct Hin as [->|Hin]; [now apply Hne | now apply Hnotin].
Qed.

Lemma includes_In : forall (x : string) (a : list string),
    Js.includes x a = true <-> In x a.
Proof using.
  intros x a. unfold Js.includes. rewrite existsb_exists. split.
  - intros (y & Hin & Heq). apply String.eqb_eq in Heq. now subst.
  - intros Hin. exists x. split; auto. apply String.eqb_refl.
Qed.

Lemma includes_false : forall (x : string) (a : list string),
    Js.includes x a = false <-> ~ In x a.
Proof using.
  intros x a. rewrite <- includes_In.
  destruct (Js.includes x a); split; congruence.
Qed.

Lemma append_inj : forall (p a b : string), (p ++ a)%string = (p ++ b)%string -> a = b.
Proof using.
  induction p as [|c p IH]; simpl; intros a b H; auto.
  injection H as H. auto.
Qed.

(** *** The monad *)

Lemma bind_inr : forall (A B : Type) (m : M A) (k : A -> M B) (log : list Event) (b : B),
    bind m k = (log, inr b) ->
    exists log1 a log2,
      m = (log1, inr a) /\ k a = (log2, inr b) /\ log = log1 ++ log2.
Proof.
  intros A B [log1 [e|a]] k log b; simpl; [discriminate|].
  destruct (k a) as [log2 r] eqn:Hk. intros [= <- ->].
  now exists log1, a, log2.
Qed.

Lemma bind_eq : forall (A B : Type) (m : M A) (k : A -> M B) (log1 : list Event) (a : A),
    m = (log1, inr a) ->
    bind m k = (log1 ++ trace (k a), outcome (k a)).
Proof.
  intros A B m k log1 a ->. simpl. now destruct (k a).
Qed.

Lemma bind_throw : forall (A B : Type) (m : M A) (k : A -> M B) (log1 : list Event) (e : Exception),
    m = (log1, inl e) -> bind m k = (log1, inl e).
Proof. now intros A B m k log1 e ->. Qed.

Lemma trace_bind : forall (A B : Type) (m : M A) (k : A -> M B),
    trace (bind m k)
    = trace m ++ match outcome m with inr a => trace (k a) | inl _ => [] end.
Proof.
  intros A B [log [e|a]] k; simpl.
  - now rewrite app_nil_r.
  - now destruct (k a).
Qed.

Lemma outcome_bind : forall (A B : Type) (m : M A) (k : A -> M B),
    outcome (bind m k)
    = match outcome m with inr a => outcome (k a) | inl e => inl e end.
Proof.
  intros A B [log [e|a]] k; simpl; auto. now destruct (k a).
Qed.

(** *** getHistorical *)

(** C10. [getHistorical] never throws: it always returns a map.  With an
    empty item list or an invalid [from] or [to] the map is empty and
    nothing is queried; when the database query fails, the error is logged
    and the empty map is returned. *)
Theorem getHistorical_never_throws :
  forall (this : DataProviderService)
         (aItems : list AssetProfileIdentifier) (aGranularity : string)
         (from to : Js.Date),
  exists response,
    outcome (getHistorical this aItems aGranularity from to) = inr response
    /\ (aItems = [] \/ Js.isValid from = false \/ Js.isValid to = false ->
        response = Js.empty
        /\ trace (getHistorical this aItems aGranularity from to) = [])
    /\ (forall query error,
           In (PrismaQueryRawUnsafe query)
              (trace (getHistorical this aItems aGranularity from to)) ->
           PrismaService.queryRawUnsafe (prismaService this) query
           = inl error ->
           response = Js.empty
           /\ trace (getHistorical this aItems aGranularity from to)
              = [ PrismaQueryRawUnsafe query;
                  LoggerError error "DataProviderService" ]).
Proof.
  intros this aItems aGranularity from to. unfold getHistorical.
  destruct aItems as [|i aItems].
  { exists Js.empty. simpl.
    split; [reflexivity|split]; [intros _; split; reflexivity | intros ? ? []]. }
  destruct from as [from|].
  2:{ exists Js.empty. simpl.
    split; [reflexivity|split]; [intros _; split; reflexivity | intros ? ? []]. }
  destruct to as [to|].
  2:{ exists Js.empty. simpl.
    split; [reflexivity|split]; [intros _; split; reflexivity | intros ? ? []]. }
  cbn [Js.isValid negb orb formatDate settle bind app].
  remember (queryRaw _ _ _ _) as q eqn:Hquery. clear Hquery.
  unfold tryCatchFinallyReturn, emit, settle. cbn [bind app].
  destruct (PrismaService.queryRawUnsafe (prismaService this) q)
    as [e|rows] eqn:Hq.
  - exists Js.empty. cbn. split; [reflexivity|]. split.
    + intros [H|[H|H]]; discriminate.
    + intros query error [H|[H|[]]]; [|discriminate].
      injection H as H. intros Hq'. rewrite <- H in Hq' |- *.
      rewrite Hq in Hq'. injection Hq' as <-. auto.
  - cbn. destruct (reduceMarketData rows Js.empty) as [e|r] eqn:Hr; cbn.
    + exists Js.empty. split; [reflexivity|]. split.
      * intros [H|[H|H]]; discriminate.
      * intros query error [H|[H|[]]]; [|discriminate].
        injection H as H. intros Hq'. rewrite <- H in Hq'.
        rewrite Hq in Hq'. discriminate.
    + exists r. split; [reflexivity|]. split.
      * intros [H|[H|H]]; discriminate.
      * intros query error [H|[]].
        injection H as H. intros Hq'. rewrite <- H in Hq'.
        rewrite Hq in Hq'. discriminate.
Qed.

(** *** Chunks of symbols *)

Lemma slice_firstn_skipn : forall (A : Type) (a : list A) (i m : N),
    Js.slice i (i + m) a = firstn (N.to_nat m) (skipn (N.to_nat i) a).
Proof.
  intros A a. induction a as [|x a IH]; intros i m.
  - simpl. now rewrite skipn_nil, firstn_nil.
  - cbn [Js.slice].
    destruct (N.eqb_spec (i + m) 0) as [H0|H0].
    + assert (i = 0%N) by lia. assert (m = 0%N) by lia. subst. reflexivity.
    + destruct (N.eqb_spec i 0) as [Hi|Hi].
      * subst i. rewrite N.add_0_l in *.
        replace (N.to_nat m) with (S (N.to_nat (N.pred m))) by lia.
        cbn [N.to_nat skipn firstn]. f_equal.
        specialize (IH 0%N (N.pred m)). now rewrite N.add_0_l in IH.
      * replace (N.pred (i + m)) with (N.pred i + m)%N by lia.
        rewrite IH.
        replace (N.to_nat i) with (S (N.to_nat (N.pred i))) by lia.
        reflexivity.
Qed.

Lemma skipn_lt_nonempty : forall (A : Type) (a : list A) (n : nat),
    (n < length a)%nat -> skipn n a <> [].
Proof.
  intros A a n Hlt Hnil.
  assert (Hlen : length (skipn n a) = 0%nat) by now rewrite Hnil.
  rewrite length_skipn in Hlen. lia.
Qed.

Lemma requestChunks_ok :
  forall (dataSource : DataSource) (dataProvider : DataProviderInterface.t)
         (requestTimeout : option Z) (symbols : list string) (maximum : N),
    maximum = maximumNumberOfSymbolsPerRequest dataProvider ->
    maximum <> 0%N ->
    forall (fuel : nat) (i : N),
      (length symbols - N.to_nat i <= fuel)%nat ->
      exists promises,
        requestChunks fuel dataSource dataProvider requestTimeout symbols
          maximum i
        = (map (requestEvent dataProvider requestTimeout) promises,
           inr promises)
        /\ concat (map pendingSymbolsChunk promises)
           = skipn (N.to_nat i) symbols
        /\ Forall (requestOf dataSource dataProvider requestTimeout) promises
        /\ ((N.of_nat (length symbols) <= i + maximum)%N ->
            (length promises <= 1)%nat).
Proof.
  intros dataSource dataProvider requestTimeout symbols maximum Hmax Hpos.
  induction fuel as [|fuel IH]; intros i Hfuel.
  - exists []. cbn [requestChunks].
    destruct (N.ltb_spec i (N.of_nat (length symbols))) as [Hlt|Hge];
      [lia|].
    repeat split; auto. simpl. symmetry. apply skipn_all2. lia.
  - cbn [requestChunks].
    destruct (N.ltb_spec i (N.of_nat (length symbols))) as [Hlt|Hge].
    + destruct (IH (i + maximum)%N) as (promises & Hrun & Hcat & Hall & Hone);
        [lia|].
      exists ({| pendingDataSource := dataSource;
                 pendingSymbolsChunk := Js.slice i (i + maximum) symbols;
                 pendingResult :=
                   DataProviderInterface.getQuotes dataProvider
                     requestTimeout (Js.slice i (i + maximum) symbols) |}
              :: promises).
      unfold emit. cbn [bind]. rewrite Hrun.
      cbn [bind ret app map]. rewrite app_nil_r. split; [reflexivity|].
      cbn [pendingSymbolsChunk concat map].
      rewrite slice_firstn_skipn, Hcat.
      replace (N.to_nat (i + maximum)) with (N.to_nat maximum + N.to_nat i)%nat
        by lia.
      rewrite <- skipn_skipn, firstn_skipn. split; [reflexivity|]. split.
      * constructor; auto. unfold requestOf.
        cbn [pendingDataSource pendingSymbolsChunk pendingResult].
        repeat split.
        -- assert (Hne : skipn (N.to_nat i) symbols <> [])
             by (apply skipn_lt_nonempty; lia).
           destruct (skipn (N.to_nat i) symbols) as [|s rest];
             [congruence|].
           replace (N.to_nat maximum) with (S (N.to_nat (N.pred maximum)))
             by lia.
           discriminate.
        -- rewrite <- Hmax.
           pose proof (firstn_le_length (N.to_nat maximum)
                         (skipn (N.to_nat i) symbols)). lia.
      * intros Hle.
        destruct promises as [|p promises]; [simpl; lia|]. exfalso.
        revert Hrun. destruct fuel as [|fuel']; cbn [requestChunks];
          destruct (N.ltb_spec (i + maximum) (N.of_nat (length symbols)));
          try lia; unfold ret; intros Hrun; discriminate Hrun.
    + exists []. repeat split; auto. simpl. symmetry. apply skipn_all2. lia.
Qed.

(** With a maximum of 0 and a symbol to fetch the loop never ends. *)
Lemma requestChunks_diverges :
  forall (dataSource : DataSource) (dataProvider : DataProviderInterface.t)
         (requestTimeout : option Z) (symbols : list string)
         (fuel : nat) (i : N),
    (i < N.of_nat (length symbols))%N ->
    outcome (requestChunks fuel dataSource dataProvider requestTimeout
               symbols 0 i)
    = inl DoesNotTerminate.
Proof.
  intros dataSource dataProvider requestTimeout symbols.
  induction fuel as [|fuel IH]; intros i Hlt; cbn [requestChunks];
    destruct (N.ltb_spec i (N.of_nat (length symbols))) as [_|Hge];
    try lia; [reflexivity|].
  unfold emit. cbn [bind]. rewrite N.add_0_r.
  specialize (IH i Hlt).
  destruct (requestChunks fuel dataSource dataProvider requestTimeout
              symbols 0 i) as [log [e|promises]]; cbn in *; congruence.
Qed.

Lemma requestChunks_inv :
  forall (dataSource : DataSource) (dataProvider : DataProviderInterface.t)
         (requestTimeout : option Z) (symbols : list string)
         (log : list Event) (promises : list PendingQuotes),
    requestChunks (length symbols) dataSource dataProvider requestTimeout
      symbols (maximumNumberOfSymbolsPerRequest dataProvider) 0
    = (log, inr promises) ->
    log = map (requestEvent dataProvider requestTimeout) promises
    /\ concat (map pendingSymbolsChunk promises) = symbols
    /\ Forall (requestOf dataSource dataProvider requestTimeout) promises
    /\ ((N.of_nat (length symbols)
         <= maximumNumberOfSymbolsPerRequest dataProvider)%N ->
        (length promises <= 1)%nat).
Proof.
  intros dataSource dataProvider requestTimeout symbols log promises Hrun.
  destruct (N.eq_dec (maximumNumberOfSymbolsPerRequest dataProvider) 0)
    as [Hzero|Hpos].
  - rewrite Hzero in *. destruct symbols as [|s symbols].
    + cbn in Hrun. injection Hrun as <- <-. repeat split; auto.
    + pose proof (requestChunks_diverges dataSource dataProvider
                    requestTimeout (s :: symbols) (length (s :: symbols)) 0)
        as Hdiv.
      rewrite Hrun in Hdiv. cbn in Hdiv.
      assert (Hlt : (0 < N.of_nat (length (s :: symbols)))%N)
        by (simpl; lia).
      specialize (Hdiv Hlt). discriminate.
  - destruct (requestChunks_ok dataSource dataProvider requestTimeout symbols
                _ eq_refl Hpos (length symbols) 0%N)
      as (promises' & Hrun' & Hcat & Hall & Hone); [lia|].
    rewrite Hrun in Hrun'. injection Hrun' as -> ->.
    repeat split; auto.
Qed.

Lemma requestGroups_inv :
  forall (this : DataProviderService) (user : option User.t)
         (requestTimeout : option Z)
         (groups : list (string * list AssetProfileIdentifier))
         (log : list Event) (promises : list PendingQuotes),
    requestGroups this user requestTimeout groups = (log, inr promises) ->
    exists perGroup,
      promises = concat perGroup
      /\ Forall2 (groupRequests this user requestTimeout) groups perGroup
      /\ Forall2 (issued this requestTimeout) log promises.
Proof.
  intros this user requestTimeout.
  induction groups as [|[ds ids] groups IH]; intros log promises Hrun.
  - cbn in Hrun. injection Hrun as <- <-. exists []. repeat split; constructor.
  - cbn [requestGroups] in Hrun.
    apply bind_inr in Hrun as (log1 & dp & log2 & Hdp & Hrun & ->).
    unfold settle in Hdp. injection Hdp as <- Hdp.
    apply bind_inr in Hrun as (log3 & ps & log4 & Hchunks & Hrun & ->).
    apply bind_inr in Hrun as (log5 & more & log6 & Hrest & Hrun & ->).
    unfold ret in Hrun. injection Hrun as <- <-.
    apply requestChunks_inv in Hchunks as (-> & Hcat & Hall & Hone).
    destruct (IH _ _ Hrest) as (perGroup & -> & Hgroups & Hlog).
    exists (ps :: perGroup). cbn [concat app]. split; [reflexivity|]. split.
    + constructor; auto. exists dp. cbn [fst snd]. repeat split; auto.
      intros Hnone Hle. apply Hone.
      unfold maximumNumberOfSymbolsPerRequest. now rewrite Hnone.
    + rewrite app_nil_r. apply Forall2_app; auto.
      clear - Hall Hdp. induction Hall as [|p ps Hp Hall IHall];
        constructor; auto.
      exists dp. destruct Hp as (-> & _). auto.
Qed.


(** *** The callbacks of [getQuotes] and their assignments *)

Lemma assign_app : forall (a b : list (string * Quote.t)) (r : Js.obj Quote.t),
    assign (a ++ b) r = assign b (assign a r).
Proof. intros a b r. unfold assign. apply fold_left_app. Qed.

Lemma assign_cons : forall (kv : string * Quote.t) (a : list (string * Quote.t))
                           (r : Js.obj Quote.t),
    assign (kv :: a) r = assign a (Js.set (fst kv) (snd kv) r).
Proof. reflexivity. Qed.

Lemma get_assign_untouched :
  forall (k : string) (a : list (string * Quote.t)) (r : Js.obj Quote.t),
    (forall v, ~ In (k, v) a) -> Js.get k (assign a r) = Js.get k r.
Proof.
  intros k a. induction a as [|[k' v'] a IH]; intros r Hnot; auto.
  rewrite assign_cons, IH.
  - apply get_set_other. intros ->. apply (Hnot v'). now left.
  - intros v Hin. apply (Hnot v). now right.
Qed.

Lemma get_assign_provenance :
  forall (k : string) (v : Quote.t) (a : list (string * Quote.t))
         (r : Js.obj Quote.t),
    Js.get k (assign a r) = Some v -> In (k, v) a \/ Js.get k r = Some v.
Proof.
  intros k v a. induction a as [|[k' v'] a IH]; intros r Hget; auto.
  rewrite assign_cons in Hget. apply IH in Hget as [Hin|Hget].
  - left. now right.
  - cbn [fst snd] in Hget. rewrite get_set in Hget.
    destruct (String.eqb_spec k k') as [->|Hne]; auto.
    injection Hget as ->. left. now left.
Qed.


Lemma Forall_trace_bind :
  forall (A B : Type) (P : Event -> Prop) (m : M A) (k : A -> M B),
    Forall P (trace m) ->
    (forall a, Forall P (trace (k a))) ->
    Forall P (trace (bind m k)).
Proof.
  intros A B P [log [e|a]] k Hm Hk; cbn in *; auto.
  specialize (Hk a). destruct (k a) as [log' r]. cbn in *.
  apply Forall_app. auto.
Qed.

Lemma Forall_trace_bind_outcome :
  forall (A B : Type) (P : Event -> Prop) (m : M A) (k : A -> M B),
    Forall P (trace m) ->
    (forall a, outcome m = inr a -> Forall P (trace (k a))) ->
    Forall P (trace (bind m k)).
Proof.
  intros A B P [log [e|a]] k Hm Hk; cbn in *; auto.
  specialize (Hk a eq_refl). destruct (k a) as [log' r]. cbn in *.
  apply Forall_app. auto.
Qed.

Lemma filter_all_false :
  forall (p : Event -> bool) (log : list Event),
    Forall (fun ev => p ev = false) log -> filter p log = [].
Proof.
  intros p log H. induction H as [|ev log Hev _ IH]; auto.
  cbn. now rewrite Hev.
Qed.

Lemma addDerivedQuotes_run :
  forall (this : DataProviderService) (dataSource : DataSource)
         (result : Js.obj Quote.t) (symbol : string)
         (dataProviderResponse : Quote.t) (derived : list Derived.t)
         (response : Js.obj Quote.t),
    match derivedAssignments result symbol dataProviderResponse derived with
    | inr assignments =>
        addDerivedQuotes this dataSource result symbol dataProviderResponse
          derived response
        = (map (cacheWrite this dataSource) assignments,
           assign assignments response, inr tt)
    | inl e =>
        snd (addDerivedQuotes this dataSource result symbol
               dataProviderResponse derived response)
        = inl e
    end.
Proof.
  intros this dataSource result symbol q.
  induction derived as [|d derived IH]; intros response;
    cbn [derivedAssignments addDerivedQuotes]; [reflexivity|].
  destruct (String.eqb symbol (DEFAULT_CURRENCY ++ Derived.rootCurrency d)).
  2:{ apply IH. }
  unfold bindC, perform, assignTo.
  destruct (Js.get (DEFAULT_CURRENCY ++ Derived.rootCurrency d) result)
    as [rootQuote|]; [|reflexivity].
  cbn [trace outcome ret fst snd].
  destruct (Big_mul_toNumber (Quote.marketPrice rootQuote)
              (Js.Number (Derived.factor d))) as [price|]; [|reflexivity].
  cbn [trace outcome ret emit fst snd app].
  specialize (IH (Js.set (DEFAULT_CURRENCY ++ Derived.currency d)
                    (derivedQuote q (Derived.currency d) price) response)).
  destruct (derivedAssignments result symbol q derived) as [e|assignments].
  - destruct (addDerivedQuotes _ _ _ _ _ _ _) as [[log r] [e'|[]]];
      cbn in IH |- *; congruence.
  - rewrite IH. reflexivity.
Qed.

Lemma addQuotes_run :
  forall (this : DataProviderService) (dataSource : DataSource)
         (result : Js.obj Quote.t) (entries : list (string * Quote.t))
         (response : Js.obj Quote.t),
    match quoteAssignments result entries with
    | inr assignments =>
        addQuotes this dataSource result entries response
        = (map (cacheWrite this dataSource) assignments,
           assign assignments response, inr tt)
    | inl e =>
        snd (addQuotes this dataSource result entries response) = inl e
    end.
Proof.
  intros this dataSource result.
  induction entries as [|[symbol q] entries IH]; intros response;
    cbn [quoteAssignments addQuotes]; [reflexivity|].
  destruct (Js.includes symbol skippedSymbols); [apply IH|].
  unfold bindC, perform, assignTo. cbn [trace outcome emit fst snd app].
  pose proof (addDerivedQuotes_run this dataSource result symbol q
                DERIVED_CURRENCIES (Js.set symbol q response)) as Hd.
  destruct (derivedAssignments result symbol q DERIVED_CURRENCIES)
    as [e|derived].
  - destruct (addDerivedQuotes _ _ _ _ _ _ _) as [[log r] [e'|[]]];
      cbn in Hd |- *; congruence.
  - rewrite Hd.
    specialize (IH (assign derived (Js.set symbol q response))).
    destruct (quoteAssignments result entries) as [e|assignments].
    + destruct (addQuotes _ _ _ _ _) as [[log r] [e'|[]]];
        cbn in IH |- *; congruence.
    + rewrite IH. cbn [map]. rewrite map_app.
      rewrite assign_cons, assign_app. reflexivity.
Qed.

(** A callback whose loop over the entries throws ends there. *)
Lemma onQuotes_throws :
  forall (this : DataProviderService) (promise : PendingQuotes)
         (result : Js.obj Quote.t) (response : Js.obj Quote.t)
         (e : Exception),
    snd (addQuotes this (pendingDataSource promise) result
           (Js.entries result) response)
    = inl e ->
    onQuotes this promise result response
    = (logOf (addQuotes this (pendingDataSource promise) result
                (Js.entries result) response),
       snd (fst (addQuotes this (pendingDataSource promise) result
                   (Js.entries result) response)),
       inl e).
Proof.
  intros this promise result response e Hthrows. unfold onQuotes, bindC.
  destruct (addQuotes _ _ _ _ _) as [[log r] [e'|[]]]; cbn in Hthrows |- *;
    congruence.
Qed.

(** A callback whose loop over the entries ends calls [updateMany] with
    the response as the loop leaves it, and does not throw. *)
Lemma onQuotes_returns :
  forall (this : DataProviderService) (promise : PendingQuotes)
         (result : Js.obj Quote.t) (response : Js.obj Quote.t),
    snd (addQuotes this (pendingDataSource promise) result
           (Js.entries result) response)
    = inr tt ->
    onQuotes this promise result response
    = (logOf (addQuotes this (pendingDataSource promise) result
                (Js.entries result) response)
       ++ [MarketDataUpdateMany
             (intradayData
                (snd (fst (addQuotes this (pendingDataSource promise) result
                             (Js.entries result) response))))],
       snd (fst (addQuotes this (pendingDataSource promise) result
                   (Js.entries result) response)),
       inr tt).
Proof.
  intros this promise result response Hreturns.
  unfold onQuotes, bindC, current, perform.
  destruct (addQuotes _ _ _ _ _) as [[log r] [e'|[]]]; cbn in Hreturns |- *;
    [discriminate|].
  unfold tryCatch, emit, settle. cbn [bind].
  destruct (MarketDataService.updateMany _ _) as [e|[]];
    cbn; now rewrite ?app_nil_r.
Qed.

Lemma onQuotes_run :
  forall (this : DataProviderService) (promise : PendingQuotes)
         (result : Js.obj Quote.t) (response : Js.obj Quote.t),
    match quoteAssignments result (Js.entries result) with
    | inr assignments =>
        onQuotes this promise result response
        = (map (cacheWrite this (pendingDataSource promise)) assignments
           ++ [MarketDataUpdateMany
                 (intradayData (assign assignments response))],
           assign assignments response, inr tt)
    | inl e => snd (onQuotes this promise result response) = inl e
    end.
Proof.
  intros this promise result response.
  pose proof (addQuotes_run this (pendingDataSource promise) result
                (Js.entries result) response) as Hrun.
  destruct (quoteAssignments result (Js.entries result)) as [e|assignments].
  - now rewrite (onQuotes_throws _ _ _ _ _ Hrun).
  - rewrite onQuotes_returns; now rewrite Hrun.
Qed.

Lemma runCallbacks_inv :
  forall (this : DataProviderService) (settled : list PendingQuotes)
         (response : Js.obj Quote.t) (log : list Event)
         (final : Js.obj Quote.t),
    runCallbacks this settled response = (log, final, None) ->
    exists assignments,
      Forall2 settledAssignments settled assignments
      /\ final = assign (concat assignments) response
      /\ log = callbacksLog this settled assignments response.
Proof.
  intros this. induction settled as [|promise settled IH];
    intros response log final Hrun.
  - cbn in Hrun. injection Hrun as <- <-. exists []. repeat split. constructor.
  - cbn [runCallbacks] in Hrun.
    destruct (pendingResult promise) as [e|result] eqn:Hres.
    { destruct (runCallbacks this settled response) as [[log' r'] o'].
      discriminate. }
    pose proof (onQuotes_run this promise result response) as Hview.
    destruct (quoteAssignments result (Js.entries result)) as [e|a] eqn:Ha.
    { destruct (onQuotes this promise result response) as [[log1 r1] [e'|[]]];
        cbn in Hview; [|discriminate].
      destruct (runCallbacks this settled r1) as [[log' r'] o'].
      discriminate. }
    rewrite Hview in Hrun.
    destruct (runCallbacks this settled (assign a response))
      as [[log' r'] o'] eqn:Hrest.
    injection Hrun as <- <- ->.
    destruct (IH _ _ _ Hrest) as (assignments & Hall & -> & ->).
    exists (a :: assignments). split; [|split].
    + constructor; auto. now exists result.
    + cbn [concat]. now rewrite assign_app.
    + cbn [callbacksLog app]. now rewrite <- app_assoc.
Qed.

Lemma runCallbacks_ok :
  forall (this : DataProviderService) (settled : list PendingQuotes)
         (assignments : list (list (string * Quote.t)))
         (response : Js.obj Quote.t),
    Forall2 settledAssignments settled assignments ->
    runCallbacks this settled response
    = (callbacksLog this settled assignments response,
       assign (concat assignments) response, None).
Proof.
  intros this settled assignments response Hall. revert response.
  induction Hall as [|promise a settled assignments Ha Hall IH];
    intros response; [reflexivity|].
  destruct Ha as (result & Hres & Ha).
  cbn [runCallbacks]. rewrite Hres.
  pose proof (onQuotes_run this promise result response) as Hview.
  rewrite Ha in Hview. rewrite Hview, IH.
  cbn [callbacksLog concat]. rewrite assign_app, <- app_assoc. reflexivity.
Qed.

(** Every call made by the callbacks is a write to the cache for the data
    source of a settled request, or a call of [updateMany]. *)
Lemma addDerivedQuotes_log :
  forall (this : DataProviderService) (dataSource : DataSource)
         (result : Js.obj Quote.t) (symbol : string) (q : Quote.t)
         (derived : list Derived.t) (response : Js.obj Quote.t),
    Forall (fun ev => exists kv, ev = cacheWrite this dataSource kv)
      (logOf (addDerivedQuotes this dataSource result symbol q derived
                response)).
Proof.
  intros this dataSource result symbol q.
  induction derived as [|d derived IH]; intros response;
    cbn [addDerivedQuotes]; [constructor|].
  destruct (String.eqb symbol _); [|apply IH].
  unfold bindC, perform, assignTo.
  destruct (Js.get _ result) as [rootQuote|]; [|constructor].
  cbn [trace outcome ret fst snd].
  destruct (Big_mul_toNumber _ _) as [price|]; [|constructor].
  cbn [trace outcome ret emit fst snd app].
  specialize (IH (Js.set (DEFAULT_CURRENCY ++ Derived.currency d)
                    (derivedQuote q (Derived.currency d) price) response)).
  destruct (addDerivedQuotes _ _ _ _ _ _ _) as [[log r] o]. cbn in IH |- *.
  constructor; auto.
  now exists ((DEFAULT_CURRENCY ++ Derived.currency d)%string,
              derivedQuote q (Derived.currency d) price).
Qed.

Lemma addQuotes_log :
  forall (this : DataProviderService) (dataSource : DataSource)
         (result : Js.obj Quote.t) (entries : list (string * Quote.t))
         (response : Js.obj Quote.t),
    Forall (fun ev => exists kv, ev = cacheWrite this dataSource kv)
      (logOf (addQuotes this dataSource result entries response)).
Proof.
  intros this dataSource result.
  induction entries as [|[symbol q] entries IH]; intros response;
    cbn [addQuotes]; [constructor|].
  destruct (Js.includes symbol skippedSymbols); [apply IH|].
  unfold bindC, perform, assignTo. cbn [trace outcome emit fst snd app].
  pose proof (addDerivedQuotes_log this dataSource result symbol q
                DERIVED_CURRENCIES (Js.set symbol q response)) as Hd.
  destruct (addDerivedQuotes _ _ _ _ _ _ _) as [[log r] [e|[]]];
    cbn in Hd |- *.
  - constructor; auto. now exists (symbol, q).
  - specialize (IH r).
    destruct (addQuotes _ _ _ _ _) as [[log' r'] o']. cbn in IH |- *.
    constructor; [now exists (symbol, q)|]. apply Forall_app. auto.
Qed.

Lemma onQuotes_log :
  forall (this : DataProviderService) (promise : PendingQuotes)
         (result : Js.obj Quote.t) (response : Js.obj Quote.t),
    Forall
      (fun ev =>
         (exists kv, ev = cacheWrite this (pendingDataSource promise) kv)
         \/ exists data, ev = MarketDataUpdateMany data)
      (logOf (onQuotes this promise result response)).
Proof.
  intros this promise result response.
  pose proof (addQuotes_log this (pendingDataSource promise) result
                (Js.entries result) response) as Hlog.
  destruct (snd (addQuotes this (pendingDataSource promise) result
                   (Js.entries result) response)) as [e|[]] eqn:Hout.
  - rewrite (onQuotes_throws _ _ _ _ _ Hout). cbn [logOf fst].
    eapply Forall_impl; [|exact Hlog]. cbn. auto.
  - rewrite (onQuotes_returns _ _ _ _ Hout). cbn [logOf fst].
    apply Forall_app. split.
    + eapply Forall_impl; [|exact Hlog]. cbn. auto.
    + constructor; [|constructor]. right. eauto.
Qed.

Lemma runCallbacks_log :
  forall (this : DataProviderService) (settled : list PendingQuotes)
         (response : Js.obj Quote.t),
    Forall
      (fun ev =>
         (exists promise kv,
             In promise settled
             /\ ev = cacheWrite this (pendingDataSource promise) kv)
         \/ exists data, ev = MarketDataUpdateMany data)
      (logOf (runCallbacks this settled response)).
Proof.
  intros this. induction settled as [|promise settled IH]; intros response;
    cbn [runCallbacks]; [constructor|].
  assert (Hrest :
            forall response,
              Forall
                (fun ev =>
                   (exists promise0 kv,
                       In promise0 (promise :: settled)
                       /\ ev = cacheWrite this (pendingDataSource promise0) kv)
                   \/ exists data, ev = MarketDataUpdateMany data)
                (logOf (runCallbacks this settled response))).
  { intros r. eapply Forall_impl; [|apply IH].
    intros ev [(p & kv & Hp & ->)|H]; auto.
    left. exists p, kv. split; auto. now right. }
  destruct (pendingResult promise) as [e|result].
  { specialize (Hrest response).
    destruct (runCallbacks this settled response) as [[log' r'] o'].
    exact Hrest. }
  pose proof (onQuotes_log this promise result response) as Hon.
  destruct (onQuotes this promise result response) as [[log r] [e|[]]];
    specialize (Hrest r);
    destruct (runCallbacks this settled r) as [[log' r'] o'];
    cbn in Hon, Hrest |- *; apply Forall_app; split; auto;
    (eapply Forall_impl; [|exact Hon]);
    intros ev [(kv & ->)|H]; auto; left; exists promise, kv; split; auto;
    now left.
Qed.

Lemma last_cons_default : forall (A : Type) (l : list A) (x d d' : A),
    last (x :: l) d = last (x :: l) d'.
Proof.
  intros A. induction l as [|y l IH]; intros x d d'; [reflexivity|].
  change (last (y :: l) d = last (y :: l) d'). apply IH.
Qed.

Lemma snapshots_settled :
  forall (this : DataProviderService) (settled : list PendingQuotes)
         (assignments : list (list (string * Quote.t)))
         (response : Js.obj Quote.t),
    Forall2 settledAssignments settled assignments ->
    length (snapshots this settled response) = length settled
    /\ last (snapshots this settled response) response
       = assign (concat assignments) response.
Proof.
  intros this settled assignments response Hall. revert response.
  induction Hall as [|promise a settled assignments Ha Hall IH];
    intros response; [repeat split|].
  destruct Ha as (result & Hres & Ha).
  cbn [snapshots]. rewrite Hres.
  pose proof (addQuotes_run this (pendingDataSource promise) result
                (Js.entries result) response) as Hrun.
  rewrite Ha in Hrun. rewrite Hrun.
  destruct (IH (assign a response)) as (Hlen & Hlast).
  split.
  - cbn [length]. now rewrite Hlen.
  - cbn [concat]. rewrite assign_app, <- Hlast.
    destruct (snapshots this settled (assign a response)) as [|o l];
      [reflexivity|].
    change (last (o :: l) response = last (o :: l) (assign a response)).
    apply last_cons_default.
Qed.

(** One snapshot for each callback that reaches [updateMany]. *)
Lemma snapshots_length :
  forall (this : DataProviderService) (settled : list PendingQuotes)
         (response : Js.obj Quote.t),
    length (snapshots this settled response)
    = length (filter reachesUpdate settled).
Proof.
  intros this. induction settled as [|promise settled IH]; intros response;
    [reflexivity|].
  cbn [snapshots filter]. unfold reachesUpdate at 1.
  destruct (pendingResult promise) as [e|result]; [apply IH|].
  pose proof (addQuotes_run this (pendingDataSource promise) result
                (Js.entries result) response) as Hrun.
  destruct (quoteAssignments result (Js.entries result)) as [e|a].
  - destruct (addQuotes _ _ _ _ _) as [[log r] [e'|[]]]; cbn in Hrun;
      [apply IH | discriminate].
  - rewrite Hrun. cbn [length]. now rewrite IH.
Qed.

(** The calls of [updateMany] made by the callbacks. *)
Lemma runCallbacks_updates :
  forall (this : DataProviderService) (settled : list PendingQuotes)
         (response : Js.obj Quote.t),
    filter isUpdateMany (logOf (runCallbacks this settled response))
    = map (fun accumulated => MarketDataUpdateMany (intradayData accumulated))
        (snapshots this settled response).
Proof.
  intros this. induction settled as [|promise settled IH]; intros response;
    [reflexivity|].
  cbn [runCallbacks snapshots].
  destruct (pendingResult promise) as [e|result].
  { specialize (IH response).
    destruct (runCallbacks this settled response) as [[log' r'] o'].
    exact IH. }
  assert (Hwrites :
            filter isUpdateMany
              (logOf (addQuotes this (pendingDataSource promise) result
                        (Js.entries result) response))
            = []).
  { apply filter_all_false.
    eapply Forall_impl; [|apply addQuotes_log]. now intros ev [kv ->]. }
  destruct (snd (addQuotes this (pendingDataSource promise) result
                   (Js.entries result) response)) as [e|[]] eqn:Hout.
  - rewrite (onQuotes_throws _ _ _ _ _ Hout).
    destruct (addQuotes _ _ _ _ _) as [[log r] o]. cbn in Hout, Hwrites |- *.
    subst o. specialize (IH r).
    destruct (runCallbacks this settled r) as [[log' r'] o'].
    cbn in IH |- *. now rewrite filter_app, Hwrites, IH.
  - rewrite (onQuotes_returns _ _ _ _ Hout).
    destruct (addQuotes _ _ _ _ _) as [[log r] o]. cbn in Hout, Hwrites |- *.
    subst o. specialize (IH r).
    destruct (runCallbacks this settled r) as [[log' r'] o'].
    cbn in IH |- *. rewrite !filter_app, Hwrites, IH. reflexivity.
Qed.

Lemma callbacksLog_no_request :
  forall (this : DataProviderService) (settled : list PendingQuotes)
         (assignments : list (list (string * Quote.t)))
         (response : Js.obj Quote.t),
    filter isProviderGetQuotes
      (callbacksLog this settled assignments response) = [].
Proof.
  intros this. induction settled as [|promise settled IH];
    intros [|a assignments] response; auto.
  cbn [callbacksLog]. rewrite filter_app. cbn [filter isProviderGetQuotes].
  rewrite IH, app_nil_r. clear. induction a as [|kv a IH]; auto.
Qed.

Lemma callbacksLog_cacheWrite :
  forall (this : DataProviderService) (settled : list PendingQuotes)
         (assignments : list (list (string * Quote.t)))
         (response : Js.obj Quote.t) (promise : PendingQuotes)
         (a : list (string * Quote.t)) (kv : string * Quote.t),
    Forall2 settledAssignments settled assignments ->
    In (promise, a) (combine settled assignments) ->
    In kv a ->
    In (cacheWrite this (pendingDataSource promise) kv)
       (callbacksLog this settled assignments response).
Proof.
  intros this settled assignments response promise a kv Hall.
  revert response.
  induction Hall as [|p a' settled assignments Ha Hall IH];
    intros response Hin Hkv; [destruct Hin|].
  cbn [callbacksLog]. apply in_or_app. destruct Hin as [Heq|Hin].
  - injection Heq as -> ->. left. now apply in_map.
  - right. right. now apply IH.
Qed.

(** *** [getQuotes] as requests followed by callbacks *)

Lemma getQuotes_unfold :
  forall (this : DataProviderService) (items : list AssetProfileIdentifier)
         (requestTimeout : option Z) (useCache : bool)
         (user : option User.t),
    getQuotes this items requestTimeout useCache user
    = (trace (upstreamRequests this items requestTimeout useCache user)
       ++ logOf (runCallbacks this
                   (settledRequests this items requestTimeout useCache user)
                   (responseFromCache this useCache items)),
       match outcome (upstreamRequests this items requestTimeout useCache
                        user) with
       | inl e => inl e
       | inr promises =>
           match runCallbacks this (schedule _ promises)
                   (responseFromCache this useCache items) with
           | (_, _, Some e) => inl e
           | (_, response, None) => inr response
           end
       end).
Proof.
  intros. unfold getQuotes, settledRequests, upstreamRequests, itemsToFetch,
    responseFromCache.
  destruct (getItemsFromCache this useCache items
              (initialResponse this items) []) as [response toFetch].
  cbn [fst snd].
  destruct (requestGroups this user requestTimeout _)
    as [log [e|promises]]; cbn [trace outcome fst snd].
  - destruct e; cbn [runCallbacks logOf fst]; rewrite ?app_nil_r;
      try reflexivity;
      now destruct (runCallbacks this _ response) as [[log' r'] o'].
  - now destruct (runCallbacks this _ response) as [[log' r'] [e|]].
Qed.

Lemma getQuotes_trace :
  forall (this : DataProviderService) (items : list AssetProfileIdentifier)
         (requestTimeout : option Z) (useCache : bool)
         (user : option User.t),
    trace (getQuotes this items requestTimeout useCache user)
    = trace (upstreamRequests this items requestTimeout useCache user)
      ++ logOf (runCallbacks this
                  (settledRequests this items requestTimeout useCache user)
                  (responseFromCache this useCache items)).
Proof. intros. now rewrite getQuotes_unfold. Qed.

Lemma getQuotes_inv :
  forall (this : DataProviderService) (items : list AssetProfileIdentifier)
         (requestTimeout : option Z) (useCache : bool)
         (user : option User.t) (log : list Event)
         (response : Js.obj Quote.t),
    getQuotes this items requestTimeout useCache user = (log, inr response) ->
    exists log1 promises assignments,
      upstreamRequests this items requestTimeout useCache user
      = (log1, inr promises)
      /\ Forall2 settledAssignments (schedule _ promises) assignments
      /\ response
         = assign (concat assignments) (responseFromCache this useCache items)
      /\ log
         = log1 ++ callbacksLog this (schedule _ promises) assignments
                     (responseFromCache this useCache items).
Proof.
  intros this items requestTimeout useCache user log response Hrun.
  rewrite getQuotes_unfold in Hrun. unfold settledRequests in Hrun.
  destruct (upstreamRequests this items requestTimeout useCache user)
    as [log1 [e|promises]]; cbn [trace outcome fst snd] in Hrun;
    [discriminate|].
  destruct (runCallbacks this (schedule _ promises)
              (responseFromCache this useCache items))
    as [[log2 final] [e|]] eqn:Hcallbacks; [discriminate|].
  cbn [logOf fst] in Hrun. injection Hrun as <- <-.
  apply runCallbacks_inv in Hcallbacks as (assignments & Hall & -> & ->).
  now exists log1, promises, assignments.
Qed.

Lemma getQuotes_outcome_inv :
  forall (this : DataProviderService) (items : list AssetProfileIdentifier)
         (requestTimeout : option Z) (useCache : bool)
         (user : option User.t) (response : Js.obj Quote.t),
    outcome (getQuotes this items requestTimeout useCache user)
    = inr response ->
    exists log1 promises assignments,
      upstreamRequests this items requestTimeout useCache user
      = (log1, inr promises)
      /\ Forall2 settledAssignments (schedule _ promises) assignments
      /\ response
         = assign (concat assignments) (responseFromCache this useCache items)
      /\ trace (getQuotes this items requestTimeout useCache user)
         = log1 ++ callbacksLog this (schedule _ promises) assignments
                     (responseFromCache this useCache items).
Proof.
  intros this items requestTimeout useCache user response Hout.
  destruct (getQuotes this items requestTimeout useCache user)
    as [log r] eqn:Hrun.
  cbn in Hout. subst r. now apply getQuotes_inv in Hrun.
Qed.

(** *** The market-data store has no influence on the outcome *)

Lemma getDataProviderFrom_store :
  forall (this : DataProviderService) (store : MarketDataService.t)
         (providerName : DataSource)
         (interfaces : list DataProviderInterface.t),
    getDataProviderFrom (withMarketDataService this store) providerName
      interfaces
    = getDataProviderFrom this providerName interfaces.
Proof.
  intros this store providerName.
  induction interfaces as [|i interfaces IH]; [reflexivity|].
  cbn [getDataProviderFrom withMarketDataService dataProviderMapping
         dataProviderInterfaces].
  now rewrite IH.
Qed.

Lemma getItemsFromCache_store :
  forall (this : DataProviderService) (store : MarketDataService.t)
         (useCache : bool) (items : list AssetProfileIdentifier)
         (response : Js.obj Quote.t)
         (toFetch : list AssetProfileIdentifier),
    getItemsFromCache (withMarketDataService this store) useCache items
      response toFetch
    = getItemsFromCache this useCache items response toFetch.
Proof.
  intros this store useCache.
  induction items as [|i items IH]; intros response toFetch; [reflexivity|].
  cbn [getItemsFromCache withMarketDataService redisCacheService].
  destruct (if useCache then _ else None); apply IH.
Qed.

Lemma requestGroups_store :
  forall (this : DataProviderService) (store : MarketDataService.t)
         (user : option User.t) (requestTimeout : option Z)
         (groups : list (string * list AssetProfileIdentifier)),
    requestGroups (withMarketDataService this store) user requestTimeout
      groups
    = requestGroups this user requestTimeout groups.
Proof.
  intros this store user requestTimeout.
  induction groups as [|[ds ids] groups IH]; [reflexivity|].
  cbn [requestGroups]. unfold getDataProvider.
  rewrite getDataProviderFrom_store, IH. reflexivity.
Qed.

(** What the loop over the entries assigns and throws does not depend on
    the service. *)
Lemma addDerivedQuotes_service :
  forall (this this' : DataProviderService) (dataSource : DataSource)
         (result : Js.obj Quote.t) (symbol : string) (q : Quote.t)
         (derived : list Derived.t) (response : Js.obj Quote.t),
    snd (fst (addDerivedQuotes this dataSource result symbol q derived
                response))
    = snd (fst (addDerivedQuotes this' dataSource result symbol q derived
                  response))
    /\ snd (addDerivedQuotes this dataSource result symbol q derived
              response)
       = snd (addDerivedQuotes this' dataSource result symbol q derived
                response).
Proof.
  intros this this' dataSource result symbol q.
  induction derived as [|d derived IH]; intros response;
    cbn [addDerivedQuotes]; [now split|].
  destruct (String.eqb symbol _); [|apply IH].
  unfold bindC, perform, assignTo.
  destruct (Js.get _ result) as [rootQuote|]; [|now split].
  cbn [trace outcome ret fst snd].
  destruct (Big_mul_toNumber _ _) as [price|]; [|now split].
  cbn [trace outcome ret emit fst snd app].
  specialize (IH (Js.set (DEFAULT_CURRENCY ++ Derived.currency d)
                    (derivedQuote q (Derived.currency d) price) response)).
  destruct (addDerivedQuotes this _ _ _ _ _ _) as [[log r] o].
  destruct (addDerivedQuotes this' _ _ _ _ _ _) as [[log' r'] o'].
  exact IH.
Qed.

Lemma addQuotes_service :
  forall (this this' : DataProviderService) (dataSource : DataSource)
         (result : Js.obj Quote.t) (entries : list (string * Quote.t))
         (response : Js.obj Quote.t),
    snd (fst (addQuotes this dataSource result entries response))
    = snd (fst (addQuotes this' dataSource result entries response))
    /\ snd (addQuotes this dataSource result entries response)
       = snd (addQuotes this' dataSource result entries response).
Proof.
  intros this this' dataSource result.
  induction entries as [|[symbol q] entries IH]; intros response;
    cbn [addQuotes]; [now split|].
  destruct (Js.includes symbol skippedSymbols); [apply IH|].
  unfold bindC, perform, assignTo. cbn [trace outcome emit fst snd app].
  pose proof (addDerivedQuotes_service this this' dataSource result symbol q
                DERIVED_CURRENCIES (Js.set symbol q response)) as Hd.
  destruct (addDerivedQuotes this _ _ _ _ _ _) as [[log r] o].
  destruct (addDerivedQuotes this' _ _ _ _ _ _) as [[log' r'] o'].
  cbn in Hd. destruct Hd as [<- <-].
  destruct o as [e|[]]; [now split|].
  specialize (IH r).
  destruct (addQuotes this _ _ _ _) as [[log1 r1] o1].
  destruct (addQuotes this' _ _ _ _) as [[log1' r1'] o1'].
  exact IH.
Qed.

Lemma onQuotes_service :
  forall (this this' : DataProviderService) (promise : PendingQuotes)
         (result : Js.obj Quote.t) (response : Js.obj Quote.t),
    snd (fst (onQuotes this promise result response))
    = snd (fst (onQuotes this' promise result response))
    /\ snd (onQuotes this promise result response)
       = snd (onQuotes this' promise result response).
Proof.
  intros this this' promise result response.
  destruct (addQuotes_service this this' (pendingDataSource promise) result
              (Js.entries result) response) as [Hresponse Hout].
  destruct (snd (addQuotes this (pendingDataSource promise) result
                   (Js.entries result) response)) as [e|[]] eqn:Hthis;
    symmetry in Hout.
  - rewrite (onQuotes_throws _ _ _ _ _ Hthis),
      (onQuotes_throws _ _ _ _ _ Hout). now split.
  - rewrite (onQuotes_returns _ _ _ _ Hthis),
      (onQuotes_returns _ _ _ _ Hout). now split.
Qed.

Lemma runCallbacks_outcome :
  forall (this this' : DataProviderService) (settled : list PendingQuotes)
         (response : Js.obj Quote.t),
    snd (fst (runCallbacks this settled response))
    = snd (fst (runCallbacks this' settled response))
    /\ snd (runCallbacks this settled response)
       = snd (runCallbacks this' settled response).
Proof.
  intros this this'. induction settled as [|promise settled IH];
    intros response; [now split|].
  cbn [runCallbacks].
  destruct (pendingResult promise) as [e|result].
  { specialize (IH response).
    destruct (runCallbacks this settled response) as [[log r] o].
    destruct (runCallbacks this' settled response) as [[log' r'] o'].
    cbn in IH |- *. destruct IH as [-> _]. now split. }
  pose proof (onQuotes_service this this' promise result response) as Hon.
  destruct (onQuotes this promise result response) as [[log r] o].
  destruct (onQuotes this' promise result response) as [[log' r'] o'].
  cbn in Hon. destruct Hon as [<- <-].
  specialize (IH r).
  destruct o as [e|[]];
    destruct (runCallbacks this settled r) as [[log1 r1] o1];
    destruct (runCallbacks this' settled r) as [[log1' r1'] o1'];
    cbn in IH; destruct IH as [<- <-]; cbn; split; reflexivity.
Qed.

Lemma getQuotes_store :
  forall (this : DataProviderService) (store : MarketDataService.t)
         (items : list AssetProfileIdentifier) (requestTimeout : option Z)
         (useCache : bool) (user : option User.t),
    outcome (getQuotes (withMarketDataService this store) items
               requestTimeout useCache user)
    = outcome (getQuotes this items requestTimeout useCache user).
Proof.
  intros.
  assert (Hrequests :
            upstreamRequests (withMarketDataService this store) items
              requestTimeout useCache user
            = upstreamRequests this items requestTimeout useCache user).
  { unfold upstreamRequests, itemsToFetch.
    rewrite requestGroups_store, getItemsFromCache_store. reflexivity. }
  assert (Hresponse :
            responseFromCache (withMarketDataService this store) useCache
              items
            = responseFromCache this useCache items).
  { unfold responseFromCache. now rewrite getItemsFromCache_store. }
  rewrite !getQuotes_unfold. cbn [outcome snd].
  rewrite Hrequests, Hresponse.
  destruct (outcome (upstreamRequests this items requestTimeout useCache
                       user))
    as [e|promises]; [reflexivity|].
  destruct (runCallbacks_outcome (withMarketDataService this store) this
              (schedule _ promises) (responseFromCache this useCache items))
    as [Hfinal Hrejection].
  destruct (runCallbacks (withMarketDataService this store) _ _)
    as [[log r] o].
  destruct (runCallbacks this _ _) as [[log' r'] o'].
  cbn in Hfinal, Hrejection. now subst.
Qed.

Lemma In_intradayData :
  forall (response : Js.obj Quote.t) (update : Update.t),
    In update (intradayData response) <->
    exists symbol quote x,
      Js.get symbol response = Some quote
      /\ Quote.marketPrice quote = Js.Number x
      /\ PrimFloat.ltb 0 x = true
      /\ Quote.marketState quote = "open"
      /\ update
         = {| Update.symbol := symbol;
              Update.dataSource := Quote.dataSource quote;
              Update.date := getStartOfUtcDate now;
              Update.marketPrice := Quote.marketPrice quote;
              Update.state := "INTRADAY" |}.
Proof.
  intros response update. unfold intradayData. rewrite in_flat_map. split.
  - intros (symbol & Hin & Hup). apply filter_In in Hin as [_ Hok].
    unfold isIntraday, intradayUpdate in *.
    destruct (Js.get symbol response) as [quote|] eqn:Hget; [|discriminate].
    destruct Hup as [<-|[]].
    apply andb_prop in Hok as [Hok Hopen].
    apply andb_prop in Hok as [_ Hpos].
    destruct (Quote.marketPrice quote) as [x|] eqn:Hprice; [|discriminate].
    exists symbol, quote, x.
    apply String.eqb_eq in Hopen. cbn in Hpos. repeat split; auto.
    now rewrite Hprice.
  - intros (symbol & quote & x & Hget & Hprice & Hpos & Hopen & ->).
    exists symbol. split.
    + apply filter_In. split.
      * eapply get_some_in_keys; eauto.
      * unfold isIntraday. rewrite Hget, Hprice, Hopen. cbn. now rewrite Hpos.
    + unfold intradayUpdate. rewrite Hget. now left.
Qed.

Lemma requestGroups_no_update :
  forall (this : DataProviderService) (user : option User.t)
         (requestTimeout : option Z)
         (groups : list (string * list AssetProfileIdentifier)),
    filter isUpdateMany (trace (requestGroups this user requestTimeout groups))
    = [].
Proof.
  intros this user requestTimeout groups. apply filter_all_false.
  induction groups as [|[ds ids] groups IH]; cbn [requestGroups];
    [constructor|].
  apply Forall_trace_bind; [constructor|]. intros dp.
  apply Forall_trace_bind; [|intros ps; apply Forall_trace_bind;
                              [exact IH | constructor]].
  generalize (length (symbolsToFetch this dp user ids)) at 1.
  generalize 0%N.
  intros i fuel. revert i.
  induction fuel as [|fuel IHf]; intros i; cbn [requestChunks];
    destruct (i <? _)%N; try constructor.
  apply Forall_trace_bind; [repeat constructor|]. intros _.
  apply Forall_trace_bind; [apply IHf | constructor].
Qed.

(** The loop over the entries of a result does not throw when big.js
    accepts the price of every root pair that the result holds. *)
Lemma derivedAssignments_total :
  forall (result : Js.obj Quote.t) (symbol : string) (q : Quote.t)
         (derived : list Derived.t),
    In symbol (Js.keys result) ->
    (forall d rootQuote,
        In d derived ->
        Js.get (DEFAULT_CURRENCY ++ Derived.rootCurrency d) result
        = Some rootQuote ->
        Big_mul_toNumber (Quote.marketPrice rootQuote)
          (Js.Number (Derived.factor d))
        <> None) ->
    exists assignments,
      derivedAssignments result symbol q derived = inr assignments.
Proof.
  intros result symbol q derived Hkey.
  induction derived as [|d derived IH]; intros Hbig;
    cbn [derivedAssignments]; [eauto|].
  destruct IH as (assignments & Hrest).
  { intros d' rootQuote Hd'. apply Hbig. now right. }
  destruct (String.eqb_spec symbol
              (DEFAULT_CURRENCY ++ Derived.rootCurrency d)) as [Hs|Hs];
    [|eauto].
  apply in_keys_get in Hkey. destruct Hkey as (rootQuote & Hroot).
  rewrite Hs in Hroot. rewrite Hroot.
  pose proof (Hbig d rootQuote (or_introl eq_refl) Hroot) as Hprice.
  destruct (Big_mul_toNumber _ _) as [price|]; [|contradiction].
  rewrite Hrest. eauto.
Qed.

Lemma quoteAssignments_total :
  forall (result : Js.obj Quote.t) (entries : list (string * Quote.t)),
    incl entries result ->
    (forall d rootQuote,
        In d DERIVED_CURRENCIES ->
        Js.get (DEFAULT_CURRENCY ++ Derived.rootCurrency d) result
        = Some rootQuote ->
        Big_mul_toNumber (Quote.marketPrice rootQuote)
          (Js.Number (Derived.factor d))
        <> None) ->
    exists assignments, quoteAssignments result entries = inr assignments.
Proof.
  intros result entries Hincl Hbig.
  induction entries as [|[s q] entries IH]; cbn [quoteAssignments];
    [eauto|].
  destruct IH as (assignments & Hrest).
  { intros entry Hentry. apply Hincl. now right. }
  destruct (Js.includes s skippedSymbols); [eauto|].
  destruct (derivedAssignments_total result s q DERIVED_CURRENCIES)
    as (derived & Hderived); auto.
  { change s with (fst (s, q)). apply in_map. apply Hincl. now left. }
  rewrite Hderived, Hrest. eauto.
Qed.

(** C7 (as amended). In every call, the calls of [updateMany] are, in the
    order in which the requests settle, one for each fulfilled request
    whose quotes are added to the response without error, as they are when
    big.js accepts the price of every root pair that the result holds; each
    receives exactly the symbols of the response accumulated so far whose
    market price is a number greater than 0 and whose market state is
    'open', each with state 'INTRADAY', the data source and market price of
    its quote and the start of the current UTC day.  A callback that throws
    while it adds the quotes calls no [updateMany].  Whether [updateMany]
    fails has no influence on the outcome of [getQuotes]. *)
Theorem intraday_prices_persisted :
  forall (this : DataProviderService) (items : list AssetProfileIdentifier)
         (requestTimeout : option Z) (useCache : bool)
         (user : option User.t),
    (forall store,
        outcome (getQuotes (withMarketDataService this store) items
                   requestTimeout useCache user)
        = outcome (getQuotes this items requestTimeout useCache user))
    /\ filter isUpdateMany
         (trace (getQuotes this items requestTimeout useCache user))
       = map (fun accumulated =>
                MarketDataUpdateMany (intradayData accumulated))
           (snapshots this
              (settledRequests this items requestTimeout useCache user)
              (responseFromCache this useCache items))
    /\ length (snapshots this
                 (settledRequests this items requestTimeout useCache user)
                 (responseFromCache this useCache items))
       = length (filter reachesUpdate
                   (settledRequests this items requestTimeout useCache user))
    /\ (forall promise result,
           pendingResult promise = inr result ->
           (forall d rootQuote,
               In d DERIVED_CURRENCIES ->
               Js.get (DEFAULT_CURRENCY ++ Derived.rootCurrency d) result
               = Some rootQuote ->
               Big_mul_toNumber (Quote.marketPrice rootQuote)
                 (Js.Number (Derived.factor d))
               <> None) ->
           reachesUpdate promise = true)
    /\ (forall response,
           outcome (getQuotes this items requestTimeout useCache user)
           = inr response ->
           exists promises,
             outcome (upstreamRequests this items requestTimeout useCache
                        user)
             = inr promises
             /\ settledRequests this items requestTimeout useCache user
                = schedule _ promises
             /\ length (snapshots this (schedule _ promises)
                          (responseFromCache this useCache items))
                = length (schedule _ promises)
             /\ last (snapshots this (schedule _ promises)
                        (responseFromCache this useCache items))
                  (responseFromCache this useCache items)
                = response)
    /\ (forall accumulated update,
           In update (intradayData accumulated) <->
           exists symbol quote x,
             Js.get symbol accumulated = Some quote
             /\ Quote.marketPrice quote = Js.Number x
             /\ PrimFloat.ltb 0 x = true
             /\ Quote.marketState quote = "open"
             /\ update
                = {| Update.symbol := symbol;
                     Update.dataSource := Quote.dataSource quote;
                     Update.date := getStartOfUtcDate now;
                     Update.marketPrice := Quote.marketPrice quote;
                     Update.state := "INTRADAY" |}).
Proof.
  intros this items requestTimeout useCache user.
  split; [|split; [|split; [|split; [|split]]]].
  - intros store. apply getQuotes_store.
  - rewrite getQuotes_trace, filter_app. unfold upstreamRequests at 1.
    rewrite requestGroups_no_update. apply runCallbacks_updates.
  - apply snapshots_length.
  - intros promise result Hresult Hbig. unfold reachesUpdate.
    rewrite Hresult.
    destruct (quoteAssignments_total result (Js.entries result))
      as (assignments & Ha); [apply incl_refl | exact Hbig |].
    now rewrite Ha.
  - intros response Hout.
    apply getQuotes_outcome_inv in Hout
      as (log1 & promises & assignments & Hreq & Hall & -> & _).
    exists promises. unfold settledRequests. rewrite Hreq.
    cbn [outcome snd]. split; [reflexivity|]. split; [reflexivity|].
    apply snapshots_settled. exact Hall.
  - apply In_intradayData.
Qed.

(** *** groupBy *)

Lemma groupInsert_keys :
  forall (A : Type) (k : string) (x : A) (groups : list (string * list A))
         (k' : string),
    In k' (map fst (groupInsert k x groups))
    <-> k' = k \/ In k' (map fst groups).
Proof using.
  intros A k x groups k'. induction groups as [|[k0 xs] groups IH]; simpl.
  - split; [intros [H|[]]; auto | intros [H|[]]; auto].
  - destruct (String.eqb_spec k k0) as [->|Hne]; simpl.
    + split; [intros [H|H]; auto | intros [H|[H|H]]; auto].
    + rewrite IH.
      split; [intros [H|[H|H]]; auto | intros [H|[H|H]]; auto].
Qed.

Lemma groupInsert_NoDup :
  forall (A : Type) (k : string) (x : A) (groups : list (string * list A)),
    NoDup (map fst groups) -> NoDup (map fst (groupInsert k x groups)).
Proof using.
  intros A k x groups. induction groups as [|[k0 xs] groups IH]; simpl.
  - intros _. repeat constructor. simpl. intros [].
  - intros Hnd. inversion Hnd as [|? ? Hnotin Hnd']; subst.
    destruct (String.eqb_spec k k0) as [->|Hne]; simpl.
    + now constructor.
    + constructor; auto. rewrite groupInsert_keys.
      intros [->|Hin]; [now apply Hne | now apply Hnotin].
Qed.

Lemma groupInsert_In :
  forall (A : Type) (k : string) (x : A) (groups : list (string * list A))
         (k' : string) (xs' : list A),
    NoDup (map fst groups) ->
    In (k', xs') (groupInsert k x groups) ->
    (k' = k /\ ((exists xs, In (k, xs) groups /\ xs' = xs ++ [x])
                \/ (~ In k (map fst groups) /\ xs' = [x])))
    \/ (k' <> k /\ In (k', xs') groups).
Proof using.
  intros A k x groups k' xs'.
  induction groups as [|[k0 xs] groups IH]; simpl; intros Hnd.
  - intros [[= <- <-]|[]]. left. split; auto.
  - inversion Hnd as [|? ? Hnotin Hnd']; subst.
    destruct (String.eqb_spec k k0) as [->|Hne]; simpl.
    + intros [[= <- <-]|Hin].
      * left. split; auto. left. exists xs. auto.
      * right. split; auto. intros ->. apply Hnotin.
        change k0 with (fst (k0, xs')). now apply in_map.
    + intros [[= <- <-]|Hin].
      * right. split; auto.
      * apply (IH Hnd') in Hin
          as [[-> [(ys & Hin & ->)|[Hnot ->]]]|[Hne' Hin]].
        -- left. split; auto. left. exists ys. auto.
        -- left. split; auto. right. split; auto.
           intros [?|?]; auto.
        -- right. auto.
Qed.

Lemma filter_none : forall (A : Type) (p : A -> bool) (l : list A),
    (forall x, In x l -> p x = false) -> filter p l = [].
Proof using.
  intros A p. induction l as [|x l IH]; intros Hall; auto.
  cbn. rewrite (Hall x (or_introl eq_refl)). apply IH.
  intros y Hy. apply Hall. now right.
Qed.

Lemma groupBy_spec :
  forall (A : Type) (f : A -> string) (a : list A),
    NoDup (map fst (groupBy f a))
    /\ (forall k xs,
           In (k, xs) (groupBy f a) ->
           xs = filter (fun x => String.eqb (f x) k) a /\ xs <> [])
    /\ (forall x, In x a -> In (f x) (map fst (groupBy f a))).
Proof using.
  intros A f a. unfold groupBy.
  assert (H : forall (pre : list A) (groups : list (string * list A)),
             (NoDup (map fst groups)
              /\ (forall k xs,
                     In (k, xs) groups ->
                     xs = filter (fun x => String.eqb (f x) k) pre
                     /\ xs <> [])
              /\ (forall x, In x pre -> In (f x) (map fst groups))) ->
             let groups' :=
               fold_left (fun g x => groupInsert (f x) x g) a groups in
             NoDup (map fst groups')
             /\ (forall k xs,
                    In (k, xs) groups' ->
                    xs = filter (fun x => String.eqb (f x) k) (pre ++ a)
                    /\ xs <> [])
             /\ (forall x, In x (pre ++ a) -> In (f x) (map fst groups'))).
  { induction a as [|y a IH]; intros pre groups (Hnd & Hgroups & Hkeys).
    - cbn. rewrite app_nil_r. auto.
    - intros groups'. subst groups'. cbn [fold_left].
      replace (pre ++ y :: a) with ((pre ++ [y]) ++ a)
        by now rewrite <- app_assoc.
      apply IH. split; [|split].
      + now apply groupInsert_NoDup.
      + intros k xs Hin. rewrite filter_app. cbn [filter].
        apply (groupInsert_In _ _ _ _ _ _ Hnd) in Hin
          as [[-> [(ys & Hin & ->)|[Hnot ->]]]|[Hne Hin]].
        * rewrite String.eqb_refl. apply Hgroups in Hin as [-> _].
          split; auto. intros Hnil. now apply app_eq_nil in Hnil as [_ ?].
        * rewrite String.eqb_refl. split; [|discriminate].
          replace (filter (fun x => String.eqb (f x) (f y)) pre)
            with (@nil A); auto.
          symmetry. apply filter_none.
          intros x Hx. apply String.eqb_neq. intros Heq.
          apply Hnot. rewrite <- Heq. now apply Hkeys.
        * apply Hgroups in Hin as [-> Hne'].
          apply not_eq_sym in Hne. apply String.eqb_neq in Hne.
          rewrite Hne, app_nil_r. auto.
      + intros x Hin. rewrite groupInsert_keys.
        apply in_app_or in Hin as [Hin|[<-|[]]]; auto. }
  apply (H [] []). repeat split; try constructor; intros; contradiction.
Qed.

(** *** The callbacks call no provider *)

Lemma runCallbacks_callsNoProvider :
  forall (this : DataProviderService) (settled : list PendingQuotes)
         (response : Js.obj Quote.t),
    Forall (fun ev => isProviderGetQuotes ev = false)
      (logOf (runCallbacks this settled response)).
Proof.
  intros this settled response.
  eapply Forall_impl; [|apply runCallbacks_log].
  intros ev [(promise & kv & _ & ->)|[data ->]]; reflexivity.
Qed.




(** *** Derived currencies in [getQuotes] *)

Lemma derived_in_skipped : forall d,
    In d DERIVED_CURRENCIES ->
    In (DEFAULT_CURRENCY ++ Derived.currency d)%string skippedSymbols.
Proof.
  intros d Hd. unfold skippedSymbols. apply in_or_app. left.
  apply in_map_iff. now exists d.
Qed.

Lemma root_not_skipped : forall d,
    wellFormedDerivedCurrencies ->
    In d DERIVED_CURRENCIES ->
    ~ In (DEFAULT_CURRENCY ++ Derived.rootCurrency d)%string skippedSymbols.
Proof.
  intros d (_ & Hroots & Husx) Hd Hin. unfold skippedSymbols in Hin.
  apply in_app_or in Hin as [Hin|[Heq|[]]].
  - apply in_map_iff in Hin as (d' & Heq & Hd').
    apply append_inj in Heq. now apply (Hroots d d').
  - apply append_inj in Heq. now apply (Husx d).
Qed.

Lemma same_name_same_entry : forall (l : list Derived.t) d d',
    NoDup (map Derived.currency l) ->
    In d l -> In d' l -> Derived.currency d = Derived.currency d' -> d = d'.
Proof.
  induction l as [|x l IH]; intros d d' Hnd Hd Hd' Heq; [destruct Hd|].
  cbn in Hnd. inversion Hnd as [|? ? Hnotin Hnd']; subst.
  destruct Hd as [->|Hd], Hd' as [->|Hd']; auto.
  - exfalso. apply Hnotin. rewrite Heq. now apply in_map.
  - exfalso. apply Hnotin. rewrite <- Heq. now apply in_map.
Qed.

Lemma derivedAssignments_provenance :
  forall (result : Js.obj Quote.t) (symbol : string) (q : Quote.t)
         (derived : list Derived.t) (assignments : list (string * Quote.t)),
    derivedAssignments result symbol q derived = inr assignments ->
    forall k v,
      In (k, v) assignments ->
      exists d rootQuote price,
        In d derived
        /\ symbol = (DEFAULT_CURRENCY ++ Derived.rootCurrency d)%string
        /\ k = (DEFAULT_CURRENCY ++ Derived.currency d)%string
        /\ Js.get symbol result = Some rootQuote
        /\ Big_mul_toNumber (Quote.marketPrice rootQuote)
             (Js.Number (Derived.factor d))
           = Some price
        /\ v = derivedQuote q (Derived.currency d) price.
Proof.
  intros result symbol q.
  induction derived as [|d derived IH]; intros assignments Hrun k v Hin.
  - cbn in Hrun. injection Hrun as <-. destruct Hin.
  - cbn [derivedAssignments] in Hrun.
    destruct (String.eqb_spec symbol
                (DEFAULT_CURRENCY ++ Derived.rootCurrency d)) as [Hs|Hs].
    + destruct (Js.get (DEFAULT_CURRENCY ++ Derived.rootCurrency d) result)
        as [rootQuote|] eqn:Hroot; [|discriminate].
      destruct (Big_mul_toNumber _ _) as [price|] eqn:Hbig; [|discriminate].
      destruct (derivedAssignments result symbol q derived) as [e|a];
        [discriminate|].
      injection Hrun as <-. destruct Hin as [Heq|Hin].
      * injection Heq as <- <-. exists d, rootQuote, price.
        rewrite Hs. repeat split; auto. now left.
      * destruct (IH a eq_refl k v Hin) as (d' & rq & p & Hd' & H).
        exists d', rq, p. split; [now right | exact H].
    + destruct (IH assignments Hrun k v Hin) as (d' & rq & p & Hd' & H).
      exists d', rq, p. split; [now right | exact H].
Qed.

Lemma derivedAssignments_last :
  forall (result : Js.obj Quote.t) (q : Quote.t) (d : Derived.t)
         (derived : list Derived.t) (assignments : list (string * Quote.t))
         (response : Js.obj Quote.t),
    NoDup (map Derived.currency derived) ->
    In d derived ->
    derivedAssignments result
      (DEFAULT_CURRENCY ++ Derived.rootCurrency d) q derived
    = inr assignments ->
    exists rootQuote price,
      Js.get (DEFAULT_CURRENCY ++ Derived.rootCurrency d) result
      = Some rootQuote
      /\ Big_mul_toNumber (Quote.marketPrice rootQuote)
           (Js.Number (Derived.factor d))
         = Some price
      /\ Js.get (DEFAULT_CURRENCY ++ Derived.currency d)
           (assign assignments response)
         = Some (derivedQuote q (Derived.currency d) price).
Proof.
  intros result q d.
  induction derived as [|d' derived IH];
    intros assignments response Hnd Hd Hrun; [destruct Hd|].
  cbn in Hnd. inversion Hnd as [|? ? Hnotin Hnd']; subst.
  cbn [derivedAssignments] in Hrun.
  destruct Hd as [->|Hd].
  - rewrite String.eqb_refl in Hrun.
    destruct (Js.get (DEFAULT_CURRENCY ++ Derived.rootCurrency d) result)
      as [rootQuote|] eqn:Hroot; [|discriminate].
    destruct (Big_mul_toNumber _ _) as [price|] eqn:Hbig; [|discriminate].
    destruct (derivedAssignments result _ q derived) as [e|a] eqn:Ha;
      [discriminate|].
    injection Hrun as <-. exists rootQuote, price. repeat split; auto.
    rewrite assign_cons. cbn [fst snd]. rewrite get_assign_untouched.
    + apply get_set_same.
    + intros v Hin.
      destruct (derivedAssignments_provenance _ _ _ _ _ Ha _ _ Hin)
        as (d2 & _ & _ & Hd2 & _ & Hk & _).
      apply append_inj in Hk. apply Hnotin. rewrite Hk. now apply in_map.
  - destruct (String.eqb (DEFAULT_CURRENCY ++ Derived.rootCurrency d)
                (DEFAULT_CURRENCY ++ Derived.rootCurrency d')).
    + destruct (Js.get (DEFAULT_CURRENCY ++ Derived.rootCurrency d') result)
        as [rootQuote'|]; [|discriminate].
      destruct (Big_mul_toNumber _ _) as [price'|]; [|discriminate].
      destruct (derivedAssignments result _ q derived) as [e|a] eqn:Ha;
        [discriminate|].
      injection Hrun as <-. rewrite assign_cons. now apply IH.
    + now apply IH.
Qed.

Lemma quoteAssignments_derivedFromRoot :
  forall (P : Quote.t -> Prop) (d : Derived.t) (result : Js.obj Quote.t),
    wellFormedDerivedCurrencies ->
    In d DERIVED_CURRENCIES ->
    (forall q,
        Js.get (DEFAULT_CURRENCY ++ Derived.rootCurrency d) result = Some q ->
        P q) ->
    forall (entries : list (string * Quote.t))
           (assignments : list (string * Quote.t)),
      quoteAssignments result entries = inr assignments ->
      (forall s q, In (s, q) entries -> Js.get s result = Some q) ->
      forall response,
        derivedFromRoot P d response
        \/ (exists q,
               In ((DEFAULT_CURRENCY ++ Derived.rootCurrency d)%string, q)
                  entries) ->
        derivedFromRoot P d (assign assignments response).
Proof.
  intros P d result Hwf Hd HP.
  pose proof (root_not_skipped d Hwf Hd) as Hroot.
  pose proof (derived_in_skipped d Hd) as Hderived.
  destruct Hwf as (Hnames & Hroots & Husx).
  induction entries as [|[s q] entries IH];
    intros assignments Hrun Hentries response Hinv.
  - cbn in Hrun. injection Hrun as <-.
    destruct Hinv as [Hinv|[q []]]. exact Hinv.
  - cbn [quoteAssignments] in Hrun.
    destruct (Js.includes s skippedSymbols) eqn:Hskip.
    + apply (IH _ Hrun).
      * intros s' q' Hin. apply Hentries. now right.
      * destruct Hinv as [Hinv|[q' [Heq|Hin]]]; eauto.
        injection Heq as Hs _. subst s. apply includes_In in Hskip.
        contradiction.
    + apply includes_false in Hskip.
      destruct (derivedAssignments result s q DERIVED_CURRENCIES)
        as [e|dws] eqn:Hdws; [discriminate|].
      destruct (quoteAssignments result entries) as [e|ws] eqn:Hws;
        [discriminate|].
      injection Hrun as <-. rewrite assign_cons, assign_app. cbn [fst snd].
      apply (IH _ eq_refl).
      { intros s' q' Hin. apply Hentries. now right. }
      assert (Hkeep : forall r,
                 Js.get (DEFAULT_CURRENCY ++ Derived.rootCurrency d)
                   (assign dws r)
                 = Js.get (DEFAULT_CURRENCY ++ Derived.rootCurrency d) r).
      { intros r. apply get_assign_untouched. intros v Hin.
        destruct (derivedAssignments_provenance _ _ _ _ _ Hdws _ _ Hin)
          as (d' & _ & _ & Hd' & _ & Hk & _).
        apply append_inj in Hk. now apply (Hroots d d'). }
      destruct (String.eqb_spec s
                  (DEFAULT_CURRENCY ++ Derived.rootCurrency d)) as [->|Hs].
      * left.
        assert (Hq : Js.get (DEFAULT_CURRENCY ++ Derived.rootCurrency d)
                       result = Some q)
          by (apply Hentries; now left).
        destruct (derivedAssignments_last result q d DERIVED_CURRENCIES dws
                    (Js.set (DEFAULT_CURRENCY ++ Derived.rootCurrency d) q
                       response) Hnames Hd Hdws)
          as (rootQuote & price & Hget & Hbig & Hset).
        rewrite Hq in Hget. injection Hget as <-.
        exists q, price. repeat split; auto.
        rewrite Hkeep. apply get_set_same.
      * destruct Hinv as [(rootQuote & price & HPq & HR & Hbig & HD)
                         |[q' [Heq|Hin]]].
        -- left. exists rootQuote, price. repeat split; auto.
           ++ rewrite Hkeep, get_set_other; auto.
           ++ rewrite get_assign_untouched.
              ** rewrite get_set_other; auto. intros Heq. apply Hskip.
                 now rewrite <- Heq.
              ** intros v Hin.
                 destruct (derivedAssignments_provenance _ _ _ _ _ Hdws
                             _ _ Hin)
                   as (d' & _ & _ & Hd' & Hs' & Hk & _).
                 apply append_inj in Hk.
                 assert (d = d')
                   by (now apply (same_name_same_entry DERIVED_CURRENCIES)).
                 subst d'. contradiction.
        -- injection Heq as Heq _. contradiction.
        -- right. eauto.
Qed.

Lemma settled_derivedFromRoot :
  forall (P : Quote.t -> Prop) (d : Derived.t),
    wellFormedDerivedCurrencies ->
    In d DERIVED_CURRENCIES ->
    forall (settled : list PendingQuotes)
           (assignments : list (list (string * Quote.t))),
      Forall2 settledAssignments settled assignments ->
      (forall promise result,
          In promise settled ->
          pendingResult promise = inr result ->
          Js.wf result
          /\ forall q,
              Js.get (DEFAULT_CURRENCY ++ Derived.rootCurrency d) result
              = Some q ->
              P q) ->
      forall response,
        derivedFromRoot P d response
        \/ (exists promise result q,
               In promise settled
               /\ pendingResult promise = inr result
               /\ Js.get (DEFAULT_CURRENCY ++ Derived.rootCurrency d) result
                  = Some q) ->
        derivedFromRoot P d (assign (concat assignments) response).
Proof.
  intros P d Hwf Hd settled assignments Hall.
  induction Hall as [|promise a settled assignments Ha Hall IH];
    intros Hresults response Hinv.
  - destruct Hinv as [Hinv|(p & _ & _ & [] & _)]. exact Hinv.
  - cbn [concat]. rewrite assign_app. apply IH.
    { intros p r Hin. apply Hresults. now right. }
    destruct Ha as (result & Hres & Ha).
    destruct (Hresults promise result (or_introl eq_refl) Hres)
      as (Hobj & HP).
    assert (Hstep : forall r,
               derivedFromRoot P d r
               \/ (exists q,
                      Js.get (DEFAULT_CURRENCY ++ Derived.rootCurrency d)
                        result = Some q) ->
               derivedFromRoot P d (assign a r)).
    { intros r Hr.
      apply (quoteAssignments_derivedFromRoot P d result Hwf Hd HP
               (Js.entries result) a Ha).
      - intros s q Hin. now apply in_wf_get.
      - destruct Hr as [Hr|[q Hq]]; auto. right. exists q.
        now apply get_some_in. }
    destruct Hinv as [Hinv|(p & r & q & [<-|Hin] & Hr & Hq)].
    + left. apply Hstep. now left.
    + left. apply Hstep. right. rewrite Hres in Hr. injection Hr as <-.
      eauto.
    + right. exists p, r, q. auto.
Qed.

(** *** What is requested upstream *)

Lemma slice_In : forall (A : Type) (a : list A) (from to : N) (x : A),
    In x (Js.slice from to a) -> In x a.
Proof.
  intros A. induction a as [|y a IH]; intros from to x; cbn [Js.slice]; auto.
  destruct (to =? 0)%N; [intros []|].
  destruct (from =? 0)%N.
  - intros [->|Hin]; [now left | right; eauto].
  - intros Hin. right. eauto.
Qed.

Lemma requestChunks_trace :
  forall (dataSource : DataSource) (dataProvider : DataProviderInterface.t)
         (requestTimeout : option Z) (symbols : list string) (maximum : N)
         (fuel : nat) (i : N),
    Forall
      (fun ev =>
         match ev with
         | ProviderGetQuotes name _ chunk =>
             name = DataProviderInterface.getName dataProvider
             /\ forall s, In s chunk -> In s symbols
         | _ => True
         end)
      (trace (requestChunks fuel dataSource dataProvider requestTimeout
                symbols maximum i)).
Proof.
  intros dataSource dataProvider requestTimeout symbols maximum.
  induction fuel as [|fuel IH]; intros i; cbn [requestChunks];
    destruct (i <? N.of_nat (length symbols))%N; try (cbn; constructor).
  unfold emit. cbn [bind]. specialize (IH (i + maximum)%N).
  destruct (requestChunks fuel _ _ _ _ _ _) as [log [e|ps]]; cbn in *;
    rewrite ?app_nil_r; constructor; auto; split; auto; intros s;
    apply slice_In.
Qed.

Lemma requestGroups_trace :
  forall (this : DataProviderService) (user : option User.t)
         (requestTimeout : option Z) (toFetch : list AssetProfileIdentifier)
         (groups : list (string * list AssetProfileIdentifier)),
    (forall ds ids i,
        In (ds, ids) groups -> In i ids ->
        In i toFetch /\ dataSource i = ds) ->
    Forall (requestedSymbolsKept this user toFetch)
      (trace (requestGroups this user requestTimeout groups)).
Proof.
  intros this user requestTimeout toFetch.
  induction groups as [|[ds ids] groups IH]; intros Hgroups;
    cbn [requestGroups]; [constructor|].
  apply Forall_trace_bind_outcome; [constructor|]. intros dp Hdp.
  cbn in Hdp.
  apply Forall_trace_bind.
  { eapply Forall_impl; [|apply requestChunks_trace].
    intros [] H; cbn; auto. destruct H as [-> Hsub]. intros s Hs.
    apply Hsub in Hs. unfold symbolsToFetch in Hs.
    apply in_map_iff in Hs as (i & <- & Hi).
    apply filter_In in Hi as [Hi Hkeep].
    destruct (Hgroups ds ids i (or_introl eq_refl) Hi) as [Hfetch <-].
    exists i, dp. auto. }
  intros promises. apply Forall_trace_bind; [|constructor].
  apply IH. intros ds' ids' i Hin. apply Hgroups. now right.
Qed.

Lemma getQuotes_request_in :
  forall (this : DataProviderService) (items : list AssetProfileIdentifier)
         (requestTimeout : option Z) (useCache : bool)
         (user : option User.t) (ev : Event),
    isProviderGetQuotes ev = true ->
    In ev (trace (getQuotes this items requestTimeout useCache user)) ->
    In ev (trace (upstreamRequests this items requestTimeout useCache user)).
Proof.
  intros this items requestTimeout useCache user ev Hev Hin.
  rewrite getQuotes_trace in Hin.
  apply in_app_or in Hin as [Hin|Hin]; auto. exfalso.
  pose proof (runCallbacks_callsNoProvider this
                (settledRequests this items requestTimeout useCache user)
                (responseFromCache this useCache items)) as Hno.
  rewrite Forall_forall in Hno. apply Hno in Hin. congruence.
Qed.

Lemma getQuotes_requestedSymbolsKept :
  forall (this : DataProviderService) (items : list AssetProfileIdentifier)
         (requestTimeout : option Z) (useCache : bool)
         (user : option User.t),
    Forall
      (requestedSymbolsKept this user (itemsToFetch this useCache items))
      (trace (getQuotes this items requestTimeout useCache user)).
Proof.
  intros this items requestTimeout useCache user.
  apply Forall_forall. intros ev Hin.
  destruct (isProviderGetQuotes ev) eqn:Hev.
  - apply getQuotes_request_in in Hin; auto.
    assert (H : Forall
                  (requestedSymbolsKept this user
                     (itemsToFetch this useCache items))
                  (trace (upstreamRequests this items requestTimeout
                            useCache user))).
    { apply requestGroups_trace. intros ds ids i Hg Hi.
      destruct (groupBy_spec _ dataSource (itemsToFetch this useCache items))
        as (_ & Hgroups & _).
      apply Hgroups in Hg as [-> _].
      apply filter_In in Hi as [Hi Hds]. apply String.eqb_eq in Hds. auto. }
    rewrite Forall_forall in H. now apply H.
  - destruct ev; cbn in *; auto. discriminate.
Qed.

(** Entries of a result keyed by a derived pair leave no trace. *)
Lemma addQuotes_skips_derived :
  forall (this : DataProviderService) (dataSource : DataSource)
         (result : Js.obj Quote.t) (entries : list (string * Quote.t))
         (response : Js.obj Quote.t),
    addQuotes this dataSource result
      (filter (fun entry => negb (Js.includes (fst entry) derivedPairs))
         entries)
      response
    = addQuotes this dataSource result entries response.
Proof.
  intros this dataSource result.
  induction entries as [|[s q] entries IH]; intros response; auto.
  cbn [filter fst].
  destruct (Js.includes s derivedPairs) eqn:Hd; cbn [negb addQuotes].
  - replace (Js.includes s skippedSymbols) with true; [apply IH|].
    symmetry. apply includes_In. apply includes_In in Hd.
    unfold skippedSymbols. apply in_or_app. now left.
  - destruct (Js.includes s skippedSymbols); [apply IH|].
    unfold bindC, perform, assignTo. cbn [trace outcome emit fst snd app].
    destruct (addDerivedQuotes _ _ _ _ _ _ _) as [[log r] [e|[]]]; auto.
    now rewrite IH.
Qed.

Lemma getDataProviderFrom_In :
  forall (this : DataProviderService) (providerName : DataSource)
         (interfaces : list DataProviderInterface.t)
         (dataProvider : DataProviderInterface.t),
    incl interfaces (dataProviderInterfaces this) ->
    getDataProviderFrom this providerName interfaces = inr dataProvider ->
    In dataProvider (dataProviderInterfaces this).
Proof.
  intros this providerName.
  induction interfaces as [|i interfaces IH]; intros dp Hincl Hget;
    [discriminate|].
  cbn [getDataProviderFrom] in Hget.
  assert (Hrest : incl interfaces (dataProviderInterfaces this))
    by (intros x Hx; apply Hincl; now right).
  assert (Hfound :
            forall mapped,
              find (fun c => String.eqb (DataProviderInterface.getName c)
                               mapped)
                (dataProviderInterfaces this) = Some dp ->
              In dp (dataProviderInterfaces this))
    by (intros mapped Hfind; now apply find_some in Hfind).
  assert (Hdirect :
            (if String.eqb (DataProviderInterface.getName i) providerName
             then inr i
             else getDataProviderFrom this providerName interfaces)
            = inr dp -> In dp (dataProviderInterfaces this)).
  { destruct (String.eqb _ providerName).
    - intros [= <-]. apply Hincl. now left.
    - now apply IH. }
  destruct (Js.get (DataProviderInterface.getName i)
              (dataProviderMapping this)) as [mapped|]; auto.
  destruct (Js.truthy mapped); auto.
  destruct (find _ (dataProviderInterfaces this)) as [found|] eqn:Hfind;
    auto.
  injection Hget as <-. eauto.
Qed.

Lemma getDataProvider_In :
  forall (this : DataProviderService) (providerName : DataSource)
         (dataProvider : DataProviderInterface.t),
    getDataProvider this providerName = inr dataProvider ->
    In dataProvider (dataProviderInterfaces this).
Proof.
  intros this providerName dp. apply getDataProviderFrom_In.
  apply incl_refl.
Qed.

Lemma upstream_promise :
  forall (this : DataProviderService) (items : list AssetProfileIdentifier)
         (requestTimeout : option Z) (useCache : bool)
         (user : option User.t) (log : list Event)
         (promises : list PendingQuotes) (promise : PendingQuotes),
    upstreamRequests this items requestTimeout useCache user
    = (log, inr promises) ->
    In promise promises ->
    exists dataProvider,
      getDataProvider this (pendingDataSource promise) = inr dataProvider
      /\ requestOf (pendingDataSource promise) dataProvider requestTimeout
           promise.
Proof.
  intros this items requestTimeout useCache user log promises promise
    Hreq Hin.
  unfold upstreamRequests in Hreq.
  apply requestGroups_inv in Hreq as (perGroup & -> & Hall & _).
  induction Hall as [|group ps groups perGroup Hgroup Hall IH];
    [destruct Hin|].
  cbn [concat] in Hin. apply in_app_or in Hin as [Hin|Hin]; auto.
  destruct Hgroup as (dp & Hdp & _ & Hreqs & _).
  rewrite Forall_forall in Hreqs. specialize (Hreqs _ Hin).
  pose proof Hreqs as (Hds & _). rewrite Hds. eauto.
Qed.

(** C3. When the result of an upstream request holds a quote for the pair
    of [DEFAULT_CURRENCY] with the root of a derived currency, the response
    holds, beside the quote of the root pair, a quote for the derived pair:
    its currency is the derived currency, its market state is 'open' and
    its market price is the root quote's price times the factor, computed
    by big.js.  Derived pairs are never requested upstream, and entries of
    a result keyed by a derived pair are skipped. *)
Theorem derived_quotes_follow_root :
  forall (this : DataProviderService) (items : list AssetProfileIdentifier)
         (requestTimeout : option Z) (useCache : bool)
         (user : option User.t),
    wellFormedDerivedCurrencies ->
    derivedPairsRecognised ->
    resultsAreObjects this ->
    fairSchedule ->
    (forall name timeout symbols s,
        In (ProviderGetQuotes name timeout symbols)
           (trace (getQuotes this items requestTimeout useCache user)) ->
        In s derivedPairs ->
        ~ In s symbols)
    /\ (forall ds result entries response,
           addQuotes this ds result
             (filter
                (fun entry => negb (Js.includes (fst entry) derivedPairs))
                entries)
             response
           = addQuotes this ds result entries response)
    /\ (forall response promises promise result d q,
           outcome (getQuotes this items requestTimeout useCache user)
           = inr response ->
           outcome (upstreamRequests this items requestTimeout useCache user)
           = inr promises ->
           In promise promises ->
           pendingResult promise = inr result ->
           In d DERIVED_CURRENCIES ->
           Js.get (DEFAULT_CURRENCY ++ Derived.rootCurrency d) result
           = Some q ->
           exists rootQuote price,
             (exists promise' result',
                 In promise' promises
                 /\ pendingResult promise' = inr result'
                 /\ Js.get (DEFAULT_CURRENCY ++ Derived.rootCurrency d)
                      result'
                    = Some rootQuote)
             /\ Js.get (DEFAULT_CURRENCY ++ Derived.rootCurrency d) response
                = Some rootQuote
             /\ Big_mul_toNumber (Quote.marketPrice rootQuote)
                  (Js.Number (Derived.factor d))
                = Some price
             /\ Js.get (DEFAULT_CURRENCY ++ Derived.currency d) response
                = Some {| Quote.currency := Derived.currency d;
                          Quote.dataSource := Quote.dataSource rootQuote;
                          Quote.marketPrice := Js.Number price;
                          Quote.marketState := "open" |}).
Proof.
  intros this items requestTimeout useCache user Hwf Hhelpers Hobjects Hfair.
  split; [|split].
  - intros name timeout symbols s Hin Hs Hreq.
    pose proof (getQuotes_requestedSymbolsKept this items requestTimeout
                  useCache user) as Hkept.
    rewrite Forall_forall in Hkept. specialize (Hkept _ Hin s Hreq).
    destruct Hkept as (i & dp & _ & _ & _ & _ & Hkeep).
    unfold derivedPairs in Hs. apply in_map_iff in Hs as (d & <- & Hd).
    destruct (Hhelpers d Hd) as [Hcur Hder].
    unfold keepSymbol in Hkeep. rewrite Hcur, Hder in Hkeep. discriminate.
  - apply addQuotes_skips_derived.
  - intros response promises promise result d q Hout Hreq Hin Hres Hd Hq.
    apply getQuotes_outcome_inv in Hout
      as (log1 & promises' & assignments & Hreq' & Hall & -> & _).
    rewrite Hreq' in Hreq. cbn in Hreq. injection Hreq as ->.
    apply (settled_derivedFromRoot _ d Hwf Hd _ _ Hall).
    + intros p r Hp Hr.
      apply (Permutation_in _ (Hfair _ promises)) in Hp.
      split.
      * destruct (upstream_promise _ _ _ _ _ _ _ _ Hreq' Hp)
          as (dp & Hdp & _ & _ & _ & Hcall).
        rewrite Hr in Hcall. symmetry in Hcall.
        apply getDataProvider_In in Hdp. eapply Hobjects; eauto.
      * intros rootQuote Hroot. now exists p, r.
    + right. exists promise, result, q. repeat split; auto.
      apply (Permutation_in _ (Permutation_sym (Hfair _ promises))).
      exact Hin.
Qed.

(** *** The cache *)

Lemma getItemsFromCache_spec :
  forall (this : DataProviderService) (useCache : bool)
         (items : list AssetProfileIdentifier) (response : Js.obj Quote.t)
         (toFetch : list AssetProfileIdentifier),
    getItemsFromCache this useCache items response toFetch
    = (assign (cacheAssignments this useCache items) response,
       toFetch ++ filter (notCached this useCache) items).
Proof.
  intros this useCache.
  induction items as [|i items IH]; intros response toFetch.
  - cbn. now rewrite app_nil_r.
  - cbn [getItemsFromCache cacheAssignments flat_map filter].
    unfold notCached at 1.
    change (if useCache
            then match RedisCacheService.get (redisCacheService this)
                         (RedisCacheService.getQuoteKey
                            (redisCacheService this) (dataSource i)
                            (symbol i)) with
                 | Some quoteString =>
                     if Js.truthy quoteString
                     then JSON_parse quoteString
                     else None
                 | None => None
                 end
            else None)
      with (cachedQuote this useCache i).
    destruct (cachedQuote this useCache i) as [quote|].
    + rewrite IH. reflexivity.
    + rewrite IH, <- app_assoc. destruct i. reflexivity.
Qed.

Lemma itemsToFetch_spec :
  forall (this : DataProviderService) (useCache : bool)
         (items : list AssetProfileIdentifier),
    itemsToFetch this useCache items
    = filter (notCached this useCache) items.
Proof.
  intros. unfold itemsToFetch. now rewrite getItemsFromCache_spec.
Qed.

Lemma responseFromCache_spec :
  forall (this : DataProviderService) (useCache : bool)
         (items : list AssetProfileIdentifier),
    responseFromCache this useCache items
    = assign (cacheAssignments this useCache items)
        (initialResponse this items).
Proof.
  intros. unfold responseFromCache. now rewrite getItemsFromCache_spec.
Qed.

Lemma cacheAssignments_In :
  forall (this : DataProviderService) (useCache : bool)
         (items : list AssetProfileIdentifier) (k : string) (v : Quote.t),
    In (k, v) (cacheAssignments this useCache items) <->
    exists i, In i items /\ symbol i = k /\ cachedQuote this useCache i = Some v.
Proof.
  intros this useCache items k v. unfold cacheAssignments.
  rewrite in_flat_map. split.
  - intros (i & Hi & Hin). exists i.
    destruct (cachedQuote this useCache i) as [q|]; [|destruct Hin].
    destruct Hin as [[= <- <-]|[]]. auto.
  - intros (i & Hi & <- & Hq). exists i. rewrite Hq. split; auto. now left.
Qed.

Lemma initialResponse_get :
  forall (this : DataProviderService) (items : list AssetProfileIdentifier)
         (k : string) (v : Quote.t),
    Js.get k (initialResponse this items) = Some v ->
    k = (DEFAULT_CURRENCY ++ "USX")%string
    /\ v = quoteUSX this
    /\ exists i, In i items /\ symbol i = (DEFAULT_CURRENCY ++ "USX")%string.
Proof.
  intros this items k v. unfold initialResponse.
  destruct (existsb _ items) eqn:Hex; [|discriminate].
  cbn. destruct (String.eqb_spec k (DEFAULT_CURRENCY ++ "USX")) as [->|];
    [|discriminate].
  intros [= <-]. repeat split.
  apply existsb_exists in Hex as (i & Hi & Heq).
  apply String.eqb_eq in Heq. eauto.
Qed.

(** *** Where the entries of the response come from *)

Lemma quoteAssignments_provenance :
  forall (result : Js.obj Quote.t) (entries : list (string * Quote.t))
         (assignments : list (string * Quote.t)),
    quoteAssignments result entries = inr assignments ->
    forall k v,
      In (k, v) assignments ->
      (In (k, v) entries /\ ~ In k skippedSymbols)
      \/ (In k derivedPairs
          /\ exists s q, In (s, q) entries /\ ~ In s skippedSymbols).
Proof.
  intros result.
  induction entries as [|[s q] entries IH]; intros assignments Hrun k v Hin.
  - cbn in Hrun. injection Hrun as <-. destruct Hin.
  - cbn [quoteAssignments] in Hrun.
    destruct (Js.includes s skippedSymbols) eqn:Hskip.
    + destruct (IH _ Hrun k v Hin) as [[H1 H2]|(H1 & s' & q' & H2 & H3)].
      * left. split; auto. now right.
      * right. split; auto. exists s', q'. split; auto. now right.
    + apply includes_false in Hskip.
      destruct (derivedAssignments result s q DERIVED_CURRENCIES)
        as [e|dws] eqn:Hdws; [discriminate|].
      destruct (quoteAssignments result entries) as [e|ws] eqn:Hws;
        [discriminate|].
      injection Hrun as <-.
      destruct Hin as [Heq|Hin].
      * injection Heq as <- <-. left. split; auto. now left.
      * apply in_app_or in Hin as [Hin|Hin].
        -- right.
           destruct (derivedAssignments_provenance _ _ _ _ _ Hdws _ _ Hin)
             as (d & _ & _ & Hd & _ & -> & _).
           split.
           ++ unfold derivedPairs. apply in_map_iff. now exists d.
           ++ exists s, q. split; auto. now left.
        -- destruct (IH _ eq_refl k v Hin)
             as [[H1 H2]|(H1 & s' & q' & H2 & H3)].
           ++ left. split; auto. now right.
           ++ right. split; auto. exists s', q'. split; auto. now right.
Qed.


Lemma Forall2_In_left :
  forall (A B : Type) (R : A -> B -> Prop) (l : list A) (l' : list B) (x : A),
    Forall2 R l l' -> In x l -> exists y, In (x, y) (combine l l') /\ R x y.
Proof.
  intros A B R l l' x H. induction H as [|a b l l' Hab H IH]; intros Hin;
    [destruct Hin|].
  destruct Hin as [->|Hin].
  - exists b. split; auto. now left.
  - destruct (IH Hin) as (y & Hy & HR). exists y. split; auto. now right.
Qed.

Lemma Forall2_In_concat :
  forall (A B : Type) (R : A -> list B -> Prop) (l : list A)
         (l' : list (list B)) (y : B),
    Forall2 R l l' -> In y (concat l') ->
    exists x ys, In x l /\ R x ys /\ In y ys.
Proof.
  intros A B R l l' y H. induction H as [|a b l l' Hab H IH]; intros Hin;
    [destruct Hin|].
  cbn in Hin. apply in_app_or in Hin as [Hin|Hin].
  - exists a, b. split; auto. now left.
  - destruct (IH Hin) as (x & ys & Hx & HR & Hy). exists x, ys.
    split; auto. now right.
Qed.

Lemma upstream_promise_symbols :
  forall (this : DataProviderService) (items : list AssetProfileIdentifier)
         (requestTimeout : option Z) (useCache : bool)
         (user : option User.t) (log : list Event)
         (promises : list PendingQuotes) (promise : PendingQuotes)
         (s : string),
    upstreamRequests this items requestTimeout useCache user
    = (log, inr promises) ->
    In promise promises ->
    In s (pendingSymbolsChunk promise) ->
    exists i dataProvider,
      In i (itemsToFetch this useCache items)
      /\ symbol i = s
      /\ dataSource i = pendingDataSource promise
      /\ getDataProvider this (dataSource i) = inr dataProvider
      /\ pendingResult promise
         = DataProviderInterface.getQuotes dataProvider requestTimeout
             (pendingSymbolsChunk promise)
      /\ keepSymbol this dataProvider user s = true.
Proof.
  intros this items requestTimeout useCache user log promises promise s
    Hreq Hin Hs.
  unfold upstreamRequests in Hreq.
  apply requestGroups_inv in Hreq as (perGroup & -> & Hall & _).
  destruct (Forall2_In_concat _ _ _ _ _ _ Hall Hin)
    as ([ds ids] & ps & Hgroup & (dp & Hdp & Hcat & Hreqs & _) & Hp).
  cbn [fst snd] in *.
  rewrite Forall_forall in Hreqs.
  destruct (Hreqs _ Hp) as (Hds & _ & _ & Hcall).
  assert (Hsym : In s (symbolsToFetch this dp user ids)).
  { rewrite <- Hcat. apply in_concat. exists (pendingSymbolsChunk promise).
    split; auto. now apply in_map. }
  unfold symbolsToFetch in Hsym.
  apply in_map_iff in Hsym as (i & <- & Hi).
  apply filter_In in Hi as [Hi Hkeep].
  destruct (groupBy_spec _ dataSource (itemsToFetch this useCache items))
    as (_ & Hgroups & _).
  apply Hgroups in Hgroup as [-> _].
  apply filter_In in Hi as [Hi Heq]. apply String.eqb_eq in Heq.
  exists i, dp. rewrite Heq, Hds. repeat split; auto.
Qed.

Lemma Forall2_In_right :
  forall (A B : Type) (R : A -> B -> Prop) (l : list A) (l' : list B) (y : B),
    Forall2 R l l' -> In y l' -> exists x, In x l /\ R x y.
Proof.
  intros A B R l l' y H. induction H as [|a b l l' Hab H IH]; intros Hin;
    [destruct Hin|].
  destruct Hin as [->|Hin].
  - exists a. split; auto. now left.
  - destruct (IH Hin) as (x & Hx & HR). exists x. split; auto. now right.
Qed.

Lemma upstream_item_requested :
  forall (this : DataProviderService) (items : list AssetProfileIdentifier)
         (requestTimeout : option Z) (useCache : bool)
         (user : option User.t) (log : list Event)
         (promises : list PendingQuotes) (i : AssetProfileIdentifier),
    upstreamRequests this items requestTimeout useCache user
    = (log, inr promises) ->
    In i (itemsToFetch this useCache items) ->
    exists dataProvider,
      getDataProvider this (dataSource i) = inr dataProvider
      /\ (keepSymbol this dataProvider user (symbol i) = true ->
          exists promise,
            In promise promises
            /\ pendingDataSource promise = dataSource i
            /\ In (symbol i) (pendingSymbolsChunk promise)
            /\ pendingResult promise
               = DataProviderInterface.getQuotes dataProvider requestTimeout
                   (pendingSymbolsChunk promise)
            /\ In (requestEvent dataProvider requestTimeout promise) log).
Proof.
  intros this items requestTimeout useCache user log promises i Hreq Hi.
  unfold upstreamRequests in Hreq.
  apply requestGroups_inv in Hreq as (perGroup & -> & Hall & Hissued).
  destruct (groupBy_spec _ dataSource (itemsToFetch this useCache items))
    as (_ & Hgroups & Hkeys).
  pose proof (Hkeys i Hi) as Hkey.
  apply in_map_iff in Hkey as ([ds ids] & Hds & Hgroup). cbn in Hds. subst ds.
  destruct (Forall2_In_left _ _ _ _ _ _ Hall Hgroup)
    as (ps & Hcomb & dp & Hdp & Hcat & Hreqs & _).
  cbn [fst snd] in *. exists dp. split; auto. intros Hkeep.
  assert (Hsym : In (symbol i) (symbolsToFetch this dp user ids)).
  { unfold symbolsToFetch. apply in_map. apply filter_In. split; auto.
    destruct (Hgroups _ _ Hgroup) as [-> _]. apply filter_In. split; auto.
    apply String.eqb_refl. }
  rewrite <- Hcat in Hsym. apply in_concat in Hsym as (chunk & Hchunk & Hs).
  apply in_map_iff in Hchunk as (promise & <- & Hp).
  rewrite Forall_forall in Hreqs.
  destruct (Hreqs _ Hp) as (Hpds & _ & _ & Hcall).
  assert (Hin : In promise (concat perGroup)).
  { apply in_concat. exists ps. split; auto.
    eapply in_combine_r; eauto. }
  exists promise. repeat split; auto.
  destruct (Forall2_In_right _ _ _ _ _ _ Hissued Hin)
    as (ev & Hev & dp' & Hdp' & ->).
  rewrite Hpds, Hdp in Hdp'. injection Hdp' as <-. exact Hev.
Qed.

Lemma response_provenance :
  forall (this : DataProviderService) (items : list AssetProfileIdentifier)
         (requestTimeout : option Z) (useCache : bool)
         (user : option User.t) (response : Js.obj Quote.t)
         (promises : list PendingQuotes) (k : string) (v : Quote.t),
    fairSchedule ->
    outcome (getQuotes this items requestTimeout useCache user)
    = inr response ->
    outcome (upstreamRequests this items requestTimeout useCache user)
    = inr promises ->
    Js.get k response = Some v ->
    (k = (DEFAULT_CURRENCY ++ "USX")%string /\ v = quoteUSX this)
    \/ (exists i,
           In i items /\ symbol i = k
           /\ cachedQuote this useCache i = Some v)
    \/ (exists promise result,
           In promise promises
           /\ pendingResult promise = inr result
           /\ ((In (k, v) result /\ ~ In k skippedSymbols)
               \/ (In k derivedPairs
                   /\ exists s q,
                       In (s, q) result /\ ~ In s skippedSymbols))).
Proof.
  intros this items requestTimeout useCache user response promises k v
    Hfair Hout Hreq Hget.
  apply getQuotes_outcome_inv in Hout
    as (log1 & promises' & assignments & Hreq' & Hall & -> & _).
  rewrite Hreq' in Hreq. cbn in Hreq. injection Hreq as ->.
  apply get_assign_provenance in Hget as [Hin|Hget].
  - right. right.
    destruct (Forall2_In_concat _ _ _ _ _ _ Hall Hin)
      as (promise & ws & Hp & (result & Hres & Hws) & Hkv).
    exists promise, result.
    split; [exact (Permutation_in _ (Hfair _ promises) Hp)|].
    split; auto.
    exact (quoteAssignments_provenance _ _ _ Hws _ _ Hkv).
  - rewrite responseFromCache_spec in Hget.
    apply get_assign_provenance in Hget as [Hin|Hget].
    + right. left. now apply cacheAssignments_In.
    + left. apply initialResponse_get in Hget as (-> & -> & _). auto.
Qed.




(** *** Premium providers *)

Lemma keepSymbol_currency :
  forall (this : DataProviderService) (dataProvider : DataProviderInterface.t)
         (user : option User.t) (s : string),
    isCurrency (getCurrencyFromSymbol s) = true ->
    keepSymbol this dataProvider user s
    = negb (isDerivedCurrency (getCurrencyFromSymbol s)).
Proof. intros this dp user s H. unfold keepSymbol. now rewrite H. Qed.

Lemma keepSymbol_premium :
  forall (this : DataProviderService) (dataProvider : DataProviderInterface.t)
         (u : User.t) (s : string),
    User.subscriptionType u = "Basic" ->
    ConfigurationService.ENABLE_FEATURE_SUBSCRIPTION
      (configurationService this) = true ->
    Info.isPremium (DataProviderInterface.getDataProviderInfo dataProvider)
    = true ->
    keepSymbol this dataProvider (Some u) s = true ->
    isCurrency (getCurrencyFromSymbol s) = true.
Proof.
  intros this dp u s Hbasic Hflag Hpremium. unfold keepSymbol.
  destruct (isCurrency (getCurrencyFromSymbol s)); auto.
  rewrite Hpremium, Hflag, Hbasic. cbn. discriminate.
Qed.

(** C6 (as amended). For a user with the 'Basic' subscription while the
    subscription feature is enabled: a symbol requested from a premium
    provider is a currency symbol; for currency symbols the filter does not
    look at the provider or the user; and a symbol that is not a currency
    and whose every requested item belongs to a premium provider is in the
    response only with a quote served from the cache, as long as upstream
    results hold requested symbols only. *)
Theorem premium_symbols_not_fetched :
  forall (this : DataProviderService) (items : list AssetProfileIdentifier)
         (requestTimeout : option Z) (useCache : bool) (u : User.t),
    User.subscriptionType u = "Basic" ->
    ConfigurationService.ENABLE_FEATURE_SUBSCRIPTION
      (configurationService this) = true ->
    (forall name timeout symbols s,
        In (ProviderGetQuotes name timeout symbols)
           (trace (getQuotes this items requestTimeout useCache (Some u))) ->
        In s symbols ->
        exists i dataProvider,
          In i (itemsToFetch this useCache items)
          /\ symbol i = s
          /\ getDataProvider this (dataSource i) = inr dataProvider
          /\ DataProviderInterface.getName dataProvider = name
          /\ (Info.isPremium
                (DataProviderInterface.getDataProviderInfo dataProvider)
              = true ->
              isCurrency (getCurrencyFromSymbol s) = true))
    /\ (forall dataProvider user s,
           isCurrency (getCurrencyFromSymbol s) = true ->
           keepSymbol this dataProvider user s
           = negb (isDerivedCurrency (getCurrencyFromSymbol s)))
    /\ (fairSchedule ->
        derivedPairsRecognised ->
        pairUSXRecognised ->
        resultsAnswerRequests this ->
        forall response s q,
          outcome (getQuotes this items requestTimeout useCache (Some u))
          = inr response ->
          isCurrency (getCurrencyFromSymbol s) = false ->
          (forall i dataProvider,
              In i items ->
              symbol i = s ->
              getDataProvider this (dataSource i) = inr dataProvider ->
              Info.isPremium
                (DataProviderInterface.getDataProviderInfo dataProvider)
              = true) ->
          Js.get s response = Some q ->
          exists i,
            In i items /\ symbol i = s
            /\ cachedQuote this useCache i = Some q).
Proof.
  intros this items requestTimeout useCache u Hbasic Hflag.
  split; [|split].
  - intros name timeout symbols s Hin Hs.
    pose proof (getQuotes_requestedSymbolsKept this items requestTimeout
                  useCache (Some u)) as Hkept.
    rewrite Forall_forall in Hkept.
    destruct (Hkept _ Hin s Hs) as (i & dp & Hi & Hsym & Hdp & Hname & Hkeep).
    exists i, dp. repeat split; auto. intros Hpremium.
    eapply keepSymbol_premium; eauto.
  - intros dp user s. apply keepSymbol_currency.
  - intros Hfair Hderived Husx Hanswers response s q Hout Hnot Hpremium Hget.
    pose proof Hout as Hinv.
    apply getQuotes_outcome_inv in Hinv
      as (log1 & promises & assignments & Hreq & _).
    assert (Hreq' : outcome (upstreamRequests this items requestTimeout
                               useCache (Some u)) = inr promises)
      by now rewrite Hreq.
    destruct (response_provenance this items requestTimeout useCache
                (Some u) response promises s q Hfair Hout Hreq' Hget)
      as [[-> _]|[Hcached|(promise & result & Hp & Hres & Hfrom)]].
    + destruct Husx as [Hcur _]. congruence.
    + exact Hcached.
    + exfalso. destruct Hfrom as [[Hentry _]|[Hd _]].
      * destruct (upstream_promise _ _ _ _ _ _ _ _ Hreq Hp)
          as (dp & Hdp & _ & _ & _ & Hcall).
        assert (Hs : In s (pendingSymbolsChunk promise)).
        { apply (Hanswers dp requestTimeout _ result s).
          - eapply getDataProvider_In; eauto.
          - now rewrite <- Hcall.
          - change s with (fst (s, q)). now apply in_map. }
        destruct (upstream_promise_symbols _ _ _ _ _ _ _ _ _ Hreq Hp Hs)
          as (i & dp' & Hi & Hsym & _ & Hdp' & _ & Hkeep).
        rewrite itemsToFetch_spec in Hi. apply filter_In in Hi as [Hi _].
        pose proof (Hpremium i dp' Hi Hsym Hdp') as Hprem.
        pose proof (keepSymbol_premium this dp' u s Hbasic Hflag Hprem Hkeep).
        congruence.
      * unfold derivedPairs in Hd. apply in_map_iff in Hd as (d & <- & Hd).
        destruct (Hderived d Hd) as [Hcur _]. congruence.
Qed.

(** *** The pair with USX in [getQuotes] *)

Lemma usx_quote_fixed :
  forall (this : DataProviderService) (items : list AssetProfileIdentifier)
         (requestTimeout : option Z) (useCache : bool)
         (user : option User.t),
    pairUSXRecognised ->
    (forall d, In d DERIVED_CURRENCIES -> Derived.currency d <> "USX") ->
    (forall name timeout symbols,
        In (ProviderGetQuotes name timeout symbols)
           (trace (getQuotes this items requestTimeout useCache user)) ->
        ~ In (DEFAULT_CURRENCY ++ "USX")%string symbols)
    /\ ((exists i,
            In i items /\ symbol i = (DEFAULT_CURRENCY ++ "USX")%string) ->
        (forall i,
            In i items -> symbol i = (DEFAULT_CURRENCY ++ "USX")%string ->
            cachedQuote this useCache i = None) ->
        forall response,
          outcome (getQuotes this items requestTimeout useCache user)
          = inr response ->
          Js.get (DEFAULT_CURRENCY ++ "USX") response
          = Some (quoteUSX this)).
Proof.
  intros this items requestTimeout useCache user [Hcur Hder] Hnames.
  split.
  - intros name timeout symbols Hin Hs.
    pose proof (getQuotes_requestedSymbolsKept this items requestTimeout
                  useCache user) as Hkept.
    rewrite Forall_forall in Hkept.
    destruct (Hkept _ Hin _ Hs) as (i & dp & _ & _ & _ & _ & Hkeep).
    unfold keepSymbol in Hkeep. rewrite Hcur, Hder in Hkeep. discriminate.
  - intros (i0 & Hi0 & Hs0) Hcache response Hout.
    apply getQuotes_outcome_inv in Hout
      as (log1 & promises & assignments & Hreq & Hall & -> & _).
    rewrite get_assign_untouched.
    + rewrite responseFromCache_spec, get_assign_untouched.
      * unfold initialResponse.
        replace (existsb _ items) with true.
        -- apply get_set_same.
        -- symmetry. apply existsb_exists. exists i0. split; auto.
           rewrite Hs0. apply String.eqb_refl.
      * intros v Hin. apply cacheAssignments_In in Hin as (i & Hi & Hs & Hq).
        rewrite (Hcache i Hi Hs) in Hq. discriminate.
    + intros v Hin.
      destruct (Forall2_In_concat _ _ _ _ _ _ Hall Hin)
        as (promise & ws & Hp & (result & Hres & Hws) & Hkv).
      destruct (quoteAssignments_provenance _ _ _ Hws _ _ Hkv)
        as [[_ Hskip]|[Hd _]].
      * apply Hskip. unfold skippedSymbols. apply in_or_app. right. now left.
      * unfold derivedPairs in Hd. apply in_map_iff in Hd as (d & Heq & Hd).
        apply append_inj in Heq. now apply (Hnames d).
Qed.

(** *** The identifiers of [getHistoricalRaw] *)

Lemma sameIdentifier_eq : forall i j : AssetProfileIdentifier,
    sameIdentifier i j = true <-> i = j.
Proof using.
  intros [ds s] [ds' s']. unfold sameIdentifier. cbn. split.
  - intros H. apply andb_prop in H as [H1 H2].
    apply String.eqb_eq in H1, H2. now subst.
  - intros [= -> ->]. now rewrite !String.eqb_refl.
Qed.

Lemma existsb_sameIdentifier : forall (seen : list AssetProfileIdentifier) x,
    existsb (fun y => sameIdentifier y x) seen = true <-> In x seen.
Proof using.
  intros seen x. rewrite existsb_exists. split.
  - intros (y & Hy & Hsame). apply sameIdentifier_eq in Hsame. now subst.
  - intros Hin. exists x. split; auto. now apply sameIdentifier_eq.
Qed.

Lemma uniqWithAcc_In :
  forall (a seen : list AssetProfileIdentifier) (x : AssetProfileIdentifier),
    In x (uniqWithAcc sameIdentifier seen a) <-> In x a /\ ~ In x seen.
Proof using.
  induction a as [|y a IH]; intros seen x; cbn [uniqWithAcc].
  - cbn. split; [intros [] | intros [[] _]].
  - destruct (existsb (fun z => sameIdentifier z y) seen) eqn:Hex.
    + apply existsb_sameIdentifier in Hex. rewrite IH. cbn. split.
      * intros [Hin Hnot]. auto.
      * intros [[->|Hin] Hnot]; [contradiction | auto].
    + assert (Hy : ~ In y seen).
      { intros Hin. apply existsb_sameIdentifier in Hin. congruence. }
      cbn [In]. rewrite IH. rewrite in_app_iff. cbn. split.
      * intros [->|[Hin Hnot]]; [auto|].
        split; auto.
      * intros [[->|Hin] Hnot]; [auto|].
        destruct (sameIdentifier y x) eqn:Hsame.
        -- apply sameIdentifier_eq in Hsame. auto.
        -- right. split; auto. intros [Heq|[Heq|[]]]; [contradiction|].
           apply sameIdentifier_eq in Heq. congruence.
Qed.




Lemma replaceDerivedCurrencies_keeps_in :
  forall (this : DataProviderService) (x : AssetProfileIdentifier)
         (derived : list Derived.t) (ids : list AssetProfileIdentifier),
    In x ids ->
    (forall d, In d derived ->
               symbol x <> (DEFAULT_CURRENCY ++ Derived.currency d)%string) ->
    In x (replaceDerivedCurrencies this derived ids).
Proof.
  intros this x. induction derived as [|d derived IH];
    intros ids Hin Hnames; cbn [replaceDerivedCurrencies]; auto.
  assert (Hrest : forall d', In d' derived ->
              symbol x <> (DEFAULT_CURRENCY ++ Derived.currency d')%string)
    by (intros d' Hd'; apply Hnames; now right).
  destruct (hasCurrency this ids _); [|now apply IH].
  apply IH; auto. apply in_or_app. left. apply filter_In. split; auto.
  apply negb_true_iff. apply String.eqb_neq. apply Hnames. now left.
Qed.



(** *** The promises of [getHistoricalRaw] *)

Lemma historicalPromises_inv :
  forall (this : DataProviderService) (from to : Js.Date)
         (ids : list AssetProfileIdentifier) (log : list Event)
         (promises : list (Exception + HistoricalData)),
    historicalPromises this from to ids = (log, inr promises) ->
    Forall2
      (fun i promise =>
         exists dataProvider,
           getDataProvider this (dataSource i) = inr dataProvider
           /\ DataProviderInterface.canHandle dataProvider (symbol i) = true
           /\ historicalEntry dataProvider from to (symbol i) = promise)
      (filter (isHandled this) ids) promises
    /\ Forall
         (fun ev =>
            match ev with
            | ProviderGetHistorical _ _ s _ _ =>
                (exists i, In i ids /\ symbol i = s)
                /\ s <> (DEFAULT_CURRENCY ++ "USX")%string
            | _ => True
            end)
         log.
Proof.
  intros this from to. induction ids as [|i ids IH]; intros log promises Hrun.
  - cbn in Hrun. injection Hrun as <- <-. split; constructor.
  - cbn [historicalPromises] in Hrun.
    apply bind_inr in Hrun as (log1 & dp & log2 & Hdp & Hrun & ->).
    unfold settle in Hdp. injection Hdp as <- Hdp.
    cbn [filter]. unfold isHandled at 1. rewrite Hdp.
    assert (Hmono :
              forall log', Forall
                (fun ev =>
                   match ev with
                   | ProviderGetHistorical _ _ s _ _ =>
                       (exists i, In i ids /\ symbol i = s)
                       /\ s <> (DEFAULT_CURRENCY ++ "USX")%string
                   | _ => True
                   end) log' ->
                Forall
                (fun ev =>
                   match ev with
                   | ProviderGetHistorical _ _ s _ _ =>
                       (exists i0, In i0 (i :: ids) /\ symbol i0 = s)
                       /\ s <> (DEFAULT_CURRENCY ++ "USX")%string
                   | _ => True
                   end) log').
    { intros log' H. eapply Forall_impl; [|exact H].
      intros [] Hev; auto. destruct Hev as ((i0 & Hi0 & Hs) & Hne).
      split; auto. exists i0. split; auto. now right. }
    destruct (DataProviderInterface.canHandle dp (symbol i)) eqn:Hcan.
    2:{ destruct (IH _ _ Hrun) as [H1 H2]. split; auto. }
    destruct (String.eqb (symbol i) (DEFAULT_CURRENCY ++ "USX")) eqn:Husx.
    + apply bind_inr in Hrun as (log3 & days & log4 & Hdays & Hrun & ->).
      unfold settle in Hdays. injection Hdays as <- Hdays.
      apply bind_inr in Hrun as (log5 & series & log6 & Hseries & Hrun & ->).
      unfold settle in Hseries. injection Hseries as <- Hseries.
      apply bind_inr in Hrun as (log7 & ps & log8 & Hrest & Hrun & ->).
      unfold ret in Hrun. injection Hrun as <- <-.
      destruct (IH _ _ Hrest) as [H1 H2]. cbn [app]. rewrite app_nil_r.
      split; auto. constructor; auto. exists dp. repeat split; auto.
      unfold historicalEntry. now rewrite Husx, Hdays, Hseries.
    + apply bind_inr in Hrun as (log3 & [] & log4 & Hemit & Hrun & ->).
      unfold emit in Hemit. injection Hemit as <-.
      apply bind_inr in Hrun as (log7 & ps & log8 & Hrest & Hrun & ->).
      unfold ret in Hrun. injection Hrun as <- <-.
      destruct (IH _ _ Hrest) as [H1 H2]. cbn [app]. rewrite app_nil_r.
      split.
      * constructor; auto. exists dp. repeat split; auto.
        unfold historicalEntry. rewrite Husx.
        destruct (DataProviderInterface.getHistorical dp from (symbol i)
                    to ms_30_seconds); reflexivity.
      * constructor; auto. split.
        -- exists i. split; auto. now left.
        -- now apply String.eqb_neq.
Qed.

Lemma firstRejection_none :
  forall (A : Type) (promises : list (Exception + A)),
    firstRejection promises = None ->
    forall e, ~ In (inl e) promises.
Proof.
  intros A. induction promises as [|[e'|a] promises IH]; intros Hnone e Hin.
  - destruct Hin.
  - discriminate.
  - destruct Hin as [Heq|Hin]; [discriminate|]. now apply (IH Hnone e).
Qed.

Lemma fulfilled_all :
  forall (A : Type) (promises : list (Exception + A)),
    (forall e, ~ In (inl e) promises) ->
    promises = map inr (fulfilled promises).
Proof.
  intros A. induction promises as [|[e'|a] promises IH]; intros Hnone; auto.
  - exfalso. apply (Hnone e'). now left.
  - cbn. f_equal. apply IH. intros e Hin. apply (Hnone e). now right.
Qed.

Lemma Promise_all_inv :
  forall (A : Type) (promises : list (Exception + A)) (log : list Event)
         (values : list A),
    fairSchedule ->
    Promise_all promises = (log, inr values) ->
    log = [] /\ promises = map inr values.
Proof.
  intros A promises log values Hfair. unfold Promise_all.
  destruct (firstRejection (schedule _ promises)) eqn:Hfirst;
    [discriminate|].
  unfold ret. intros [= <- <-]. split; auto.
  apply fulfilled_all. intros e Hin.
  apply (firstRejection_none _ _ Hfirst e).
  apply (Permutation_in _ (Permutation_sym (Hfair _ promises))). exact Hin.
Qed.

Lemma getHistoricalRaw_inv :
  forall (this : DataProviderService)
         (assetProfileIdentifiers : list AssetProfileIdentifier)
         (from to : Js.Date) (log : list Event)
         (result : Js.obj (option (Js.obj Historical.t))),
    fairSchedule ->
    getHistoricalRaw this assetProfileIdentifiers from to
    = (log, inr result) ->
    exists allData,
      historicalPromises this from to
        (historicalIdentifiers this assetProfileIdentifiers)
      = (log, inr (map inr allData))
      /\ Forall2 (entryOf this from to)
           (filter (isHandled this)
              (historicalIdentifiers this assetProfileIdentifiers))
           allData
      /\ collectHistorical allData allData Js.empty = inr result.
Proof.
  intros this ids from to log result Hfair Hrun.
  unfold getHistoricalRaw in Hrun.
  fold (historicalIdentifiers this ids) in Hrun.
  apply bind_inr in Hrun as (log1 & ps & log2 & Hps & Hrun & ->).
  unfold tryCatch in Hrun.
  destruct (allData <- Promise_all ps ;;
            settle (collectHistorical allData allData Js.empty))
    as [log3 [e|r]] eqn:Hbody.
  { cbn in Hrun. discriminate. }
  injection Hrun as <- <-.
  apply bind_inr in Hbody as (log4 & allData & log5 & Hall & Hcollect & ->).
  apply (Promise_all_inv _ _ _ _ Hfair) in Hall as [-> ->].
  unfold settle in Hcollect. injection Hcollect as <- Hcollect.
  exists allData. cbn [app]. rewrite app_nil_r. split; auto. split; auto.
  apply historicalPromises_inv in Hps as [Hall _].
  clear - Hall.
  remember (filter (isHandled this) (historicalIdentifiers this ids)) as l.
  clear Heql. revert l Hall. induction allData as [|entry allData IH];
    intros l Hall; inversion Hall as [|i p l' ps' Hi Hrest]; subst;
    constructor; auto.
Qed.

(** *** The result of [getHistoricalRaw] *)


Lemma collectHistorical_symbol :
  forall (allData : list HistoricalData) (s : string)
         (v : option (Js.obj Historical.t)),
    (forall c, In c DERIVED_CURRENCIES ->
               (DEFAULT_CURRENCY ++ Derived.currency c)%string <> s) ->
    forall (remaining : list HistoricalData)
           (result0 result : Js.obj (option (Js.obj Historical.t))),
      collectHistorical allData remaining result0 = inr result ->
      (forall e, In e remaining -> dataSymbol e = s -> data e = v) ->
      Js.get s result0 = Some v
      \/ (exists e, In e remaining /\ dataSymbol e = s) ->
      Js.get s result = Some v.
Proof.
  intros allData s v Hnames.
  induction remaining as [|e remaining IH];
    intros result0 result Hrun Hdata Hinv.
  - cbn in Hrun. injection Hrun as <-.
    destruct Hinv as [H|(e & [] & _)]. exact H.
  - cbn [collectHistorical] in Hrun.
    set (found := find _ DERIVED_CURRENCIES) in Hrun.
    assert (Hstep :
              exists result1,
                collectHistorical allData remaining
                  (Js.set (dataSymbol e) (data e) result1) = inr result
                /\ Js.get s result1 = Js.get s result0).
    { destruct found as [c|] eqn:Hfound.
      - destruct (transformHistoricalData allData _ (Derived.factor c))
          as [err|series]; [discriminate|].
        eexists. split; [exact Hrun|]. apply get_set_other.
        apply not_eq_sym. apply Hnames.
        unfold found in Hfound. now apply find_some in Hfound as [Hc _].
      - eexists. split; [exact Hrun|]. reflexivity. }
    destruct Hstep as (result1 & Hrest & Hsame).
    apply (IH _ _ Hrest).
    + intros e' He'. apply Hdata. now right.
    + rewrite get_set. destruct (String.eqb_spec s (dataSymbol e)) as [Hs|Hs].
      * left. f_equal. apply Hdata; [now left | now symmetry].
      * destruct Hinv as [H|(e' & [<-|He'] & Hs')].
        -- left. now rewrite Hsame.
        -- now symmetry in Hs'.
        -- right. eauto.
Qed.





Lemma fixedSeries_spec :
  forall (days : list Js.Date) (data series : Js.obj Historical.t),
    fixedSeries days data = inr series ->
    (forall day, In day days ->
                 exists key,
                   formatDate day = inr key
                   /\ Js.get key series
                      = Some {| Historical.marketPrice := Js.Number 100 |})
    /\ (forall key h,
           Js.get key series = Some h ->
           h = {| Historical.marketPrice := Js.Number 100 |}
           \/ Js.get key data = Some h)
    /\ (forall key h,
           Js.get key data = Some h ->
           h = {| Historical.marketPrice := Js.Number 100 |} ->
           Js.get key series = Some h).
Proof.
  induction days as [|day0 days IH]; intros data series Hrun.
  - cbn in Hrun. injection Hrun as <-. repeat split; auto.
    intros day [].
  - cbn [fixedSeries] in Hrun.
    destruct (formatDate day0) as [e|key0] eqn:Hkey; [discriminate|].
    destruct (IH _ _ Hrun) as (Hdays & Hsound & Hkeep).
    split; [|split].
    + intros day [<-|Hin]; auto.
      exists key0. split; auto. apply Hkeep; auto. apply get_set_same.
    + intros key h Hget. destruct (Hsound _ _ Hget) as [H|H]; auto.
      rewrite get_set in H. destruct (String.eqb key key0); auto.
      injection H as <-. now left.
    + intros key h Hget Hh. apply Hkeep; auto. rewrite get_set.
      destruct (String.eqb key key0); auto. now rewrite Hh.
Qed.

Lemma historicalEntry_inv :
  forall (dataProvider : DataProviderInterface.t) (from to : Js.Date)
         (s : string) (entry : HistoricalData),
    historicalEntry dataProvider from to s = inr entry ->
    dataSymbol entry = s
    /\ (s <> (DEFAULT_CURRENCY ++ "USX")%string ->
        exists response,
          DataProviderInterface.getHistorical dataProvider from s to
            ms_30_seconds
          = inr response
          /\ data entry
             = match response with
               | Some o => Js.get s o
               | None => None
               end)
    /\ (s = (DEFAULT_CURRENCY ++ "USX")%string ->
        exists days series,
          eachDayOfInterval from to = inr days
          /\ fixedSeries days Js.empty = inr series
          /\ data entry = Some series).
Proof.
  intros dp from to s entry. unfold historicalEntry.
  destruct (String.eqb_spec s (DEFAULT_CURRENCY ++ "USX")) as [Hs|Hs].
  - destruct (eachDayOfInterval from to) as [e|days]; [discriminate|].
    destruct (fixedSeries days Js.empty) as [e|series] eqn:Hseries;
      [discriminate|].
    intros [= <-]. cbn. split; [reflexivity|].
    split; [intros; contradiction | intros _; exists days, series; auto].
  - destruct (DataProviderInterface.getHistorical dp from s to ms_30_seconds)
      as [e|response]; [discriminate|].
    intros [= <-]. cbn. split; [reflexivity|].
    split; [intros _; exists response; auto | intros; contradiction].
Qed.

Lemma historicalIdentifiers_In :
  forall (this : DataProviderService) (ids : list AssetProfileIdentifier)
         (i : AssetProfileIdentifier),
    In i (historicalIdentifiers this ids)
    <-> In i (replaceDerivedCurrencies this DERIVED_CURRENCIES ids).
Proof.
  intros this ids i. unfold historicalIdentifiers, uniqWith.
  rewrite uniqWithAcc_In. cbn. split; [intros [H _]; exact H|].
  intros H. split; [exact H | intros []].
Qed.

Lemma allData_symbols :
  forall (this : DataProviderService) (from to : Js.Date)
         (ids : list AssetProfileIdentifier) (allData : list HistoricalData)
         (entry : HistoricalData),
    Forall2 (entryOf this from to) (filter (isHandled this) ids) allData ->
    In entry allData ->
    exists i dataProvider,
      In i ids
      /\ getDataProvider this (dataSource i) = inr dataProvider
      /\ DataProviderInterface.canHandle dataProvider (symbol i) = true
      /\ historicalEntry dataProvider from to (symbol i) = inr entry.
Proof.
  intros this from to ids allData entry Hall Hin.
  destruct (Forall2_In_right _ _ _ _ _ _ Hall Hin)
    as (i & Hi & dp & Hdp & Hcan & Hentry).
  apply filter_In in Hi as [Hi _]. now exists i, dp.
Qed.

Lemma allData_entry :
  forall (this : DataProviderService) (from to : Js.Date)
         (ids : list AssetProfileIdentifier) (allData : list HistoricalData)
         (i : AssetProfileIdentifier) (dataProvider : DataProviderInterface.t),
    Forall2 (entryOf this from to) (filter (isHandled this) ids) allData ->
    In i ids ->
    getDataProvider this (dataSource i) = inr dataProvider ->
    DataProviderInterface.canHandle dataProvider (symbol i) = true ->
    exists entry,
      In entry allData
      /\ historicalEntry dataProvider from to (symbol i) = inr entry.
Proof.
  intros this from to ids allData i dp Hall Hi Hdp Hcan.
  assert (Hin : In i (filter (isHandled this) ids)).
  { apply filter_In. split; auto. unfold isHandled. now rewrite Hdp. }
  destruct (Forall2_In_left _ _ _ _ _ _ Hall Hin)
    as (entry & Hcomb & dp' & Hdp' & _ & Hentry).
  rewrite Hdp in Hdp'. injection Hdp' as <-.
  exists entry. split; auto. eapply in_combine_r; eauto.
Qed.


(** C9 (as amended).  The pair of [DEFAULT_CURRENCY] with USX has the fixed
    price 100.  No call of [getQuotes] requests it upstream, whatever the
    cache holds; and a call whose items include it maps it, unless the
    cache holds a parsable quote for it that is used, to the quote with
    market price 100 and market state 'open'.  [getHistoricalRaw], when the
    provider of the identifier can handle the symbol, returns for it a
    series with market price 100 on every day of the interval and nothing
    else, without a request to the provider for it. *)
Theorem usx_has_fixed_price :
  forall (this : DataProviderService),
    pairUSXRecognised ->
    (forall d, In d DERIVED_CURRENCIES -> Derived.currency d <> "USX") ->
    fairSchedule ->
    (forall items requestTimeout useCache user,
        (forall name timeout symbols,
            In (ProviderGetQuotes name timeout symbols)
               (trace (getQuotes this items requestTimeout useCache user)) ->
            ~ In (DEFAULT_CURRENCY ++ "USX")%string symbols)
        /\ ((exists i,
                In i items
                /\ symbol i = (DEFAULT_CURRENCY ++ "USX")%string) ->
            (forall i,
                In i items ->
                symbol i = (DEFAULT_CURRENCY ++ "USX")%string ->
                cachedQuote this useCache i = None) ->
            forall response,
              outcome (getQuotes this items requestTimeout useCache user)
              = inr response ->
              Js.get (DEFAULT_CURRENCY ++ "USX") response
              = Some {| Quote.currency := "USX";
                        Quote.dataSource :=
                          getDataSourceForExchangeRates this;
                        Quote.marketPrice := Js.Number 100;
                        Quote.marketState := "open" |}))
    /\ (forall assetProfileIdentifiers from to i dataProvider result,
           In i assetProfileIdentifiers ->
           symbol i = (DEFAULT_CURRENCY ++ "USX")%string ->
           getDataProvider this (dataSource i) = inr dataProvider ->
           DataProviderInterface.canHandle dataProvider
             (DEFAULT_CURRENCY ++ "USX") = true ->
           outcome (getHistoricalRaw this assetProfileIdentifiers from to)
           = inr result ->
           exists days series,
             eachDayOfInterval from to = inr days
             /\ Js.get (DEFAULT_CURRENCY ++ "USX") result
                = Some (Some series)
             /\ (forall day,
                    In day days ->
                    exists key,
                      formatDate day = inr key
                      /\ Js.get key series
                         = Some {| Historical.marketPrice :=
                                     Js.Number 100 |})
             /\ (forall key h,
                    Js.get key series = Some h ->
                    h = {| Historical.marketPrice := Js.Number 100 |})
             /\ (forall name f s t timeout,
                    In (ProviderGetHistorical name f s t timeout)
                       (trace (getHistoricalRaw this assetProfileIdentifiers
                                 from to)) ->
                    s <> (DEFAULT_CURRENCY ++ "USX")%string)).
Proof.
  intros this Husx Hnames Hfair. split.
  - intros items requestTimeout useCache user.
    apply usx_quote_fixed; auto.
  - intros ids from to i dp result Hi Hs Hdp Hcan Hrun.
    destruct (getHistoricalRaw this ids from to) as [log r] eqn:Hraw.
    cbn in Hrun. subst r. cbn [trace fst].
    apply (getHistoricalRaw_inv _ _ _ _ _ _ Hfair) in Hraw
      as (allData & Hpromises & Hall & Hcollect).
    assert (Hi' : In i (historicalIdentifiers this ids)).
    { apply historicalIdentifiers_In.
      apply replaceDerivedCurrencies_keeps_in; auto.
      intros d Hd. rewrite Hs. intros Heq. apply append_inj in Heq.
      symmetry in Heq. now apply (Hnames d). }
    rewrite <- Hs in Hcan.
    destruct (allData_entry this from to _ allData i dp Hall Hi' Hdp Hcan)
      as (entry & Hentry & Hmade).
    apply historicalEntry_inv in Hmade as (Hsym & _ & Hfixed).
    destruct (Hfixed Hs) as (days & series & Hdays & Hseries & Hdata).
    exists days, series. split; auto.
    destruct (fixedSeries_spec _ _ _ Hseries) as (Hall100 & Hsound & _).
    split; [|split; [|split]]; auto.
    + apply (collectHistorical_symbol allData _ (Some series))
        with (remaining := allData) (result0 := Js.empty); auto.
      * intros c Hc Heq. apply append_inj in Heq. now apply (Hnames c).
      * intros e He Hse.
        destruct (allData_symbols _ _ _ _ _ _ Hall He)
          as (i' & dp' & _ & _ & _ & Hmade').
        apply historicalEntry_inv in Hmade' as (Hsym' & _ & Hfixed').
        rewrite Hse in Hsym'. symmetry in Hsym'.
        destruct (Hfixed' Hsym') as (days' & series' & Hdays' & Hseries' & ->).
        congruence.
      * right. exists entry. split; auto. congruence.
    + intros key h Hget. destruct (Hsound _ _ Hget) as [H|H]; auto.
      discriminate.
    + intros name f s t timeout Hev.
      apply historicalPromises_inv in Hpromises as [_ Hlog].
      rewrite Forall_forall in Hlog. apply Hlog in Hev. now destruct Hev.
Qed.

(** *** search *)

Lemma sortInsert_perm :
  forall (A : Type) (le : A -> A -> bool) (x : A) (l : list A),
    Permutation (sortInsert le x l) (x :: l).
Proof.
  intros A le x. induction l as [|y l IH]; cbn; auto.
  destruct (le x y); auto.
  eapply perm_trans; [apply perm_skip, IH | apply perm_swap].
Qed.

Lemma sortBy_perm :
  forall (A : Type) (le : A -> A -> bool) (l : list A),
    Permutation (sortBy le l) l.
Proof.
  intros A le. induction l as [|x l IH]; cbn; auto.
  eapply perm_trans; [apply sortInsert_perm | now apply perm_skip].
Qed.

Lemma sortInsert_sorted :
  forall (A : Type) (le : A -> A -> bool) (x : A) (l : list A),
    (forall a b, le a b = true \/ le b a = true) ->
    (forall a b c, le a b = true -> le b c = true -> le a c = true) ->
    StronglySorted (fun a b => le a b = true) l ->
    StronglySorted (fun a b => le a b = true) (sortInsert le x l).
Proof.
  intros A le x l Htotal Htrans. induction l as [|y l IH]; intros Hs; cbn.
  - repeat constructor.
  - inversion Hs as [|? ? Hl Hy]; subst.
    destruct (le x y) eqn:Hxy.
    + constructor; auto. constructor; auto.
      rewrite Forall_forall in Hy |- *. intros z Hz. eauto.
    + constructor; auto.
      assert (Hyx : le y x = true)
        by (destruct (Htotal x y); congruence).
      rewrite Forall_forall in Hy |- *. intros z Hz.
      apply (Permutation_in _ (sortInsert_perm A le x l)) in Hz.
      destruct Hz as [<-|Hz]; auto.
Qed.

Lemma sortBy_sorted :
  forall (A : Type) (le : A -> A -> bool) (l : list A),
    (forall a b, le a b = true \/ le b a = true) ->
    (forall a b c, le a b = true -> le b c = true -> le a c = true) ->
    StronglySorted (fun a b => le a b = true) (sortBy le l).
Proof.
  intros A le l Htotal Htrans. induction l as [|x l IH]; cbn.
  - constructor.
  - now apply sortInsert_sorted.
Qed.



Lemma mapM_emit :
  forall (A B : Type) (e : A -> Event) (g : A -> B) (a : list A),
    mapM (fun x => emit (e x) ;;; ret (g x)) a
    = (map e a, inr (map g a)).
Proof.
  intros A B e g. induction a as [|x a IH]; [reflexivity|].
  cbn [mapM]. unfold emit at 1. cbn [bind ret app]. rewrite IH.
  cbn. now rewrite app_nil_r.
Qed.


(** ** Further properties of [DataProviderService] *)

(** *** getDataProvider *)

Lemma getDataProviderFrom_unmapped :
  forall (this : DataProviderService) (providerName : DataSource)
         (interfaces : list DataProviderInterface.t),
    (forall dataProvider,
        In dataProvider interfaces ->
        mappedInterface this dataProvider = None) ->
    getDataProviderFrom this providerName interfaces
    = match find (hasName providerName) interfaces with
      | Some dataProvider => inr dataProvider
      | None => inl (Error "No data provider has been found.")
      end.
Proof using.
  intros this providerName interfaces.
  induction interfaces as [|dataProvider rest IH]; intros Hunmapped.
  - reflexivity.
  - cbn [getDataProviderFrom find].
    pose proof (Hunmapped dataProvider (or_introl eq_refl)) as Hnone.
    unfold mappedInterface in Hnone. rewrite Hnone.
    unfold hasName at 1.
    destruct (String.eqb (DataProviderInterface.getName dataProvider)
                providerName); [reflexivity|].
    apply IH. intros dp Hin. apply Hunmapped. now right.
Qed.

(** X1. When no mapping of data sources is configured,
    [getDataProvider] returns the first registered interface whose name
    is the requested one, and throws 'No data provider has been found.'
    when no interface has that name. *)
Theorem getDataProvider_without_mapping :
  forall (this : DataProviderService) (providerName : DataSource),
    dataProviderMapping this = Js.empty ->
    getDataProvider this providerName
    = match find (hasName providerName) (dataProviderInterfaces this) with
      | Some dataProvider => inr dataProvider
      | None => inl (Error "No data provider has been found.")
      end.
Proof using.
  intros this providerName Hempty. unfold getDataProvider.
  apply getDataProviderFrom_unmapped.
  intros dataProvider _. unfold mappedInterface. now rewrite Hempty.
Qed.

Lemma getDataProviderFrom_sound :
  forall (this : DataProviderService) (providerName : DataSource)
         (interfaces : list DataProviderInterface.t)
         (dataProvider : DataProviderInterface.t),
    incl interfaces (dataProviderInterfaces this) ->
    getDataProviderFrom this providerName interfaces = inr dataProvider ->
    In dataProvider (dataProviderInterfaces this)
    /\ (DataProviderInterface.getName dataProvider = providerName
        \/ exists source,
             In source (dataProviderInterfaces this)
             /\ Js.get (DataProviderInterface.getName source)
                  (dataProviderMapping this)
                = Some (DataProviderInterface.getName dataProvider)).
Proof using.
  intros this providerName interfaces dataProvider.
  induction interfaces as [|source rest IH]; intros Hincl Hget.
  - discriminate Hget.
  - cbn [getDataProviderFrom] in Hget.
    destruct (Js.get (DataProviderInterface.getName source)
                (dataProviderMapping this)) as [mapped|] eqn:Hmapped.
    + destruct (Js.truthy mapped).
      * destruct (find _ (dataProviderInterfaces this))
          as [target|] eqn:Hfind.
        -- injection Hget as <-.
           apply find_some in Hfind. destruct Hfind as [Hin Hname].
           apply String.eqb_eq in Hname. split; [exact Hin|].
           right. exists source. split.
           ++ apply Hincl. now left.
           ++ now rewrite Hname.
        -- destruct (String.eqb (DataProviderInterface.getName source)
                       providerName) eqn:Hname.
           ++ injection Hget as <-. apply String.eqb_eq in Hname.
              split; [apply Hincl; now left | now left].
           ++ apply IH; [|exact Hget].
              intros x Hx. apply Hincl. now right.
      * destruct (String.eqb (DataProviderInterface.getName source)
                    providerName) eqn:Hname.
        -- injection Hget as <-. apply String.eqb_eq in Hname.
           split; [apply Hincl; now left | now left].
        -- apply IH; [|exact Hget].
           intros x Hx. apply Hincl. now right.
    + destruct (String.eqb (DataProviderInterface.getName source)
                  providerName) eqn:Hname.
      * injection Hget as <-. apply String.eqb_eq in Hname.
        split; [apply Hincl; now left | now left].
      * apply IH; [|exact Hget].
        intros x Hx. apply Hincl. now right.
Qed.

(** X2. A provider returned by [getDataProvider] is one of the registered
    interfaces, and it either has the requested name or is the target
    that the mapping gives for a registered interface. *)
Theorem getDataProvider_sound :
  forall (this : DataProviderService) (providerName : DataSource)
         (dataProvider : DataProviderInterface.t),
    getDataProvider this providerName = inr dataProvider ->
    In dataProvider (dataProviderInterfaces this)
    /\ (DataProviderInterface.getName dataProvider = providerName
        \/ exists source,
             In source (dataProviderInterfaces this)
             /\ Js.get (DataProviderInterface.getName source)
                  (dataProviderMapping this)
                = Some (DataProviderInterface.getName dataProvider)).
Proof using.
  intros this providerName dataProvider.
  apply getDataProviderFrom_sound. apply incl_refl.
Qed.

Lemma getDataProviderFrom_redirected :
  forall (this : DataProviderService) (providerName : DataSource)
         (before : list DataProviderInterface.t)
         (source : DataProviderInterface.t)
         (after : list DataProviderInterface.t)
         (target : DataProviderInterface.t),
    (forall dataProvider,
        In dataProvider before ->
        mappedInterface this dataProvider = None
        /\ DataProviderInterface.getName dataProvider <> providerName) ->
    mappedInterface this source = Some target ->
    getDataProviderFrom this providerName (before ++ source :: after)
    = inr target.
Proof using.
  intros this providerName before source after target Hbefore Hsource.
  induction before as [|dataProvider before IH].
  - cbn [app getDataProviderFrom].
    unfold mappedInterface in Hsource. now rewrite Hsource.
  - cbn [app getDataProviderFrom].
    destruct (Hbefore dataProvider (or_introl eq_refl)) as [Hnone Hname].
    unfold mappedInterface in Hnone. rewrite Hnone.
    apply String.eqb_neq in Hname. rewrite Hname.
    apply IH. intros dp Hin. apply Hbefore. now right.
Qed.

(** X3. A mapping redirects requests of every name: when an interface
    with a mapped target precedes, in the list of registered interfaces,
    every interface that has the requested name, [getDataProvider]
    returns the target, whatever the requested name is (and even when no
    interface has that name). *)
Theorem getDataProvider_redirected :
  forall (this : DataProviderService) (providerName : DataSource)
         (before : list DataProviderInterface.t)
         (source : DataProviderInterface.t)
         (after : list DataProviderInterface.t)
         (target : DataProviderInterface.t),
    dataProviderInterfaces this = before ++ source :: after ->
    (forall dataProvider,
        In dataProvider before ->
        mappedInterface this dataProvider = None
        /\ DataProviderInterface.getName dataProvider <> providerName) ->
    mappedInterface this source = Some target ->
    getDataProvider this providerName = inr target.
Proof using.
  intros this providerName before source after target Hlist Hbefore Hsource.
  unfold getDataProvider. rewrite Hlist.
  now apply getDataProviderFrom_redirected.
Qed.

(** *** getHistorical *)

Lemma getHistorical_run :
  forall (this : DataProviderService)
         (aItems : list AssetProfileIdentifier) (aGranularity : string)
         (from to : Z),
    aItems <> [] ->
    exists query,
      getHistorical this aItems aGranularity (Some from) (Some to)
      = match PrismaService.queryRawUnsafe (prismaService this) query with
        | inl e =>
            ([ PrismaQueryRawUnsafe query;
               LoggerError e "DataProviderService" ],
             inr Js.empty)
        | inr rows =>
            match reduceMarketData rows Js.empty with
            | inl e =>
                ([ PrismaQueryRawUnsafe query;
                   LoggerError e "DataProviderService" ],
                 inr Js.empty)
            | inr response => ([PrismaQueryRawUnsafe query], inr response)
            end
        end.
Proof using.
  intros this aItems aGranularity from to Hitems.
  unfold getHistorical.
  destruct aItems as [|i rest]; [contradiction|].
  cbn [Js.isValid negb orb formatDate settle bind app].
  remember (queryRaw _ _ _ _) as q eqn:Hquery. clear Hquery.
  exists q. unfold tryCatchFinallyReturn, emit, settle. cbn [bind app].
  destruct (PrismaService.queryRawUnsafe (prismaService this) q)
    as [e|rows]; [reflexivity|].
  cbn. destruct (reduceMarketData rows Js.empty); reflexivity.
Qed.

Lemma reduceMarketData_total :
  forall (rows : list MarketData.t) (r : Js.obj (Js.obj Historical.t)),
    (forall row, In row rows -> Js.isValid (MarketData.date row) = true) ->
    exists response, reduceMarketData rows r = inr response.
Proof using.
  induction rows as [|row rows IH]; intros r Hvalid.
  - now exists r.
  - cbn [reduceMarketData].
    pose proof (Hvalid row (or_introl eq_refl)) as Hrow.
    destruct (MarketData.date row) as [t|]; [|discriminate Hrow].
    cbn [formatDate]. apply IH. intros row' Hin. apply Hvalid. now right.
Qed.

Lemma reduceMarketData_invalid :
  forall (rows : list MarketData.t) (r : Js.obj (Js.obj Historical.t))
         (row : MarketData.t),
    In row rows ->
    MarketData.date row = None ->
    reduceMarketData rows r = inl (Error "Invalid time value").
Proof using.
  induction rows as [|row' rows IH]; intros r row Hin Hdate.
  - destruct Hin.
  - cbn [reduceMarketData].
    destruct (MarketData.date row') as [t|] eqn:Hdate'.
    + cbn [formatDate]. destruct Hin as [->|Hin].
      * rewrite Hdate in Hdate'. discriminate.
      * now apply IH with row.
    + reflexivity.
Qed.

(** The price that [r] holds for a symbol on a date. *)
Lemma reduceMarketData_keeps :
  forall (rows : list MarketData.t)
         (r response : Js.obj (Js.obj Historical.t))
         (s key : string) (series : Js.obj Historical.t) (h : Historical.t),
    reduceMarketData rows r = inr response ->
    Js.get s r = Some series ->
    Js.get key series = Some h ->
    (forall row,
        In row rows -> MarketData.symbol row = s ->
        formatDate (MarketData.date row) <> inr key) ->
    exists series',
      Js.get s response = Some series' /\ Js.get key series' = Some h.
Proof using.
  induction rows as [|row rows IH];
    intros r response s key series h Hrun Hs Hkey Hother.
  - injection Hrun as <-. now exists series.
  - cbn [reduceMarketData] in Hrun.
    destruct (formatDate (MarketData.date row)) as [e|k] eqn:Hformat;
      [discriminate Hrun|].
    destruct (String.eqb s (MarketData.symbol row)) eqn:Hsym.
    + apply String.eqb_eq in Hsym. subst s. rewrite Hs in Hrun.
      eapply IH; [exact Hrun|apply get_set_same| |].
      * rewrite get_set_other; [exact Hkey|].
        intros Heq. subst key.
        apply (Hother row (or_introl eq_refl) eq_refl Hformat).
      * intros row' Hin. apply Hother. now right.
    + apply String.eqb_neq in Hsym.
      eapply IH; [exact Hrun| |exact Hkey|].
      * rewrite get_set_other; [exact Hs|exact Hsym].
      * intros row' Hin. apply Hother. now right.
Qed.

Lemma reduceMarketData_last :
  forall (before : list MarketData.t) (row : MarketData.t)
         (after : list MarketData.t)
         (r response : Js.obj (Js.obj Historical.t)) (key : string),
    reduceMarketData (before ++ row :: after) r = inr response ->
    formatDate (MarketData.date row) = inr key ->
    (forall row',
        In row' after -> MarketData.symbol row' = MarketData.symbol row ->
        formatDate (MarketData.date row') <> inr key) ->
    exists series,
      Js.get (MarketData.symbol row) response = Some series
      /\ Js.get key series
         = Some {| Historical.marketPrice := MarketData.marketPrice row |}.
Proof using.
  induction before as [|row0 before IH];
    intros row after r response key Hrun Hformat Hafter.
  - cbn [app reduceMarketData] in Hrun. rewrite Hformat in Hrun.
    eapply reduceMarketData_keeps;
      [exact Hrun|apply get_set_same|apply get_set_same|exact Hafter].
  - cbn [app reduceMarketData] in Hrun.
    destruct (formatDate (MarketData.date row0)); [discriminate Hrun|].
    eapply IH; eassumption.
Qed.

Lemma reduceMarketData_sound :
  forall (rows : list MarketData.t)
         (r response : Js.obj (Js.obj Historical.t))
         (s key : string) (series : Js.obj Historical.t) (h : Historical.t),
    reduceMarketData rows r = inr response ->
    Js.get s response = Some series ->
    Js.get key series = Some h ->
    (exists series0, Js.get s r = Some series0 /\ Js.get key series0 = Some h)
    \/ (exists row,
           In row rows
           /\ MarketData.symbol row = s
           /\ formatDate (MarketData.date row) = inr key
           /\ h = {| Historical.marketPrice := MarketData.marketPrice row |}).
Proof using.
  induction rows as [|row rows IH];
    intros r response s key series h Hrun Hs Hkey.
  - injection Hrun as <-. left. now exists series.
  - cbn [reduceMarketData] in Hrun.
    destruct (formatDate (MarketData.date row)) as [e|k] eqn:Hformat;
      [discriminate Hrun|].
    destruct (IH _ _ _ _ _ _ Hrun Hs Hkey)
      as [(series0 & Hs0 & Hkey0) | (row' & Hin & Hsym & Hfmt & Hh)].
    + rewrite get_set in Hs0.
      destruct (String.eqb s (MarketData.symbol row)) eqn:Hsym.
      * apply String.eqb_eq in Hsym. injection Hs0 as <-.
        rewrite get_set in Hkey0.
        destruct (String.eqb key k) eqn:Hk.
        -- apply String.eqb_eq in Hk. subst k. injection Hkey0 as <-.
           right. exists row. split; [now left|].
           split; [now symmetry|]. split; [exact Hformat|reflexivity].
        -- left.
           destruct (Js.get (MarketData.symbol row) r) as [o|] eqn:Hget.
           ++ exists o. subst s. now split.
           ++ discriminate Hkey0.
      * left. now exists series0.
    + right. exists row'. split; [now right|]. now split.
Qed.

(** X5. When the database answers the query of [getHistorical], the
    response is built from all the rows: the series of a symbol holds, for
    a date, the market price of the last row with that symbol and date
    (the data source of the row plays no part), and every entry of the
    response comes from a row. *)
Theorem getHistorical_last_row_wins :
  forall (this : DataProviderService)
         (aItems : list AssetProfileIdentifier) (aGranularity : string)
         (from to : Js.Date) (rows : list MarketData.t),
    aItems <> [] ->
    Js.isValid from = true ->
    Js.isValid to = true ->
    (forall query,
        In (PrismaQueryRawUnsafe query)
           (trace (getHistorical this aItems aGranularity from to)) ->
        PrismaService.queryRawUnsafe (prismaService this) query
        = inr rows) ->
    (forall row, In row rows -> Js.isValid (MarketData.date row) = true) ->
    exists response,
      outcome (getHistorical this aItems aGranularity from to)
      = inr response
      /\ (forall before row after key,
             rows = before ++ row :: after ->
             formatDate (MarketData.date row) = inr key ->
             (forall row',
                 In row' after ->
                 MarketData.symbol row' = MarketData.symbol row ->
                 formatDate (MarketData.date row') <> inr key) ->
             exists series,
               Js.get (MarketData.symbol row) response = Some series
               /\ Js.get key series
                  = Some {| Historical.marketPrice :=
                              MarketData.marketPrice row |})
      /\ (forall s key series h,
             Js.get s response = Some series ->
             Js.get key series = Some h ->
             exists row,
               In row rows
               /\ MarketData.symbol row = s
               /\ formatDate (MarketData.date row) = inr key
               /\ h = {| Historical.marketPrice :=
                           MarketData.marketPrice row |}).
Proof using.
  intros this aItems aGranularity from to rows Hitems Hfrom Hto Hquery
    Hvalid.
  destruct from as [from|]; [|discriminate Hfrom].
  destruct to as [to|]; [|discriminate Hto].
  destruct (getHistorical_run this aItems aGranularity from to Hitems)
    as (query & Hrun).
  assert (Hrows : PrismaService.queryRawUnsafe (prismaService this) query
                  = inr rows).
  { apply Hquery. rewrite Hrun.
    destruct (PrismaService.queryRawUnsafe (prismaService this) query);
      [left; reflexivity|].
    destruct (reduceMarketData _ _); left; reflexivity. }
  rewrite Hrun, Hrows.
  destruct (reduceMarketData_total rows Js.empty Hvalid)
    as (response & Hreduce).
  rewrite Hreduce. exists response. split; [reflexivity|]. split.
  - intros before row after key -> Hformat Hafter.
    eapply reduceMarketData_last; eassumption.
  - intros s key series h Hs Hkey.
    destruct (reduceMarketData_sound _ _ _ _ _ _ _ Hreduce Hs Hkey)
      as [(series0 & Hs0 & _) | Hrow]; [discriminate Hs0|exact Hrow].
Qed.

(** X6. One row with an invalid date empties the response of
    [getHistorical]: the error of [format] is logged and the map returned
    is empty, whatever the other rows hold. *)
Theorem getHistorical_invalid_row :
  forall (this : DataProviderService)
         (aItems : list AssetProfileIdentifier) (aGranularity : string)
         (from to : Js.Date) (rows : list MarketData.t)
         (row : MarketData.t),
    aItems <> [] ->
    Js.isValid from = true ->
    Js.isValid to = true ->
    (forall query,
        In (PrismaQueryRawUnsafe query)
           (trace (getHistorical this aItems aGranularity from to)) ->
        PrismaService.queryRawUnsafe (prismaService this) query
        = inr rows) ->
    In row rows ->
    Js.isValid (MarketData.date row) = false ->
    outcome (getHistorical this aItems aGranularity from to)
    = inr Js.empty
    /\ exists query,
        trace (getHistorical this aItems aGranularity from to)
        = [ PrismaQueryRawUnsafe query;
            LoggerError (Error "Invalid time value") "DataProviderService" ].
Proof using.
  intros this aItems aGranularity from to rows row Hitems Hfrom Hto Hquery
    Hin Hinvalid.
  destruct from as [from|]; [|discriminate Hfrom].
  destruct to as [to|]; [|discriminate Hto].
  destruct (getHistorical_run this aItems aGranularity from to Hitems)
    as (query & Hrun).
  assert (Hrows : PrismaService.queryRawUnsafe (prismaService this) query
                  = inr rows).
  { apply Hquery. rewrite Hrun.
    destruct (PrismaService.queryRawUnsafe (prismaService this) query);
      [left; reflexivity|].
    destruct (reduceMarketData _ _); left; reflexivity. }
  rewrite Hrun, Hrows.
  assert (Hdate : MarketData.date row = None).
  { destruct (MarketData.date row); [discriminate Hinvalid|reflexivity]. }
  rewrite (reduceMarketData_invalid rows Js.empty row Hin Hdate).
  split; [reflexivity|]. now exists query.
Qed.

(** *** getHistoricalRaw *)

Lemma firstRejection_some :
  forall (A : Type) (promises : list (Exception + A)) (e : Exception),
    In (inl e) promises ->
    exists e', firstRejection promises = Some e' /\ In (inl e') promises.
Proof using.
  intros A promises e. induction promises as [|[e0|a] rest IH]; intros Hin.
  - destruct Hin.
  - exists e0. split; [reflexivity|now left].
  - destruct Hin as [Hin|Hin]; [discriminate Hin|].
    destruct (IH Hin) as (e' & Hfirst & Hin').
    exists e'. split; [exact Hfirst|now right].
Qed.

Lemma historicalPromises_trace :
  forall (this : DataProviderService) (from to : Js.Date)
         (ids : list AssetProfileIdentifier),
    Forall (fun ev => isProviderGetHistorical ev = true)
      (trace (historicalPromises this from to ids)).
Proof using.
  intros this from to ids. induction ids as [|i rest IH].
  - constructor.
  - cbn [historicalPromises].
    apply Forall_trace_bind; [constructor|]. intros dataProvider.
    destruct (DataProviderInterface.canHandle dataProvider (symbol i));
      [|exact IH].
    destruct (String.eqb (symbol i) (DEFAULT_CURRENCY ++ "USX")).
    + apply Forall_trace_bind; [constructor|]. intros days.
      apply Forall_trace_bind; [constructor|]. intros series.
      apply Forall_trace_bind; [exact IH|]. intros promises. constructor.
    + apply Forall_trace_bind; [repeat constructor|]. intros _.
      apply Forall_trace_bind; [exact IH|]. intros promises. constructor.
Qed.

(** X7. [getHistoricalRaw] returns no partial result.  When the requests
    have been created and one of them rejects, the call fails with the
    rejection of one of the requests, and that error is logged before it
    is thrown again.  An error raised while the requests are created (no
    provider for a data source, an invalid interval for the pair with
    USX) is thrown without being logged. *)
Theorem getHistoricalRaw_rejects :
  forall (this : DataProviderService)
         (assetProfileIdentifiers : list AssetProfileIdentifier)
         (from to : Js.Date),
    fairSchedule ->
    (forall promises e,
        outcome (historicalPromises this from to
                   (historicalIdentifiers this assetProfileIdentifiers))
        = inr promises ->
        In (inl e) promises ->
        exists e',
          In (inl e') promises
          /\ outcome (getHistoricalRaw this assetProfileIdentifiers from to)
             = inl e'
          /\ In (LoggerError e' "DataProviderService")
               (trace (getHistoricalRaw this assetProfileIdentifiers from
                         to)))
    /\ (forall e,
           outcome (historicalPromises this from to
                      (historicalIdentifiers this assetProfileIdentifiers))
           = inl e ->
           outcome (getHistoricalRaw this assetProfileIdentifiers from to)
           = inl e
           /\ forall error context,
               ~ In (LoggerError error context)
                   (trace (getHistoricalRaw this assetProfileIdentifiers
                             from to))).
Proof using.
  intros this ids from to Hfair. unfold getHistoricalRaw.
  fold (historicalIdentifiers this ids).
  destruct (historicalPromises this from to (historicalIdentifiers this ids))
    as [log [e0|promises]] eqn:Hpromises; split.
  - intros promises e Hout. discriminate Hout.
  - intros e Hout. cbn in Hout. injection Hout as ->.
    cbn. split; [reflexivity|].
    intros error context Hin.
    pose proof (historicalPromises_trace this from to
                  (historicalIdentifiers this ids)) as Htrace.
    rewrite Hpromises in Htrace. cbn [trace fst] in Htrace.
    rewrite Forall_forall in Htrace. apply Htrace in Hin. discriminate Hin.
  - intros promises' e Hout Hin. cbn in Hout. injection Hout as <-.
    assert (Hscheduled : In (inl e) (schedule _ promises)).
    { apply (Permutation_in _ (Permutation_sym (Hfair _ promises))), Hin. }
    destruct (firstRejection_some _ _ _ Hscheduled)
      as (e' & Hfirst & Hin').
    exists e'. split.
    { apply (Permutation_in _ (Hfair _ promises)), Hin'. }
    unfold Promise_all, tryCatch, throw, emit, bind, outcome, trace.
    rewrite Hfirst. cbn [fst snd].
    split; [reflexivity|]. rewrite !in_app_iff. cbn [In]. auto 10.
  - intros e Hout. discriminate Hout.
Qed.

Lemma collectHistorical_keys :
  forall (result0 result : Js.obj (option (Js.obj Historical.t)))
         (allData remaining : list HistoricalData) (s : string)
         (v : option (Js.obj Historical.t)),
    collectHistorical allData remaining result0 = inr result ->
    Js.get s result = Some v ->
    Js.get s result0 = Some v
    \/ (exists entry, In entry remaining /\ dataSymbol entry = s)
    \/ In s derivedPairs.
Proof using.
  intros result0 result allData remaining. revert result0 result.
  induction remaining as [|entry rest IH]; intros result0 result s v Hrun Hs.
  - injection Hrun as <-. now left.
  - cbn [collectHistorical] in Hrun.
    destruct (find _ DERIVED_CURRENCIES) as [c|] eqn:Hfind.
    + destruct (transformHistoricalData allData _ _) as [e|series];
        [discriminate Hrun|].
      destruct (IH _ _ _ _ Hrun Hs) as [Hget|[(e' & Hin & Hsym)|Hd]].
      * rewrite get_set in Hget.
        destruct (String.eqb s (dataSymbol entry)) eqn:Hentry.
        -- apply String.eqb_eq in Hentry. right. left.
           exists entry. split; [now left|now symmetry].
        -- rewrite get_set in Hget.
           destruct (String.eqb s (DEFAULT_CURRENCY ++ Derived.currency c))
             eqn:Hderived.
           ++ apply String.eqb_eq in Hderived. right. right.
              apply find_some in Hfind. destruct Hfind as [Hin _].
              unfold derivedPairs. apply in_map_iff. exists c.
              split; [now symmetry|exact Hin].
           ++ now left.
      * right. left. exists e'. split; [now right|exact Hsym].
      * now right; right.
    + destruct (IH _ _ _ _ Hrun Hs) as [Hget|[(e' & Hin & Hsym)|Hd]].
      * rewrite get_set in Hget.
        destruct (String.eqb s (dataSymbol entry)) eqn:Hentry.
        -- apply String.eqb_eq in Hentry. right. left.
           exists entry. split; [now left|now symmetry].
        -- now left.
      * right. left. exists e'. split; [now right|exact Hsym].
      * now right; right.
Qed.

(** X8. The result of [getHistoricalRaw] holds, for a symbol that is not
    the pair with a derived currency nor the pair with USX, what the
    provider answered for it: when one identifier of the request has the
    symbol and its provider can handle it, the entry of the symbol is the
    entry of the provider's response under that symbol ([undefined] when
    the provider answers nothing for it). *)
Theorem getHistoricalRaw_passes_through :
  forall (this : DataProviderService)
         (assetProfileIdentifiers : list AssetProfileIdentifier)
         (from to : Js.Date)
         (result : Js.obj (option (Js.obj Historical.t)))
         (i : AssetProfileIdentifier)
         (dataProvider : DataProviderInterface.t),
    fairSchedule ->
    outcome (getHistoricalRaw this assetProfileIdentifiers from to)
    = inr result ->
    In i (historicalIdentifiers this assetProfileIdentifiers) ->
    (forall j,
        In j (historicalIdentifiers this assetProfileIdentifiers) ->
        symbol j = symbol i -> j = i) ->
    getDataProvider this (dataSource i) = inr dataProvider ->
    DataProviderInterface.canHandle dataProvider (symbol i) = true ->
    ~ In (symbol i) derivedPairs ->
    symbol i <> (DEFAULT_CURRENCY ++ "USX")%string ->
    exists response,
      DataProviderInterface.getHistorical dataProvider from (symbol i) to
        ms_30_seconds
      = inr response
      /\ Js.get (symbol i) result
         = Some match response with
                | Some o => Js.get (symbol i) o
                | None => None
                end.
Proof using.
  intros this ids from to result i dataProvider Hfair Hout Hin Hunique Hdp
    Hhandle Hnotderived Hnotusx.
  destruct (getHistoricalRaw this ids from to) as [log r] eqn:Hrun.
  cbn in Hout. subst r.
  destruct (getHistoricalRaw_inv _ _ _ _ _ _ Hfair Hrun)
    as (allData & _ & Hentries & Hcollect).
  destruct (allData_entry _ _ _ _ _ _ _ Hentries Hin Hdp Hhandle)
    as (entry & Hentry & Hhist).
  destruct (historicalEntry_inv _ _ _ _ _ Hhist)
    as (Hsym & Hplain & _).
  destruct (Hplain Hnotusx) as (response & Hresponse & Hdata).
  exists response. split; [exact Hresponse|].
  rewrite <- Hdata.
  apply (collectHistorical_symbol allData (symbol i) (data entry))
    with (remaining := allData) (result0 := Js.empty).
  - intros c Hc Heq. apply Hnotderived. unfold derivedPairs.
    apply in_map_iff. now exists c.
  - exact Hcollect.
  - intros e He Hesym.
    destruct (allData_symbols _ _ _ _ _ _ Hentries He)
      as (j & dp' & Hj & Hdp' & Hhandle' & Hhist').
    destruct (historicalEntry_inv _ _ _ _ _ Hhist') as (Hsym' & _ & _).
    assert (Hji : j = i).
    { apply Hunique; [exact Hj|]. now rewrite <- Hsym', Hesym. }
    subst j. rewrite Hdp in Hdp'. injection Hdp' as <-.
    rewrite Hhist in Hhist'. now injection Hhist' as <-.
  - right. exists entry. split; [exact Hentry|exact Hsym].
Qed.

(** X9. [getHistoricalRaw] returns entries for requested symbols only: a
    key of the result is the pair with a derived currency, or the symbol
    of an identifier of the request (after the derived pairs have been
    replaced by their roots) whose provider can handle the symbol. *)
Theorem getHistoricalRaw_keys :
  forall (this : DataProviderService)
         (assetProfileIdentifiers : list AssetProfileIdentifier)
         (from to : Js.Date)
         (result : Js.obj (option (Js.obj Historical.t)))
         (s : string) (v : option (Js.obj Historical.t)),
    fairSchedule ->
    outcome (getHistoricalRaw this assetProfileIdentifiers from to)
    = inr result ->
    Js.get s result = Some v ->
    In s derivedPairs
    \/ exists i dataProvider,
         In i (historicalIdentifiers this assetProfileIdentifiers)
         /\ symbol i = s
         /\ getDataProvider this (dataSource i) = inr dataProvider
         /\ DataProviderInterface.canHandle dataProvider s = true.
Proof using.
  intros this ids from to result s v Hfair Hout Hs.
  destruct (getHistoricalRaw this ids from to) as [log r] eqn:Hrun.
  cbn in Hout. subst r.
  destruct (getHistoricalRaw_inv _ _ _ _ _ _ Hfair Hrun)
    as (allData & _ & Hentries & Hcollect).
  destruct (collectHistorical_keys _ _ _ _ _ _ Hcollect Hs)
    as [Hempty|[(entry & Hentry & Hsym)|Hderived]].
  - discriminate Hempty.
  - right.
    destruct (allData_symbols _ _ _ _ _ _ Hentries Hentry)
      as (i & dataProvider & Hi & Hdp & Hhandle & Hhist).
    destruct (historicalEntry_inv _ _ _ _ _ Hhist) as (Hsym' & _ & _).
    exists i, dataProvider.
    assert (Heq : symbol i = s) by now rewrite <- Hsym', Hsym.
    split; [exact Hi|]. split; [exact Heq|]. split; [exact Hdp|].
    now rewrite <- Heq.
  - now left.
Qed.

(** *** getQuotes *)

(** X10. [getQuotes] returns no partial response: when it returns, every
    item to fetch has a provider and every upstream request was
    fulfilled.  So one rejected request, or one item with a data source
    without provider, makes the whole call fail. *)
Theorem getQuotes_all_or_nothing :
  forall (this : DataProviderService) (items : list AssetProfileIdentifier)
         (requestTimeout : option Z) (useCache : bool)
         (user : option User.t) (response : Js.obj Quote.t),
    fairSchedule ->
    outcome (getQuotes this items requestTimeout useCache user)
    = inr response ->
    (forall i,
        In i (itemsToFetch this useCache items) ->
        exists dataProvider,
          getDataProvider this (dataSource i) = inr dataProvider)
    /\ exists promises,
        outcome (upstreamRequests this items requestTimeout useCache user)
        = inr promises
        /\ forall promise,
            In promise promises ->
            exists result, pendingResult promise = inr result.
Proof using.
  intros this items requestTimeout useCache user response Hfair Hout.
  destruct (getQuotes_outcome_inv _ _ _ _ _ _ Hout)
    as (log1 & promises & assignments & Hupstream & Hsettled & _ & _).
  split.
  - intros i Hi.
    destruct (upstream_item_requested _ _ _ _ _ _ _ _ Hupstream Hi)
      as (dataProvider & Hdp & _).
    now exists dataProvider.
  - exists promises. rewrite Hupstream. split; [reflexivity|].
    intros promise Hin.
    assert (Hscheduled : In promise (schedule _ promises)).
    { apply (Permutation_in _ (Permutation_sym (Hfair _ promises))), Hin. }
    destruct (Forall2_In_left _ _ _ _ _ _ Hsettled Hscheduled)
      as (a & _ & result & Hresult & _).
    now exists result.
Qed.

(** X11. [getQuotes] answers for requested symbols only: as long as the
    results of the providers hold requested symbols only, every key of
    the response is the symbol of a requested item or the pair with a
    derived currency. *)
Theorem getQuotes_keys_requested :
  forall (this : DataProviderService) (items : list AssetProfileIdentifier)
         (requestTimeout : option Z) (useCache : bool)
         (user : option User.t) (response : Js.obj Quote.t)
         (k : string) (v : Quote.t),
    fairSchedule ->
    resultsAnswerRequests this ->
    outcome (getQuotes this items requestTimeout useCache user)
    = inr response ->
    Js.get k response = Some v ->
    (exists i, In i items /\ symbol i = k) \/ In k derivedPairs.
Proof using.
  intros this items requestTimeout useCache user response k v Hfair
    Hanswers Hout Hget.
  destruct (getQuotes_outcome_inv _ _ _ _ _ _ Hout)
    as (log1 & promises & assignments & Hupstream & Hall & -> & _).
  apply get_assign_provenance in Hget as [Hin|Hget].
  - destruct (Forall2_In_concat _ _ _ _ _ _ Hall Hin)
      as (promise & ws & Hp & (result & Hresult & Hws) & Hkv).
    pose proof (Permutation_in _ (Hfair _ promises) Hp) as Hpromise.
    destruct (quoteAssignments_provenance _ _ _ Hws _ _ Hkv)
      as [[Hentry _]|[Hderived _]]; [|now right].
    left.
    destruct (upstream_promise _ _ _ _ _ _ _ _ Hupstream Hpromise)
      as (dataProvider & Hdp & _ & _ & _ & Hrequest).
    rewrite Hrequest in Hresult.
    assert (Hk : In k (pendingSymbolsChunk promise)).
    { apply (Hanswers dataProvider requestTimeout _ result).
      - apply (getDataProvider_In _ _ _ Hdp).
      - exact Hresult.
      - apply in_map_iff. now exists (k, v). }
    destruct (upstream_promise_symbols _ _ _ _ _ _ _ _ _ Hupstream
                Hpromise Hk)
      as (i & dp & Hi & Hsym & _).
    exists i. split; [|exact Hsym].
    rewrite itemsToFetch_spec in Hi. now apply filter_In in Hi.
  - left. rewrite responseFromCache_spec in Hget.
    apply get_assign_provenance in Hget as [Hin|Hget].
    + apply cacheAssignments_In in Hin. destruct Hin as (i & Hi & Hsym & _).
      now exists i.
    + apply initialResponse_get in Hget as (-> & _ & i & Hi & Hsym).
      now exists i.
Qed.

Lemma writtenBy_incl :
  forall (this : DataProviderService) (l l' : list DataSource) (ev : Event),
    incl l l' -> writtenBy this l ev -> writtenBy this l' ev.
Proof using.
  intros this l l' ev Hincl. destruct ev; cbn; auto.
  intros (Httl & ds & s & q & Hds & Hrest).
  split; [exact Httl|]. exists ds, s, q. split; [now apply Hincl|exact Hrest].
Qed.

Lemma addDerivedQuotes_writes :
  forall (this : DataProviderService) (dataSource : DataSource)
         (result : Js.obj Quote.t) (symbol : string) (q : Quote.t)
         (derived : list Derived.t) (response : Js.obj Quote.t),
    (forall d, In d derived -> Derived.currency d <> "USX") ->
    Forall (writtenBy this [dataSource])
      (logOf (addDerivedQuotes this dataSource result symbol q derived
                response)).
Proof using.
  intros this dataSource result symbol q.
  induction derived as [|d derived IH]; intros response Hnousx;
    cbn [addDerivedQuotes]; [constructor|].
  assert (Hrest : forall d', In d' derived -> Derived.currency d' <> "USX").
  { intros d' Hd'. apply Hnousx. now right. }
  destruct (String.eqb symbol _); [|now apply IH].
  unfold bindC, perform, assignTo.
  destruct (Js.get _ result) as [rootQuote|]; [|constructor].
  cbn [trace outcome ret fst snd].
  destruct (Big_mul_toNumber _ _) as [price|]; [|constructor].
  cbn [trace outcome ret emit fst snd app].
  specialize (IH (Js.set (DEFAULT_CURRENCY ++ Derived.currency d)
                    (derivedQuote q (Derived.currency d) price) response)
                Hrest).
  destruct (addDerivedQuotes _ _ _ _ _ _ _) as [[log r] o]. cbn in IH |- *.
  constructor; [|exact IH]. cbn. split; [reflexivity|].
  exists dataSource, (DEFAULT_CURRENCY ++ Derived.currency d)%string,
    (derivedQuote q (Derived.currency d) price).
  split; [now left|]. split; [reflexivity|]. split; [reflexivity|].
  intros Heq. apply append_inj in Heq.
  now apply (Hnousx d (or_introl eq_refl)).
Qed.

Lemma addQuotes_writes :
  forall (this : DataProviderService) (dataSource : DataSource)
         (result : Js.obj Quote.t) (entries : list (string * Quote.t))
         (response : Js.obj Quote.t),
    (forall d, In d DERIVED_CURRENCIES -> Derived.currency d <> "USX") ->
    Forall (writtenBy this [dataSource])
      (logOf (addQuotes this dataSource result entries response)).
Proof using.
  intros this dataSource result entries response Hnousx. revert response.
  induction entries as [|[symbol q] entries IH]; intros response;
    cbn [addQuotes]; [constructor|].
  destruct (Js.includes symbol skippedSymbols) eqn:Hskipped; [apply IH|].
  unfold bindC, perform, assignTo. cbn [trace outcome emit fst snd app].
  assert (Hwrite :
            writtenBy this [dataSource]
              (RedisSet
                 (RedisCacheService.getQuoteKey (redisCacheService this)
                    dataSource symbol)
                 (JSON_stringify q)
                 (ConfigurationService.CACHE_QUOTES_TTL
                    (configurationService this)))).
  { cbn. split; [reflexivity|]. exists dataSource, symbol, q.
    split; [now left|]. split; [reflexivity|]. split; [reflexivity|].
    intros ->. apply includes_false in Hskipped. apply Hskipped.
    unfold skippedSymbols. apply in_or_app. right. now left. }
  pose proof (addDerivedQuotes_writes this dataSource result symbol q
                DERIVED_CURRENCIES (Js.set symbol q response) Hnousx) as Hd.
  destruct (addDerivedQuotes _ _ _ _ _ _ _) as [[log r] [e|[]]];
    cbn in Hd |- *.
  - constructor; auto.
  - specialize (IH r).
    destruct (addQuotes _ _ _ _ _) as [[log' r'] o']. cbn in IH |- *.
    constructor; [exact Hwrite|]. apply Forall_app. auto.
Qed.

Lemma onQuotes_writes :
  forall (this : DataProviderService) (promise : PendingQuotes)
         (result : Js.obj Quote.t) (response : Js.obj Quote.t),
    (forall d, In d DERIVED_CURRENCIES -> Derived.currency d <> "USX") ->
    Forall (writtenBy this [pendingDataSource promise])
      (logOf (onQuotes this promise result response)).
Proof using.
  intros this promise result response Hnousx.
  pose proof (addQuotes_writes this (pendingDataSource promise) result
                (Js.entries result) response Hnousx) as Hlog.
  destruct (snd (addQuotes this (pendingDataSource promise) result
                   (Js.entries result) response)) as [e|[]] eqn:Hout.
  - rewrite (onQuotes_throws _ _ _ _ _ Hout). exact Hlog.
  - rewrite (onQuotes_returns _ _ _ _ Hout). cbn [logOf fst].
    apply Forall_app. split; [exact Hlog|]. repeat constructor.
Qed.

Lemma runCallbacks_writes :
  forall (this : DataProviderService) (settled : list PendingQuotes)
         (response : Js.obj Quote.t),
    (forall d, In d DERIVED_CURRENCIES -> Derived.currency d <> "USX") ->
    Forall (writtenBy this (map pendingDataSource settled))
      (logOf (runCallbacks this settled response)).
Proof using.
  intros this settled response Hnousx. revert response.
  induction settled as [|promise settled IH]; intros response;
    cbn [runCallbacks]; [constructor|].
  assert (Hrest :
            forall response,
              Forall
                (writtenBy this (map pendingDataSource (promise :: settled)))
                (logOf (runCallbacks this settled response))).
  { intros r. eapply Forall_impl; [|apply IH].
    intros ev. apply writtenBy_incl. intros ds Hds. now right. }
  destruct (pendingResult promise) as [e|result].
  { specialize (Hrest response).
    destruct (runCallbacks this settled response) as [[log' r'] o'].
    exact Hrest. }
  pose proof (onQuotes_writes this promise result response Hnousx) as Hon.
  destruct (onQuotes this promise result response) as [[log r] [e|[]]];
    specialize (Hrest r);
    destruct (runCallbacks this settled r) as [[log' r'] o'];
    cbn in Hon, Hrest |- *; apply Forall_app; split; auto;
    (eapply Forall_impl; [|exact Hon]);
    intros ev; apply writtenBy_incl; intros ds [<-|[]]; now left.
Qed.

Lemma requestChunks_only_requests :
  forall (dataSource : DataSource) (dataProvider : DataProviderInterface.t)
         (requestTimeout : option Z) (symbols : list string) (maximum : N)
         (fuel : nat) (i : N),
    Forall (fun ev => isProviderGetQuotes ev = true)
      (trace (requestChunks fuel dataSource dataProvider requestTimeout
                symbols maximum i)).
Proof using.
  intros dataSource dataProvider requestTimeout symbols maximum.
  induction fuel as [|fuel IH]; intros i; cbn [requestChunks];
    destruct (i <? N.of_nat (length symbols))%N; try constructor.
  apply Forall_trace_bind; [repeat constructor|]. intros _.
  apply Forall_trace_bind; [apply IH|]. intros promises. constructor.
Qed.

Lemma requestGroups_only_requests :
  forall (this : DataProviderService) (user : option User.t)
         (requestTimeout : option Z)
         (groups : list (string * list AssetProfileIdentifier)),
    Forall (fun ev => isProviderGetQuotes ev = true)
      (trace (requestGroups this user requestTimeout groups)).
Proof using.
  intros this user requestTimeout.
  induction groups as [|[ds ids] groups IH]; cbn [requestGroups];
    [constructor|].
  apply Forall_trace_bind; [constructor|]. intros dataProvider.
  apply Forall_trace_bind; [apply requestChunks_only_requests|].
  intros promises. apply Forall_trace_bind; [apply IH|].
  intros more. constructor.
Qed.

Lemma requestGroups_dataSources :
  forall (this : DataProviderService) (user : option User.t)
         (requestTimeout : option Z)
         (groups : list (string * list AssetProfileIdentifier))
         (log : list Event) (promises : list PendingQuotes)
         (promise : PendingQuotes),
    requestGroups this user requestTimeout groups = (log, inr promises) ->
    In promise promises ->
    In (pendingDataSource promise) (map fst groups).
Proof using.
  intros this user requestTimeout groups log promises promise Hrun Hin.
  destruct (requestGroups_inv _ _ _ _ _ _ Hrun)
    as (perGroup & -> & Hgroups & _).
  destruct (Forall2_In_concat _ _ _ _ _ _ Hgroups Hin)
    as (group & ps & Hgroup & (dataProvider & _ & _ & Hrequests & _) & Hp).
  rewrite Forall_forall in Hrequests.
  destruct (Hrequests promise Hp) as (Hds & _).
  rewrite Hds. now apply in_map.
Qed.

Lemma createdRequests_dataSources :
  forall (this : DataProviderService) (user : option User.t)
         (requestTimeout : option Z)
         (groups : list (string * list AssetProfileIdentifier))
         (promise : PendingQuotes),
    In promise (createdRequests this user requestTimeout groups) ->
    In (pendingDataSource promise) (map fst groups).
Proof using.
  intros this user requestTimeout.
  induction groups as [|[ds ids] groups IH]; intros promise Hin;
    [destruct Hin|].
  cbn [createdRequests] in Hin.
  destruct (getDataProvider this ds) as [e|dataProvider]; [destruct Hin|].
  destruct (requestChunks _ ds dataProvider requestTimeout _ _ 0)
    as [log [e|promises]] eqn:Hrun; cbn [outcome snd] in Hin;
    [destruct Hin|].
  apply in_app_or in Hin. destruct Hin as [Hin|Hin].
  - apply requestChunks_inv in Hrun. destruct Hrun as (_ & _ & Hall & _).
    rewrite Forall_forall in Hall. destruct (Hall _ Hin) as (Hds & _).
    left. cbn [fst]. now rewrite Hds.
  - right. now apply IH.
Qed.

(** X12. Every write of [getQuotes] to the cache carries the configured
    time to live and is made under the quote key of the data source of a
    requested item; and the pair with USX is never written to the cache.
    This holds for the calls that fail as well. *)
Theorem getQuotes_cache_writes :
  forall (this : DataProviderService) (items : list AssetProfileIdentifier)
         (requestTimeout : option Z) (useCache : bool)
         (user : option User.t),
    fairSchedule ->
    (forall d, In d DERIVED_CURRENCIES -> Derived.currency d <> "USX") ->
    Forall (writtenBy this (map dataSource items))
      (trace (getQuotes this items requestTimeout useCache user)).
Proof using.
  intros this items requestTimeout useCache user Hfair Hnousx.
  rewrite getQuotes_trace. apply Forall_app. split.
  - eapply Forall_impl;
      [|apply (requestGroups_only_requests this user requestTimeout)].
    intros ev Hev. destruct ev; try discriminate Hev. exact I.
  - eapply Forall_impl; [|now apply runCallbacks_writes].
    intros ev. apply writtenBy_incl. intros ds Hds.
    apply in_map_iff in Hds. destruct Hds as (promise & <- & Hp).
    assert (Hgroup :
              In (pendingDataSource promise)
                 (map fst
                    (groupBy dataSource (itemsToFetch this useCache items)))).
    { unfold settledRequests, upstreamRequests in Hp.
      destruct (requestGroups this user requestTimeout _)
        as [log [e|promises]] eqn:Hrun; cbn [outcome snd] in Hp.
      - assert (Hcreated :
                  In promise
                    (createdRequests this user requestTimeout
                       (groupBy dataSource
                          (itemsToFetch this useCache items)))).
        { destruct e; try destruct Hp;
            now apply (Permutation_in _ (Hfair _ _)) in Hp. }
        now apply createdRequests_dataSources in Hcreated.
      - apply (Permutation_in _ (Hfair _ promises)) in Hp.
        apply (requestGroups_dataSources _ _ _ _ _ _ _ Hrun Hp). }
    apply in_map_iff in Hgroup. destruct Hgroup as ((ds, ids) & Heq & Hg).
    cbn [fst] in Heq. subst ds.
    destruct (groupBy_spec _ dataSource (itemsToFetch this useCache items))
      as (_ & Hspec & _).
    destruct (Hspec _ _ Hg) as (Hids & Hnonempty).
    destruct ids as [|i ids]; [contradiction|].
    assert (Hi : In i (filter
                         (fun x => String.eqb (dataSource x)
                                     (pendingDataSource promise))
                         (itemsToFetch this useCache items))).
    { rewrite <- Hids. now left. }
    apply filter_In in Hi. destruct Hi as (Hi & Hds).
    apply String.eqb_eq in Hds. rewrite <- Hds.
    apply in_map. rewrite itemsToFetch_spec in Hi.
    now apply filter_In in Hi.
Qed.

Lemma bind_ext :
  forall (A B : Type) (m : M A) (k k' : A -> M B),
    (forall a, k a = k' a) -> bind m k = bind m k'.
Proof using.
  intros A B [log [e|a]] k k' Hk; cbn; [reflexivity|]. now rewrite Hk.
Qed.

Lemma getDataProviderFrom_cache :
  forall (this : DataProviderService) (get : string -> option string)
         (providerName : DataSource)
         (interfaces : list DataProviderInterface.t),
    getDataProviderFrom (withCachedValues this get) providerName interfaces
    = getDataProviderFrom this providerName interfaces.
Proof using.
  intros this get providerName.
  induction interfaces as [|dataProvider rest IH]; [reflexivity|].
  cbn [getDataProviderFrom withCachedValues dataProviderMapping
         dataProviderInterfaces].
  now rewrite IH.
Qed.

Lemma getItemsFromCache_unused :
  forall (this : DataProviderService) (get : string -> option string)
         (items : list AssetProfileIdentifier) (response : Js.obj Quote.t)
         (toFetch : list AssetProfileIdentifier),
    getItemsFromCache (withCachedValues this get) false items response
      toFetch
    = getItemsFromCache this false items response toFetch
    /\ getItemsFromCache this false items response toFetch
       = (response, toFetch ++ items).
Proof using.
  intros this get. induction items as [|[ds s] items IH];
    intros response toFetch.
  - cbn. now rewrite app_nil_r.
  - cbn [getItemsFromCache dataSource symbol].
    destruct (IH response (toFetch ++ [{| dataSource := ds; symbol := s |}]))
      as [H1 H2].
    rewrite H1, H2, <- app_assoc. now split.
Qed.

Lemma requestGroups_cache :
  forall (this : DataProviderService) (get : string -> option string)
         (user : option User.t) (requestTimeout : option Z)
         (groups : list (string * list AssetProfileIdentifier)),
    requestGroups (withCachedValues this get) user requestTimeout groups
    = requestGroups this user requestTimeout groups.
Proof using.
  intros this get user requestTimeout.
  induction groups as [|[ds ids] groups IH]; [reflexivity|].
  cbn [requestGroups]. unfold getDataProvider.
  cbn [withCachedValues dataProviderInterfaces].
  rewrite getDataProviderFrom_cache, IH. reflexivity.
Qed.

Lemma addDerivedQuotes_cache :
  forall (this : DataProviderService) (get : string -> option string)
         (dataSource : DataSource) (result : Js.obj Quote.t)
         (symbol : string) (q : Quote.t) (derived : list Derived.t)
         (response : Js.obj Quote.t),
    addDerivedQuotes (withCachedValues this get) dataSource result symbol q
      derived response
    = addDerivedQuotes this dataSource result symbol q derived response.
Proof using.
  intros this get dataSource result symbol q.
  induction derived as [|d derived IH]; intros response; [reflexivity|].
  cbn [addDerivedQuotes]. destruct (String.eqb symbol _); [|apply IH].
  unfold bindC, perform, assignTo.
  destruct (Js.get _ result) as [rootQuote|]; [|reflexivity].
  cbn [trace outcome ret fst snd].
  destruct (Big_mul_toNumber _ _) as [price|]; [|reflexivity].
  cbn [trace outcome ret emit fst snd app withCachedValues redisCacheService
         RedisCacheService.getQuoteKey configurationService].
  now rewrite IH.
Qed.

Lemma addQuotes_cache :
  forall (this : DataProviderService) (get : string -> option string)
         (dataSource : DataSource) (result : Js.obj Quote.t)
         (entries : list (string * Quote.t)) (response : Js.obj Quote.t),
    addQuotes (withCachedValues this get) dataSource result entries response
    = addQuotes this dataSource result entries response.
Proof using.
  intros this get dataSource result.
  induction entries as [|[symbol q] entries IH]; intros response;
    [reflexivity|].
  cbn [addQuotes]. destruct (Js.includes symbol skippedSymbols);
    [apply IH|].
  unfold bindC, perform, assignTo.
  cbn [trace outcome emit fst snd app withCachedValues redisCacheService
         RedisCacheService.getQuoteKey configurationService].
  rewrite addDerivedQuotes_cache.
  destruct (addDerivedQuotes _ _ _ _ _ _ _) as [[log r] [e|[]]];
    [reflexivity|].
  now rewrite IH.
Qed.

Lemma runCallbacks_cache :
  forall (this : DataProviderService) (get : string -> option string)
         (settled : list PendingQuotes) (response : Js.obj Quote.t),
    runCallbacks (withCachedValues this get) settled response
    = runCallbacks this settled response.
Proof using.
  intros this get.
  induction settled as [|promise settled IH]; intros response;
    [reflexivity|].
  cbn [runCallbacks].
  destruct (pendingResult promise) as [e|result]; [now rewrite IH|].
  assert (Hon : onQuotes (withCachedValues this get) promise result response
                = onQuotes this promise result response).
  { unfold onQuotes, bindC. now rewrite addQuotes_cache. }
  rewrite Hon.
  destruct (onQuotes this promise result response) as [[log r] [e|[]]];
    now rewrite IH.
Qed.

Lemma createdRequests_cache :
  forall (this : DataProviderService) (get : string -> option string)
         (user : option User.t) (requestTimeout : option Z)
         (groups : list (string * list AssetProfileIdentifier)),
    createdRequests (withCachedValues this get) user requestTimeout groups
    = createdRequests this user requestTimeout groups.
Proof using.
  intros this get user requestTimeout.
  induction groups as [|[ds ids] groups IH]; [reflexivity|].
  cbn [createdRequests]. unfold getDataProvider.
  cbn [withCachedValues dataProviderInterfaces].
  rewrite getDataProviderFrom_cache, IH. reflexivity.
Qed.

(** X13. With [useCache = false] the cache is not read: every requested
    item is an item to fetch, and neither the response nor the calls that
    [getQuotes] makes depend on what the cache holds. *)
Theorem getQuotes_without_cache :
  forall (this : DataProviderService) (get : string -> option string)
         (items : list AssetProfileIdentifier) (requestTimeout : option Z)
         (user : option User.t),
    itemsToFetch this false items = items
    /\ getQuotes (withCachedValues this get) items requestTimeout false user
       = getQuotes this items requestTimeout false user.
Proof using.
  intros this get items requestTimeout user. split.
  - unfold itemsToFetch.
    now rewrite (proj2 (getItemsFromCache_unused this get items _ [])).
  - unfold getQuotes.
    change (initialResponse (withCachedValues this get) items)
      with (initialResponse this items).
    rewrite (proj1 (getItemsFromCache_unused this get items _ [])).
    destruct (getItemsFromCache this false items _ [])
      as [response toFetch].
    rewrite requestGroups_cache, createdRequests_cache.
    destruct (requestGroups this user requestTimeout _)
      as [log [e|promises]]; rewrite ?runCallbacks_cache; reflexivity.
Qed.

(** *** search *)

Lemma getDataProviderFrom_error :
  forall (this : DataProviderService) (providerName : DataSource)
         (interfaces : list DataProviderInterface.t) (e : Exception),
    getDataProviderFrom this providerName interfaces = inl e ->
    e = Error "No data provider has been found.".
Proof using.
  intros this providerName interfaces e.
  induction interfaces as [|dataProvider rest IH]; cbn [getDataProviderFrom].
  - intros H. now injection H as <-.
  - destruct (match Js.get _ (dataProviderMapping this) with
              | Some _ => _
              | None => _
              end); [discriminate|].
    destruct (String.eqb _ providerName); [discriminate|exact IH].
Qed.

Lemma mapM_settle_fails :
  forall (A B : Type) (f : A -> Exception + B) (a : list A) (x : A)
         (e : Exception),
    In x a ->
    f x = inl e ->
    (forall y e', f y = inl e' -> e' = e) ->
    mapM (fun y => settle (f y)) a = ([], inl e).
Proof using.
  intros A B f a x e Hin Hx Hsame.
  induction a as [|y a IH]; [destruct Hin|].
  cbn [mapM]. unfold settle at 1.
  destruct (f y) as [e'|b] eqn:Hy.
  - cbn. now rewrite (Hsame y e' Hy).
  - destruct Hin as [->|Hin]; [rewrite Hx in Hy; discriminate|].
    cbn [bind]. rewrite (IH Hin). reflexivity.
Qed.

(** X14. The edges of [search].  A query of fewer than two characters
    gives no items, and nothing is asked.  And when a data source
    available to the user has no provider, [search] throws 'No data
    provider has been found.' before any provider is searched. *)
Theorem search_edges :
  forall (this : DataProviderService) (includeIndices : bool)
         (query : string) (user : User.t),
    (String.length query < 2 ->
     search this includeIndices query user = ([], inr []))
    /\ (forall dataSource e,
           2 <= String.length query ->
           In dataSource (getDataSources this false user) ->
           getDataProvider this dataSource = inl e ->
           search this includeIndices query user
           = ([], inl (Error "No data provider has been found."))).
Proof using.
  intros this includeIndices query user. split.
  - intros Hshort. unfold search.
    apply Nat.ltb_lt in Hshort. now rewrite Hshort.
  - intros dataSource e Hlong Hin Hfail. unfold search.
    destruct (String.length query <? 2)%nat eqn:Hshort.
    { apply Nat.ltb_lt in Hshort. lia. }
    rewrite (mapM_settle_fails _ _ (getDataProvider this) _ dataSource
               (Error "No data provider has been found.") Hin).
    + reflexivity.
    + rewrite Hfail. f_equal.
      exact (getDataProviderFrom_error _ _ _ _ Hfail).
    + intros y e' Hy. exact (getDataProviderFrom_error _ _ _ _ Hy).
Qed.

Lemma search_run :
  forall (this : DataProviderService) (includeIndices : bool)
         (query : string) (user : User.t)
         (providers : list DataProviderInterface.t),
    2 <= String.length query ->
    Forall2 (fun dataSource provider =>
               getDataProvider this dataSource = inr provider)
      (getDataSources this false user) providers ->
    search this includeIndices query user
    = let events :=
        map (fun provider =>
               ProviderSearch (DataProviderInterface.getName provider)
                 includeIndices query (User.id user))
          providers in
      match Promise_all
              (map (fun provider =>
                      DataProviderInterface.search provider includeIndices
                        query (User.id user))
                 providers) with
      | (log, inl e) => (events ++ log, inl e)
      | (log, inr searchResults) =>
          (events ++ log,
           inr (sortBy nameLe
                  (map (adjustLookupItem this user)
                     (filter hasSupportedCurrency
                        (concatItems searchResults [])))))
      end.
Proof using.
  intros this includeIndices query user providers Hlong Hproviders.
  unfold search.
  destruct (String.length query <? 2)%nat eqn:Hshort.
  { apply Nat.ltb_lt in Hshort. lia. }
  assert (Hmap : mapM (fun dataSource =>
                         settle (getDataProvider this dataSource))
                   (getDataSources this false user)
                 = ([], inr providers)).
  { clear - Hproviders.
    induction Hproviders as [|ds p l l' Hp Hrest IH]; [reflexivity|].
    cbn [mapM]. rewrite Hp, IH. reflexivity. }
  rewrite Hmap. cbn [bind app]. rewrite mapM_emit. cbn [bind].
  destruct (Promise_all _) as [log [e|results]]; cbn;
    rewrite ?app_nil_r; reflexivity.
Qed.

(** X15. [search] returns no partial list: when every data source
    available to the user has a provider and the search of one provider
    rejects, [search] fails with the rejection of one of the providers,
    after each provider has been asked once. *)
Theorem search_rejects :
  forall (this : DataProviderService) (includeIndices : bool)
         (query : string) (user : User.t)
         (providers : list DataProviderInterface.t)
         (provider : DataProviderInterface.t) (e : Exception),
    fairSchedule ->
    2 <= String.length query ->
    Forall2 (fun dataSource provider =>
               getDataProvider this dataSource = inr provider)
      (getDataSources this false user) providers ->
    In provider providers ->
    DataProviderInterface.search provider includeIndices query
      (User.id user)
    = inl e ->
    exists provider' e',
      In provider' providers
      /\ DataProviderInterface.search provider' includeIndices query
           (User.id user)
         = inl e'
      /\ outcome (search this includeIndices query user) = inl e'
      /\ trace (search this includeIndices query user)
         = map (fun provider =>
                  ProviderSearch (DataProviderInterface.getName provider)
                    includeIndices query (User.id user))
             providers.
Proof using.
  intros this includeIndices query user providers provider e Hfair Hlong
    Hproviders Hin Hfail.
  rewrite (search_run _ _ _ _ _ Hlong Hproviders).
  set (promises :=
         map (fun p =>
                DataProviderInterface.search p includeIndices query
                  (User.id user))
           providers).
  assert (Hrejected : In (inl e) (schedule _ promises)).
  { apply (Permutation_in _ (Permutation_sym (Hfair _ promises))).
    unfold promises. apply in_map_iff. now exists provider. }
  destruct (firstRejection_some _ _ _ Hrejected) as (e' & Hfirst & Hin').
  apply (Permutation_in _ (Hfair _ promises)) in Hin'.
  unfold promises in Hin'. apply in_map_iff in Hin'.
  destruct Hin' as (provider' & Hfail' & Hprovider').
  exists provider', e'. split; [exact Hprovider'|]. split; [exact Hfail'|].
  cbv zeta. unfold Promise_all. fold promises. rewrite Hfirst.
  unfold throw, outcome, trace. cbn [fst snd]. rewrite app_nil_r.
  split; reflexivity.
Qed.


Lemma string_length_app : forall a b : string,
    String.length (a ++ b) = String.length a + String.length b.
Proof using.
  induction a as [|c a IH]; intros b; cbn; [reflexivity|]. now rewrite IH.
Qed.

Lemma substring_all : forall b : string,
    substring 0 (String.length b) b = b.
Proof using.
  induction b as [|c b IH]; cbn; [reflexivity|]. now rewrite IH.
Qed.

Lemma substring_prefix : forall a b : string,
    substring 0 (String.length a) (a ++ b) = a.
Proof using.
  induction a as [|c a IH]; intros b; cbn.
  - now destruct b.
  - now rewrite IH.
Qed.

Lemma substring_suffix : forall a b : string,
    substring (String.length a) (String.length b) (a ++ b) = b.
Proof using.
  induction a as [|c a IH]; intros b; cbn.
  - apply substring_all.
  - apply IH.
Qed.

Lemma substring_rejoin : forall (n m : nat) (s : string),
    n + m = String.length s ->
    (substring 0 n s ++ substring n m s)%string = s.
Proof using.
  induction n as [|n IH]; intros m s Hlen.
  - cbn in Hlen. subst m. rewrite substring_all. now destruct s.
  - destruct s as [|c s]; [discriminate Hlen|].
    cbn. rewrite IH; [reflexivity|]. cbn in Hlen. lia.
Qed.

Lemma removeSuffix_appended : forall suffix name : string,
    removeSuffix suffix (name ++ suffix) = name.
Proof using.
  intros suffix name. unfold removeSuffix.
  rewrite string_length_app.
  replace (String.length name + String.length suffix
           - String.length suffix)
    with (String.length name) by lia.
  rewrite substring_suffix, String.eqb_refl, substring_prefix.
  destruct (String.length suffix
            <=? String.length name + String.length suffix)%nat eqn:Hle;
    [reflexivity|].
  apply Nat.leb_gt in Hle. lia.
Qed.

Lemma removeSuffix_inv : forall suffix name : string,
    removeSuffix suffix name = name
    \/ name = (removeSuffix suffix name ++ suffix)%string.
Proof using.
  intros suffix name. unfold removeSuffix.
  destruct (String.length suffix <=? String.length name)%nat eqn:Hle;
    [|now left].
  destruct (String.eqb _ suffix) eqn:Heq; [|now left].
  right. cbn [andb]. apply Nat.leb_le in Hle. apply String.eqb_eq in Heq.
  rewrite <- Heq at 2. symmetry. apply substring_rejoin. lia.
Qed.

(** X17. The names that [search] returns.  For an item of the asset sub
    class CRYPTOCURRENCY and a user with experimental features, a name
    that ends with a space and [DEFAULT_CURRENCY] loses that ending, and
    any other name is kept; the name returned is the name of the
    provider, or the name of the provider without that ending.  For the
    other items and users the name is the one of the provider.  (For a
    [DEFAULT_CURRENCY] made of letters, as the pattern of the source is
    built from it.) *)
Theorem search_cryptocurrency_names :
  forall (this : DataProviderService) (user : User.t)
         (lookupItem : LookupItem.t),
    (forall base,
        LookupItem.assetSubClass lookupItem = "CRYPTOCURRENCY" ->
        User.isExperimentalFeatures user = true ->
        LookupItem.name lookupItem
        = (base ++ " " ++ DEFAULT_CURRENCY)%string ->
        LookupItem.name (adjustLookupItem this user lookupItem) = base)
    /\ (LookupItem.name (adjustLookupItem this user lookupItem)
        = LookupItem.name lookupItem
        \/ LookupItem.name lookupItem
           = (LookupItem.name (adjustLookupItem this user lookupItem)
              ++ " " ++ DEFAULT_CURRENCY)%string)
    /\ (LookupItem.assetSubClass lookupItem <> "CRYPTOCURRENCY"
        \/ User.isExperimentalFeatures user = false ->
        LookupItem.name (adjustLookupItem this user lookupItem)
        = LookupItem.name lookupItem).
Proof using.
  intros this user lookupItem. unfold adjustLookupItem.
  cbn [LookupItem.name]. split; [|split].
  - intros base Hclass Hexperimental Hname.
    rewrite Hclass, Hexperimental, Hname. cbn [andb].
    rewrite String.eqb_refl. apply removeSuffix_appended.
  - destruct (String.eqb (LookupItem.assetSubClass lookupItem)
                "CRYPTOCURRENCY"
              && User.isExperimentalFeatures user); [|now left].
    apply removeSuffix_inv.
  - intros [Hclass|Hexperimental].
    + apply String.eqb_neq in Hclass. now rewrite Hclass.
    + rewrite Hexperimental. now rewrite andb_false_r.
Qed.

(** *** checkQuote *)

Lemma chunk_of_singleton :
  forall (promises : list PendingQuotes) (promise : PendingQuotes)
         (symbols : list string) (s : string),
    concat (map pendingSymbolsChunk promises) = symbols ->
    (symbols = [s] \/ symbols = []) ->
    In promise promises ->
    pendingSymbolsChunk promise <> [] ->
    pendingSymbolsChunk promise = [s].
Proof using.
  intros promises promise symbols s Hconcat Hsymbols Hin Hnonempty.
  apply in_split in Hin. destruct Hin as (l1 & l2 & ->).
  rewrite map_app, concat_app in Hconcat. cbn in Hconcat.
  destruct (pendingSymbolsChunk promise) as [|x chunk]; [contradiction|].
  assert (Hlen : length (concat (map pendingSymbolsChunk l1)
                         ++ (x :: chunk)
                         ++ concat (map pendingSymbolsChunk l2))
                 <= 1).
  { rewrite Hconcat. destruct Hsymbols as [-> | ->]; cbn; lia. }
  rewrite !length_app in Hlen. cbn [length] in Hlen.
  destruct chunk as [|y chunk]; [|cbn [length] in Hlen; lia].
  destruct (concat (map pendingSymbolsChunk l1)) as [|z l];
    [|cbn [length] in Hlen; lia].
  cbn in Hconcat. destruct Hsymbols as [-> | ->]; [|discriminate Hconcat].
  now injection Hconcat as ->.
Qed.

(** X18. [checkQuote] asks the provider itself: it reads no cache and
    uses a timeout of 30 seconds.  It fails with the error of
    [getDataProvider] when the data source has no provider.  And it
    answers true only when the test symbol of the provider is the pair
    with USX or with a derived currency, or when the provider, asked for
    its test symbol alone, answered with a quote whose market price is
    greater than 0. *)
Theorem checkQuote_asks_provider :
  forall (this : DataProviderService) (dataSource : DataSource),
    fairSchedule ->
    (forall e,
        getDataProvider this dataSource = inl e ->
        checkQuote this dataSource = ([], inl e))
    /\ (outcome (checkQuote this dataSource) = inr true ->
        exists dataProvider quote,
          getDataProvider this dataSource = inr dataProvider
          /\ Js.gt0 (Quote.marketPrice quote) = true
          /\ (getTestSymbol dataProvider
              = (DEFAULT_CURRENCY ++ "USX")%string
              \/ In (getTestSymbol dataProvider) derivedPairs
              \/ exists result,
                   DataProviderInterface.getQuotes dataProvider
                     (Some ms_30_seconds) [getTestSymbol dataProvider]
                   = inr result
                   /\ In (getTestSymbol dataProvider, quote) result)).
Proof using.
  intros this ds Hfair. split.
  - intros e Hfail. unfold checkQuote. now rewrite Hfail.
  - unfold checkQuote.
    destruct (getDataProvider this ds) as [e|dataProvider] eqn:Hdp;
      [intros H; discriminate H|].
    cbn [settle bind app].
    set (symbol := getTestSymbol dataProvider).
    set (i := {| dataSource := ds; symbol := symbol |}).
    destruct (getQuotes this [i] (Some ms_30_seconds) false None)
      as [log [e|quotes]] eqn:Hrun; [intros H; discriminate H|].
    unfold hasPositivePrice. cbn [bind]. intros Htrue.
    destruct (Js.get symbol quotes) as [quote|] eqn:Hget;
      [|cbn in Htrue; discriminate Htrue].
    destruct (Js.gt0 (Quote.marketPrice quote)) eqn:Hpositive;
      [|cbn in Htrue; discriminate Htrue].
    clear Htrue. exists dataProvider, quote.
    split; [reflexivity|]. split; [exact Hpositive|].
    assert (Hout : outcome (getQuotes this [i] (Some ms_30_seconds) false
                              None)
                   = inr quotes) by now rewrite Hrun.
    destruct (getQuotes_outcome_inv _ _ _ _ _ _ Hout)
      as (log1 & promises & assignments & Hupstream & _ & _ & _).
    assert (Hpromises :
             outcome (upstreamRequests this [i] (Some ms_30_seconds) false
                        None)
             = inr promises) by now rewrite Hupstream.
    destruct (response_provenance _ _ _ _ _ _ _ _ _ Hfair Hout Hpromises
                Hget)
      as [[Husx _]
         |[(j & _ & _ & Hcached)
          |(promise & result & Hin & Hresult
            & [[Hentry _]|[Hderived _]])]].
    + now left.
    + discriminate Hcached.
    + right. right. exists result. split; [|exact Hentry].
      unfold upstreamRequests in Hupstream.
      assert (Hgroups : groupBy dataSource (itemsToFetch this false [i])
                        = [(ds, [i])]).
      { unfold itemsToFetch.
        rewrite (proj2 (getItemsFromCache_unused this
                          (fun _ => None) [i] _ [])).
        reflexivity. }
      rewrite Hgroups in Hupstream.
      destruct (requestGroups_inv _ _ _ _ _ _ Hupstream)
        as (perGroup & -> & Hper & _).
      inversion Hper as [|g ps gs pss Hgroup Hrest]; subst.
      inversion Hrest; subst. cbn [concat] in Hin.
      rewrite app_nil_r in Hin.
      destruct Hgroup as (dp & Hdp' & Hconcat & Hrequests & _).
      cbn [fst snd] in *. rewrite Hdp in Hdp'. injection Hdp' as <-.
      rewrite Forall_forall in Hrequests.
      destruct (Hrequests promise Hin) as (_ & Hnonempty & _ & Hrequest).
      rewrite Hrequest in Hresult.
      rewrite (chunk_of_singleton ps promise _ symbol Hconcat) in Hresult;
        auto.
      unfold symbolsToFetch. cbn [filter map].
      destruct (keepSymbol this dataProvider None _); cbn; auto.
    + now right; left.
Qed.

(** *** getAssetProfiles *)

Lemma requestProfiles_inv :
  forall (this : DataProviderService) (dataSource : DataSource)
         (symbols : list string) (log : list Event)
         (promises : list PendingProfile),
    requestProfiles this dataSource symbols = (log, inr promises) ->
    log = []
    /\ Forall2 (profileOf this) (map (pair dataSource) symbols) promises.
Proof using.
  intros this dataSource.
  induction symbols as [|s symbols IH]; intros log promises Hrun.
  - injection Hrun as <- <-. split; constructor.
  - cbn [requestProfiles] in Hrun.
    destruct (getDataProvider this dataSource) as [e|dataProvider] eqn:Hdp;
      [discriminate Hrun|].
    cbn [settle bind app] in Hrun.
    destruct (requestProfiles this dataSource symbols)
      as [log' [e|promises']] eqn:Hrest; [discriminate Hrun|].
    cbn in Hrun. injection Hrun as <- <-.
    destruct (IH _ _ eq_refl) as [-> Hall]. split; [reflexivity|].
    constructor; [|exact Hall].
    split; [reflexivity|]. now exists dataProvider.
Qed.

Lemma requestProfileGroups_inv :
  forall (this : DataProviderService)
         (groups : list (string * list AssetProfileIdentifier))
         (log : list Event) (promises : list PendingProfile),
    requestProfileGroups this groups = (log, inr promises) ->
    log = [] /\ Forall2 (profileOf this) (profileRequests groups) promises.
Proof using.
  intros this. induction groups as [|[ds ids] groups IH];
    intros log promises Hrun.
  - injection Hrun as <- <-. split; constructor.
  - cbn [requestProfileGroups] in Hrun.
    destruct (requestProfiles this ds (map symbol ids))
      as [log1 [e|promises1]] eqn:Hfirst; [discriminate Hrun|].
    cbn [bind] in Hrun.
    destruct (requestProfileGroups this groups)
      as [log2 [e|promises2]] eqn:Hrest; [discriminate Hrun|].
    cbn in Hrun. injection Hrun as <- <-.
    destruct (requestProfiles_inv _ _ _ _ _ Hfirst) as [-> Hall1].
    destruct (IH _ _ eq_refl) as [-> Hall2]. split; [reflexivity|].
    unfold profileRequests. cbn [flat_map fst snd].
    apply Forall2_app; [|exact Hall2].
    now rewrite map_map in Hall1.
Qed.

Lemma requestProfileGroups_trace :
  forall (this : DataProviderService)
         (groups : list (string * list AssetProfileIdentifier)),
    trace (requestProfileGroups this groups) = [].
Proof using.
  intros this. induction groups as [|[ds ids] groups IH]; [reflexivity|].
  cbn [requestProfileGroups]. rewrite trace_bind.
  assert (Hinner : forall symbols,
             trace (requestProfiles this ds symbols) = []).
  { induction symbols as [|s symbols IHs]; [reflexivity|].
    cbn [requestProfiles]. rewrite trace_bind.
    destruct (getDataProvider this ds); [reflexivity|].
    cbn [settle trace outcome fst snd app]. rewrite trace_bind, IHs.
    destruct (outcome (requestProfiles this ds symbols)); reflexivity. }
  rewrite Hinner. cbn [app].
  destruct (outcome (requestProfiles this ds (map symbol ids)));
    [reflexivity|].
  rewrite trace_bind, IH.
  destruct (outcome (requestProfileGroups this groups)); reflexivity.
Qed.

Lemma profileRequests_In :
  forall (items : list AssetProfileIdentifier) (ds s : string),
    In (ds, s) (profileRequests (groupBy dataSource items))
    <-> exists i, In i items /\ dataSource i = ds /\ symbol i = s.
Proof using.
  intros items ds s.
  destruct (groupBy_spec _ dataSource items) as (_ & Hgroups & Hkeys).
  unfold profileRequests. rewrite in_flat_map. split.
  - intros ((k, ids) & Hgroup & Hin). cbn [fst snd] in Hin.
    apply in_map_iff in Hin. destruct Hin as (i & Heq & Hi).
    injection Heq as Hk Hs. subst k.
    destruct (Hgroups _ _ Hgroup) as (Hids & _).
    rewrite Hids in Hi. apply filter_In in Hi. destruct Hi as (Hi & Hds).
    apply String.eqb_eq in Hds. now exists i.
  - intros (i & Hi & <- & <-).
    pose proof (Hkeys i Hi) as Hkey. apply in_map_iff in Hkey.
    destruct Hkey as ((k, ids) & Heq & Hgroup). cbn [fst] in Heq. subst k.
    exists (dataSource i, ids). split; [exact Hgroup|].
    cbn [fst snd]. apply in_map_iff. exists i. split; [reflexivity|].
    destruct (Hgroups _ _ Hgroup) as (-> & _).
    apply filter_In. split; [exact Hi|apply String.eqb_refl].
Qed.

Lemma assignProfiles_inv :
  forall (settled : list PendingProfile)
         (r response : Js.obj SymbolProfile) (log : list Event),
    assignProfiles settled r = (log, inr response) ->
    log = []
    /\ (forall promise,
           In promise settled ->
           exists profile,
             Js.get (profileSymbol promise) response = Some profile)
    /\ (forall s profile,
           Js.get s response = Some profile ->
           Js.get s r = Some profile
           \/ exists promise,
                In promise settled
                /\ profileSymbol promise = s
                /\ profileResult promise = inr profile)
    /\ (forall s profile,
           Js.get s r = Some profile ->
           exists profile', Js.get s response = Some profile').
Proof using.
  induction settled as [|promise settled IH]; intros r response log Hrun.
  - injection Hrun as <- <-. split; [reflexivity|]. split; [intros ? []|].
    split; [now left|]. intros s profile Hget. now exists profile.
  - cbn [assignProfiles] in Hrun.
    destruct (profileResult promise) as [e|v] eqn:Hresult;
      [discriminate Hrun|].
    cbn [settle bind app] in Hrun.
    destruct (assignProfiles settled _) as [log' [e|response']] eqn:Hrest;
      [discriminate Hrun|].
    cbn in Hrun. injection Hrun as <- <-.
    destruct (IH _ _ _ Hrest) as (-> & Hall & Hsound & Hkept).
    split; [reflexivity|]. split; [|split].
    + intros p [<-|Hp]; [|now apply Hall].
      apply (Hkept _ v). apply get_set_same.
    + intros s profile Hget.
      destruct (Hsound _ _ Hget) as [Hset|(p & Hp & Hs & Hr)].
      * rewrite get_set in Hset.
        destruct (String.eqb s (profileSymbol promise)) eqn:Hs.
        -- apply String.eqb_eq in Hs. injection Hset as <-.
           right. exists promise. split; [now left|]. now split.
        -- now left.
      * right. exists p. split; [now right|]. now split.
    + intros s profile Hget.
      destruct (String.eqb s (profileSymbol promise)) eqn:Hs.
      * apply String.eqb_eq in Hs. subst s.
        apply (Hkept _ v). apply get_set_same.
      * apply String.eqb_neq in Hs. apply (Hkept _ profile).
        now rewrite get_set_other.
Qed.

(** X19. When [getAssetProfiles] returns, its response is complete and
    sound: it holds a profile for the symbol of every requested item,
    every data source of which has a provider; and every profile that it
    holds is the one that the provider of a requested item returned for
    that symbol. *)
Theorem getAssetProfiles_complete_and_sound :
  forall (this : DataProviderService) (items : list AssetProfileIdentifier)
         (response : Js.obj SymbolProfile),
    fairSchedule ->
    outcome (getAssetProfiles this items) = inr response ->
    (forall i,
        In i items ->
        exists dataProvider profile,
          getDataProvider this (dataSource i) = inr dataProvider
          /\ Js.get (symbol i) response = Some profile)
    /\ (forall s profile,
           Js.get s response = Some profile ->
           exists i dataProvider,
             In i items
             /\ symbol i = s
             /\ getDataProvider this (dataSource i) = inr dataProvider
             /\ getAssetProfile dataProvider s = inr profile).
Proof using.
  intros this items response Hfair Hout. unfold getAssetProfiles in Hout.
  destruct (requestProfileGroups this (groupBy dataSource items))
    as [log [e|promises]] eqn:Hrequests; [discriminate Hout|].
  cbn [bind] in Hout.
  destruct (assignProfiles (schedule _ promises) Js.empty)
    as [log' [e|r]] eqn:Hassign; [discriminate Hout|].
  cbn in Hout. injection Hout as ->.
  destruct (requestProfileGroups_inv _ _ _ _ Hrequests) as [-> Hall].
  destruct (assignProfiles_inv _ _ _ _ Hassign)
    as (-> & Hcomplete & Hsound & _).
  split.
  - intros i Hi.
    assert (Hrequest : In (dataSource i, symbol i)
                         (profileRequests (groupBy dataSource items))).
    { apply profileRequests_In. now exists i. }
    destruct (Forall2_In_left _ _ _ _ _ _ Hall Hrequest)
      as (promise & Hcombine & Hsym & dataProvider & Hdp & _).
    cbn [fst snd] in *.
    apply in_combine_r in Hcombine.
    apply (Permutation_in _ (Permutation_sym (Hfair _ promises)))
      in Hcombine.
    destruct (Hcomplete _ Hcombine) as (profile & Hget).
    exists dataProvider, profile. split; [exact Hdp|].
    now rewrite <- Hsym.
  - intros s profile Hget.
    destruct (Hsound _ _ Hget) as [Hempty|(promise & Hp & Hs & Hr)];
      [discriminate Hempty|].
    apply (Permutation_in _ (Hfair _ promises)) in Hp.
    destruct (Forall2_In_right _ _ _ _ _ _ Hall Hp)
      as ((ds, s') & Hrequest & Hsym & dataProvider & Hdp & Hresult).
    cbn [fst snd] in *.
    apply profileRequests_In in Hrequest.
    destruct Hrequest as (i & Hi & <- & <-).
    exists i, dataProvider. split; [exact Hi|].
    split; [now rewrite <- Hs|]. split; [exact Hdp|].
    rewrite <- Hs, Hsym, <- Hresult. exact Hr.
Qed.

Lemma requestProfiles_fails :
  forall (this : DataProviderService) (dataSource : DataSource)
         (symbols : list string) (e : Exception),
    symbols <> [] ->
    getDataProvider this dataSource = inl e ->
    outcome (requestProfiles this dataSource symbols) = inl e.
Proof using.
  intros this dataSource [|s symbols] e Hnonempty Hfail; [contradiction|].
  cbn [requestProfiles]. now rewrite Hfail.
Qed.

Lemma requestProfiles_error :
  forall (this : DataProviderService) (dataSource : DataSource)
         (symbols : list string) (e : Exception),
    outcome (requestProfiles this dataSource symbols) = inl e ->
    e = Error "No data provider has been found.".
Proof using.
  intros this dataSource. induction symbols as [|s symbols IH]; intros e.
  - discriminate.
  - cbn [requestProfiles]. rewrite outcome_bind.
    destruct (getDataProvider this dataSource) as [e'|dataProvider] eqn:Hdp.
    + cbn. intros H. injection H as <-.
      exact (getDataProviderFrom_error _ _ _ _ Hdp).
    + cbn [settle outcome snd]. rewrite outcome_bind.
      destruct (outcome (requestProfiles this dataSource symbols))
        as [e'|promises] eqn:Hrest.
      * intros H. injection H as <-. now apply IH.
      * discriminate.
Qed.

Lemma requestProfileGroups_fails :
  forall (this : DataProviderService)
         (groups : list (string * list AssetProfileIdentifier))
         (ds s : string) (e : Exception),
    In (ds, s) (profileRequests groups) ->
    getDataProvider this ds = inl e ->
    outcome (requestProfileGroups this groups)
    = inl (Error "No data provider has been found.").
Proof using.
  intros this groups ds s e. induction groups as [|[k ids] groups IH];
    intros Hin Hfail.
  - destruct Hin.
  - cbn [requestProfileGroups]. rewrite outcome_bind.
    destruct (outcome (requestProfiles this k (map symbol ids)))
      as [e'|promises] eqn:Hfirst.
    + f_equal. exact (requestProfiles_error _ _ _ _ Hfirst).
    + unfold profileRequests in Hin. cbn [flat_map fst snd] in Hin.
      apply in_app_or in Hin. destruct Hin as [Hin|Hin].
      * exfalso. apply in_map_iff in Hin. destruct Hin as (i & Heq & Hi).
        injection Heq as Hk Hs. subst k.
        rewrite (requestProfiles_fails this ds (map symbol ids) e)
          in Hfirst; [discriminate Hfirst| |exact Hfail].
        destruct ids; [destruct Hi|discriminate].
      * rewrite outcome_bind. now rewrite (IH Hin Hfail).
Qed.

Lemma assignProfiles_rejects :
  forall (settled : list PendingProfile) (r : Js.obj SymbolProfile)
         (promise : PendingProfile) (e : Exception),
    In promise settled ->
    profileResult promise = inl e ->
    exists promise' e',
      In promise' settled
      /\ profileResult promise' = inl e'
      /\ assignProfiles settled r = ([], inl e').
Proof using.
  induction settled as [|p settled IH]; intros r promise e Hin Hfail.
  - destruct Hin.
  - cbn [assignProfiles].
    destruct (profileResult p) as [e0|v] eqn:Hp.
    + exists p, e0. split; [now left|]. now split.
    + destruct Hin as [->|Hin]; [rewrite Hfail in Hp; discriminate Hp|].
      destruct (IH (Js.set (profileSymbol p) v r) promise e Hin Hfail)
        as (promise' & e' & Hin' & Hfail' & Hrun).
      exists promise', e'. split; [now right|]. split; [exact Hfail'|].
      cbn [settle bind app]. now rewrite Hrun.
Qed.

(** X20. [getAssetProfiles] returns no partial response.  When a
    requested item has a data source without provider, the call throws
    'No data provider has been found.' and nothing is logged.  When the
    requests have been made and one of them rejects, the call fails with
    the rejection of one of the requests, logged once before it is
    thrown again. *)
Theorem getAssetProfiles_rejects :
  forall (this : DataProviderService) (items : list AssetProfileIdentifier),
    fairSchedule ->
    (forall i e,
        In i items ->
        getDataProvider this (dataSource i) = inl e ->
        getAssetProfiles this items
        = ([], inl (Error "No data provider has been found.")))
    /\ (forall promises promise e,
           outcome (requestProfileGroups this (groupBy dataSource items))
           = inr promises ->
           In promise promises ->
           profileResult promise = inl e ->
           exists promise' e',
             In promise' promises
             /\ profileResult promise' = inl e'
             /\ getAssetProfiles this items
                = ([LoggerError e' "DataProviderService"], inl e')).
Proof using.
  intros this items Hfair. split.
  - intros i e Hi Hfail. unfold getAssetProfiles.
    pose proof (requestProfileGroups_trace this (groupBy dataSource items))
      as Htrace.
    assert (Hout : outcome (requestProfileGroups this
                              (groupBy dataSource items))
                   = inl (Error "No data provider has been found.")).
    { apply (requestProfileGroups_fails this _ (dataSource i) (symbol i) e);
        [|exact Hfail].
      apply profileRequests_In. now exists i. }
    destruct (requestProfileGroups this (groupBy dataSource items))
      as [log r]. cbn in Htrace, Hout. subst log r. reflexivity.
  - intros promises promise e Hout Hin Hfail. unfold getAssetProfiles.
    pose proof (requestProfileGroups_trace this (groupBy dataSource items))
      as Htrace.
    destruct (requestProfileGroups this (groupBy dataSource items))
      as [log r]. cbn in Htrace, Hout. subst log r.
    cbn [bind app].
    assert (Hscheduled : In promise (schedule _ promises)).
    { apply (Permutation_in _ (Permutation_sym (Hfair _ promises))), Hin. }
    destruct (assignProfiles_rejects _ Js.empty _ _ Hscheduled Hfail)
      as (promise' & e' & Hin' & Hfail' & Hrun).
    exists promise', e'.
    split; [exact (Permutation_in _ (Hfair _ promises) Hin')|].
    split; [exact Hfail'|]. now rewrite Hrun.
Qed.

(** X22. A provider whose maximum number of symbols per request is 0
    stalls [getQuotes]: when the first data source with items to fetch
    has such a provider and at least one symbol passes its filter, the
    loop over the chunks never advances (however many rounds it is
    given), and [getQuotes] does not return. *)
Theorem getQuotes_zero_maximum :
  forall (this : DataProviderService) (items : list AssetProfileIdentifier)
         (requestTimeout : option Z) (useCache : bool)
         (user : option User.t) (dataSource' : DataSource)
         (assetProfileIdentifiers : list AssetProfileIdentifier)
         (rest : list (string * list AssetProfileIdentifier))
         (dataProvider : DataProviderInterface.t),
    groupBy dataSource (itemsToFetch this useCache items)
    = (dataSource', assetProfileIdentifiers) :: rest ->
    getDataProvider this dataSource' = inr dataProvider ->
    DataProviderInterface.getMaxNumberOfSymbolsPerRequest dataProvider
    = Some 0%N ->
    symbolsToFetch this dataProvider user assetProfileIdentifiers <> [] ->
    (forall fuel,
        outcome (requestChunks fuel dataSource' dataProvider requestTimeout
                   (symbolsToFetch this dataProvider user
                      assetProfileIdentifiers)
                   0 0)
        = inl DoesNotTerminate)
    /\ outcome (getQuotes this items requestTimeout useCache user)
       = inl DoesNotTerminate.
Proof using.
  intros this items requestTimeout useCache user ds ids rest dataProvider
    Hgroups Hdp Hmax Hsymbols.
  assert (Hstalls :
           forall fuel,
             outcome (requestChunks fuel ds dataProvider requestTimeout
                        (symbolsToFetch this dataProvider user ids) 0 0)
             = inl DoesNotTerminate).
  { intros fuel. apply requestChunks_diverges.
    destruct (symbolsToFetch this dataProvider user ids);
      [contradiction|cbn; lia]. }
  split; [exact Hstalls|].
  assert (Hupstream :
            outcome (upstreamRequests this items requestTimeout useCache
                       user)
            = inl DoesNotTerminate).
  { unfold upstreamRequests.
    rewrite Hgroups. cbn [requestGroups]. rewrite Hdp.
    rewrite outcome_bind. cbn [settle outcome snd].
    unfold maximumNumberOfSymbolsPerRequest. rewrite Hmax.
    rewrite outcome_bind, Hstalls. reflexivity. }
  rewrite getQuotes_unfold. unfold outcome at 1. cbn [snd].
  now rewrite Hupstream.
Qed.

End DataProviderService.

(** ** The daily limit of the gateway *)

(** C5. Each of the data endpoints (asset-profile, dividends, historical,
    lookup, quotes) first reads the maximum of daily requests.  When the
    user's count of daily requests exceeds it, the endpoint fails with 429
    TOO_MANY_REQUESTS and calls nothing else.  Otherwise it calls the service
    once; when that call and the increment succeed it returns the result,
    having incremented the count exactly once; when the call fails nothing is
    incremented and the endpoint fails with 500. *)
Theorem daily_limit_enforced :
  forall (AssetProfileResponse DividendsResponse HistoricalResponse
            LookupResponse QuotesResponse : Type)
         (parseDate : string -> Js.Date) (isISIN : string -> bool)
         (toUpperCase toLowerCase : string -> string)
         (this : GhostfolioController.t AssetProfileResponse DividendsResponse
                   HistoricalResponse LookupResponse QuotesResponse)
         (symbol queryFrom queryTo includeIndicesParam query : string)
         (queryGranularity : option string) (querySymbols : list string),
    let service := GhostfolioController.ghostfolioService _ _ _ _ _ this in
    GhostfolioController.rateLimited _ _ _ _ _ this
      (GhostfolioController.getAssetProfile _ _ _ _ _ this symbol)
      (GetAssetProfile symbol)
      (GhostfolioService.getAssetProfile service symbol)
    /\ GhostfolioController.rateLimited _ _ _ _ _ this
         (GhostfolioController.getDividends _ _ _ _ _ parseDate this symbol
            queryFrom queryGranularity queryTo)
         (GetDividends symbol (parseDate queryFrom) queryGranularity
            (parseDate queryTo))
         (GhostfolioService.getDividends service symbol (parseDate queryFrom)
            queryGranularity (parseDate queryTo))
    /\ GhostfolioController.rateLimited _ _ _ _ _ this
         (GhostfolioController.getHistorical _ _ _ _ _ parseDate this symbol
            queryFrom queryGranularity queryTo)
         (GetHistorical symbol (parseDate queryFrom) queryGranularity
            (parseDate queryTo))
         (GhostfolioService.getHistorical service symbol (parseDate queryFrom)
            queryGranularity (parseDate queryTo))
    /\ GhostfolioController.rateLimited _ _ _ _ _ this
         (GhostfolioController.lookupSymbol _ _ _ _ _ isISIN toUpperCase
            toLowerCase this includeIndicesParam query)
         (Lookup (String.eqb includeIndicesParam "true")
            (if isISIN (toUpperCase query) then toUpperCase query
             else toLowerCase query))
         (GhostfolioService.lookup service
            (String.eqb includeIndicesParam "true")
            (if isISIN (toUpperCase query) then toUpperCase query
             else toLowerCase query))
    /\ GhostfolioController.rateLimited _ _ _ _ _ this
         (GhostfolioController.getQuotes _ _ _ _ _ this querySymbols)
         (GetQuotes querySymbols)
         (GhostfolioService.getQuotes service querySymbols).
Proof.
  intros. subst service.
  unfold GhostfolioController.rateLimited,
    GhostfolioController.getAssetProfile, GhostfolioController.getDividends,
    GhostfolioController.getHistorical, GhostfolioController.lookupSymbol,
    GhostfolioController.getQuotes,
    GhostfolioController.awaitMaxDailyRequests,
    GhostfolioController.awaitIncrementDailyRequests,
    tryCatch, emit, settle, throw, ret.
  destruct this as [service u]. cbn [GhostfolioController.ghostfolioService
                                      GhostfolioController.user].
  destruct (GhostfolioService.getMaxDailyRequests service) as [e|maximum];
    cbn [bind app].
  { repeat split. }
  destruct (maximum <? RequestUser.dataProviderGhostfolioDailyRequests u)%Z.
  { repeat split. }
  destruct (GhostfolioService.incrementDailyRequests service
              (RequestUser.id u)) as [e|[]];
    repeat split;
    match goal with
    | |- context [match ?call with inl _ => _ | inr _ => _ end] =>
        destruct call; reflexivity
    end.
Qed.
Lemma ascii_compare_trans_lt (a b c : ascii) :
  Ascii.compare a b = Lt -> Ascii.compare b c = Lt -> Ascii.compare a c = Lt.
Proof.
  unfold Ascii.compare. rewrite !N.compare_lt_iff. lia.
Qed.

Lemma string_compare_le_trans (a : string) :
  forall b c,
    String.compare a b <> Gt -> String.compare b c <> Gt ->
    String.compare a c <> Gt.
Proof.
  induction a as [|x a IH]; intros [|y b] [|z c]; cbn; try congruence.
  destruct (Ascii.compare x y) eqn:Hxy; try congruence;
    destruct (Ascii.compare y z) eqn:Hyz; try congruence; intros Hab Hbc.
  - apply Ascii.compare_eq_iff in Hxy, Hyz. subst.
    assert (Hzz : Ascii.compare z z = Eq)
      by (unfold Ascii.compare; apply N.compare_refl).
    rewrite Hzz. now apply IH with b.
  - apply Ascii.compare_eq_iff in Hxy. subst. now rewrite Hyz.
  - apply Ascii.compare_eq_iff in Hyz. subst. now rewrite Hxy.
  - now rewrite (ascii_compare_trans_lt _ _ _ Hxy Hyz).
Qed.


(** ** The sample deployment satisfies the assumptions *)

Lemma sample_schedule_fair : fairSchedule Sample.schedule.
Proof. intros A promises. apply Permutation_refl. Qed.

Lemma sample_scheduleReversed_fair : fairSchedule Sample.scheduleReversed.
Proof.
  intros A promises. apply Permutation_sym, Permutation_rev.
Qed.

Lemma sample_derived_wellFormed :
  wellFormedDerivedCurrencies Sample.DERIVED_CURRENCIES.
Proof.
  split; [|split].
  - cbn. repeat constructor; cbn; intuition discriminate.
  - intros d d' Hd Hd'. cbn in Hd, Hd'.
    repeat (destruct Hd as [<-|Hd]; [
      repeat (destruct Hd' as [<-|Hd']; [discriminate|]);
      contradiction |]).
    contradiction.
  - intros d Hd. cbn in Hd.
    repeat (destruct Hd as [<-|Hd]; [discriminate|]). contradiction.
Qed.


Lemma sample_derivedPairsRecognised :
  derivedPairsRecognised Sample.DEFAULT_CURRENCY Sample.DERIVED_CURRENCIES
    Sample.getCurrencyFromSymbol Sample.isCurrency Sample.isDerivedCurrency.
Proof.
  intros d Hd. cbn in Hd.
  repeat (destruct Hd as [<-|Hd]; [split; reflexivity|]). contradiction.
Qed.

Lemma sample_pairUSXRecognised :
  pairUSXRecognised Sample.DEFAULT_CURRENCY Sample.getCurrencyFromSymbol
    Sample.isCurrency Sample.isDerivedCurrency.
Proof. split; reflexivity. Qed.

Lemma sample_no_derived_USX :
  forall d, In d Sample.DERIVED_CURRENCIES -> Derived.currency d <> "USX"%string.
Proof.
  intros d Hd. cbn in Hd.
  repeat (destruct Hd as [<-|Hd]; [discriminate|]). contradiction.
Qed.

Lemma quotesFor_keys (table : Js.obj Quote.t) (symbols : list string) k :
  In k (Js.keys (Sample.quotesFor table symbols)) ->
  In k symbols /\ In k (Js.keys table).
Proof.
  unfold Js.keys, Sample.quotesFor. intros Hin.
  apply in_map_iff in Hin. destruct Hin as ((k', q) & <- & Hin).
  apply filter_In in Hin. destruct Hin as (Hin & Hk). cbn in *. split.
  - unfold Js.includes in Hk. apply existsb_exists in Hk.
    destruct Hk as (s & Hs & Heq). apply String.eqb_eq in Heq. now subst.
  - apply in_map_iff. now exists (k', q).
Qed.

Lemma quotesFor_wf (table : Js.obj Quote.t) (symbols : list string) :
  Js.wf table -> Js.wf (Sample.quotesFor table symbols).
Proof.
  unfold Js.wf, Js.keys, Sample.quotesFor.
  induction table as [|(k, q) table IH]; cbn; intros Hwf; [constructor|].
  inversion Hwf as [|? ? Hnotin Hrest]; subst.
  destruct (Js.includes k symbols); cbn; [constructor|]; auto.
  intros Hin. apply Hnotin. apply in_map_iff in Hin.
  destruct Hin as ((k', q') & Hk & Hin). apply filter_In in Hin.
  apply in_map_iff. exists (k', q'). now split.
Qed.

Lemma sample_provider_results (dataProvider : DataProviderInterface.t)
    (requestTimeout : option Z) (symbols : list string)
    (result : Js.obj Quote.t) :
  In dataProvider (dataProviderInterfaces Sample.this) ->
  DataProviderInterface.getQuotes dataProvider requestTimeout symbols
  = inr result ->
  exists table,
    Js.wf table /\ result = Sample.quotesFor table symbols.
Proof.
  intros Hin Hresult.
  cbn in Hin. destruct Hin as [<-|[<-|[<-|[]]]].
  - exists Sample.yahooQuotes. split; [|now inversion Hresult].
    unfold Js.wf. cbn. repeat constructor; cbn; intuition discriminate.
  - exists Sample.premiumQuotes. split; [|now inversion Hresult].
    unfold Js.wf. cbn. repeat constructor; cbn; intuition discriminate.
  - exists Js.empty. split; [constructor|now inversion Hresult].
Qed.

Lemma sample_results_are_objects : resultsAreObjects Sample.this.
Proof.
  intros dataProvider requestTimeout symbols result Hin Hresult.
  destruct (sample_provider_results _ _ _ _ Hin Hresult) as (table & Hwf & ->).
  now apply quotesFor_wf.
Qed.

Lemma sample_results_answer_requests : resultsAnswerRequests Sample.this.
Proof.
  intros dataProvider requestTimeout symbols result k Hin Hresult Hk.
  destruct (sample_provider_results _ _ _ _ Hin Hresult) as (table & Hwf & ->).
  now apply quotesFor_keys in Hk.
Qed.

(** ** The theorems at the sample deployment *)

Abbreviation sampleGetQuotes :=
  (getQuotes Sample.DEFAULT_CURRENCY Sample.DERIVED_CURRENCIES
     Sample.getCurrencyFromSymbol Sample.getStartOfUtcDate Sample.isCurrency
     Sample.isDerivedCurrency Sample.Big_mul_toNumber Sample.JSON_parse
     Sample.JSON_stringify Sample.now Sample.schedule).

Abbreviation sampleUpstreamRequests :=
  (upstreamRequests Sample.DEFAULT_CURRENCY Sample.getCurrencyFromSymbol
     Sample.isCurrency Sample.isDerivedCurrency Sample.JSON_parse).

Abbreviation sampleItemsToFetch :=
  (itemsToFetch Sample.DEFAULT_CURRENCY Sample.JSON_parse).

Abbreviation sampleCachedQuote := (cachedQuote Sample.JSON_parse).

Abbreviation sampleGetHistoricalRaw :=
  (getHistoricalRaw Sample.DEFAULT_CURRENCY Sample.DERIVED_CURRENCIES
     Sample.DATE_FORMAT Sample.Big_mul_toNumber Sample.format
     Sample.eachDayOfInterval Sample.schedule).

Abbreviation sampleSearch :=
  (search Sample.DEFAULT_CURRENCY Sample.PROPERTY_API_KEY_GHOSTFOLIO
     Sample.hasRole Sample.toLowerCase Sample.localeCompare_le
     Sample.schedule).



(** The sample portfolio: the provider answers 0.75 for USDGBP, so the
    response holds USDGBp at 75, with the data source of the root quote and
    the market state open, and USDGBp is in no upstream request. *)
Lemma derived_quotes_follow_root_witness :
  (forall name timeout symbols,
      In (ProviderGetQuotes name timeout symbols)
        (trace (sampleGetQuotes Sample.this Sample.items None true None)) ->
      ~ In "USDGBp"%string symbols)
  /\ exists response,
       outcome (sampleGetQuotes Sample.this Sample.items None true None)
       = inr response
       /\ Js.get "USDGBP" response
          = Some (Sample.quote "GBP" "YAHOO" 0.75 "open")
       /\ Js.get "USDGBp" response
          = Some (Sample.quote "GBp" "YAHOO" 75 "open").
Proof.
  destruct (derived_quotes_follow_root Sample.DEFAULT_CURRENCY
              Sample.DERIVED_CURRENCIES Sample.getCurrencyFromSymbol
              Sample.getStartOfUtcDate Sample.isCurrency
              Sample.isDerivedCurrency Sample.Big_mul_toNumber
              Sample.JSON_parse Sample.JSON_stringify Sample.now
              Sample.schedule Sample.this Sample.items None true None
              sample_derived_wellFormed sample_derivedPairsRecognised
              sample_results_are_objects sample_schedule_fair)
    as (Hnever & _ & Hderived).
  split.
  - intros name timeout symbols Hin. apply (Hnever _ _ _ _ Hin).
    cbn. auto.
  - destruct (outcome (sampleGetQuotes Sample.this Sample.items None true
                         None))
      as [e|response] eqn:Hout; [vm_compute in Hout; discriminate|].
    exists response. split; [reflexivity|].
    destruct (Hderived response
                [ {| pendingDataSource := "YAHOO";
                     pendingSymbolsChunk := ["USDGBP"%string];
                     pendingResult :=
                       inr [("USDGBP"%string,
                             Sample.quote "GBP" "YAHOO" 0.75 "open")] |};
                  {| pendingDataSource := "FINANCIAL_MODELING_PREP";
                     pendingSymbolsChunk := ["NVDA"; "USDEUR"]%string;
                     pendingResult :=
                       inr [("NVDA"%string,
                             Sample.quote "USD" "FINANCIAL_MODELING_PREP"
                               120 "delayed");
                            ("USDEUR"%string,
                             Sample.quote "EUR" "FINANCIAL_MODELING_PREP"
                               0.875 "open")] |};
                  {| pendingDataSource := "FINANCIAL_MODELING_PREP";
                     pendingSymbolsChunk := ["BTCUSD"%string];
                     pendingResult := inr [] |} ]
                {| pendingDataSource := "YAHOO";
                   pendingSymbolsChunk := ["USDGBP"%string];
                   pendingResult :=
                     inr [("USDGBP"%string,
                           Sample.quote "GBP" "YAHOO" 0.75 "open")] |}
                [("USDGBP"%string, Sample.quote "GBP" "YAHOO" 0.75 "open")]
                {| Derived.currency := "GBp"; Derived.factor := 100;
                   Derived.rootCurrency := "GBP" |}
                (Sample.quote "GBP" "YAHOO" 0.75 "open"))
      as (rootQuote & price & (promise' & result' & Hin & Hres & Hroot)
          & Hget & Hprice & Hgot).
    + reflexivity.
    + reflexivity.
    + left. reflexivity.
    + reflexivity.
    + left. reflexivity.
    + reflexivity.
    + cbn in Hin. destruct Hin as [<-|[<-|[<-|[]]]];
        cbn in Hres; injection Hres as <-; cbn in Hroot;
        try discriminate Hroot.
      injection Hroot as <-. cbn in Hprice. injection Hprice as <-.
      split; [exact Hget|exact Hgot].
Defined.


(** The sample portfolio read by a user with a Basic subscription: NVDA, a
    symbol of the premium provider only, is in no upstream request and not in
    the response; MSFT, of the premium provider as well, is in the response
    with its cached quote only. *)
Lemma premium_symbols_not_fetched_witness :
  (forall name timeout symbols,
      In (ProviderGetQuotes name timeout symbols)
        (trace (sampleGetQuotes Sample.this Sample.items None true
                  (Some Sample.basicUser))) ->
      ~ In "NVDA"%string symbols)
  /\ exists response,
       outcome (sampleGetQuotes Sample.this Sample.items None true
                  (Some Sample.basicUser))
       = inr response
       /\ Js.get "NVDA" response = None
       /\ (forall q,
              Js.get "MSFT" response = Some q ->
              q = Sample.quote "USD" "FINANCIAL_MODELING_PREP" 410 "open").
Proof.
  destruct (premium_symbols_not_fetched Sample.DEFAULT_CURRENCY
              Sample.DERIVED_CURRENCIES Sample.getCurrencyFromSymbol
              Sample.getStartOfUtcDate Sample.isCurrency
              Sample.isDerivedCurrency Sample.Big_mul_toNumber
              Sample.JSON_parse Sample.JSON_stringify Sample.now
              Sample.schedule Sample.this Sample.items None true
              Sample.basicUser eq_refl eq_refl)
    as (Hrequests & _ & Hresponse).
  specialize (Hresponse sample_schedule_fair sample_derivedPairsRecognised
                sample_pairUSXRecognised sample_results_answer_requests).
  assert (Hpremium :
           forall s, s = "NVDA"%string \/ s = "MSFT"%string ->
           forall i dataProvider,
             In i Sample.items -> symbol i = s ->
             getDataProvider Sample.this (dataSource i) = inr dataProvider ->
             Info.isPremium
               (DataProviderInterface.getDataProviderInfo dataProvider)
             = true).
  { intros s Hs i dataProvider Hin Hsym Hdp. cbn in Hin.
    repeat (destruct Hin as [<-|Hin];
            [cbn in Hsym, Hdp; destruct Hs; subst s; try discriminate Hsym;
             injection Hdp as <-; reflexivity|]).
    contradiction. }
  split.
  - intros name timeout symbols Hin Hs.
    destruct (Hrequests _ _ _ _ Hin Hs)
      as (i & dataProvider & Hi & Hsym & Hdp & _ & Hcurrency).
    assert (Hfalse : Sample.isCurrency
                       (Sample.getCurrencyFromSymbol "NVDA") = true);
      [|discriminate Hfalse].
    apply Hcurrency. apply (Hpremium "NVDA"%string (or_introl eq_refl) i);
      [|exact Hsym|exact Hdp].
    cbn in Hi. cbn.
    repeat (destruct Hi as [<-|Hi]; [tauto|]). contradiction.
  - destruct (outcome (sampleGetQuotes Sample.this Sample.items None true
                         (Some Sample.basicUser)))
      as [e|response] eqn:Hout; [vm_compute in Hout; discriminate|].
    exists response. split; [reflexivity|]. split.
    + destruct (Js.get "NVDA" response) as [q|] eqn:Hget; [|reflexivity].
      destruct (Hresponse response "NVDA"%string q eq_refl eq_refl
                  (Hpremium "NVDA"%string (or_introl eq_refl)) Hget)
        as (i & Hi & Hsym & Hcached).
      cbn in Hi.
      repeat (destruct Hi as [<-|Hi]; [discriminate|]). contradiction.
    + intros q Hget.
      destruct (Hresponse response "MSFT"%string q eq_refl eq_refl
                  (Hpremium "MSFT"%string (or_intror eq_refl)) Hget)
        as (i & Hi & Hsym & Hcached).
      cbn in Hi.
      repeat (destruct Hi as [<-|Hi];
              [try discriminate Hsym; try discriminate Hcached|]);
        [|contradiction].
      cbn in Hcached. now injection Hcached as <-.
Defined.


(** The sample portfolio and the sample history: USDUSX is in no upstream
    request, its quote is 100 with the data source of the exchange rates, and
    its series holds 100 on each day from 2024-01-01 to 2024-01-03. *)
Lemma usx_has_fixed_price_witness :
  (forall name timeout symbols,
      In (ProviderGetQuotes name timeout symbols)
        (trace (sampleGetQuotes Sample.this Sample.items None true None)) ->
      ~ In "USDUSX"%string symbols)
  /\ (exists response,
         outcome (sampleGetQuotes Sample.this Sample.items None true None)
         = inr response
         /\ Js.get "USDUSX" response
            = Some (Sample.quote "USX" "YAHOO" 100 "open"))
  /\ exists result series,
       outcome (sampleGetHistoricalRaw Sample.this
                  [Sample.identifier "YAHOO" "USDUSX"] Sample.from Sample.to)
       = inr result
       /\ Js.get "USDUSX" result = Some (Some series)
       /\ Js.get "day 19724" series
          = Some {| Historical.marketPrice := Js.Number 100 |}.
Proof.
  destruct (usx_has_fixed_price Sample.DEFAULT_CURRENCY
              Sample.DERIVED_CURRENCIES Sample.DATE_FORMAT
              Sample.getCurrencyFromSymbol Sample.getStartOfUtcDate
              Sample.isCurrency Sample.isDerivedCurrency
              Sample.Big_mul_toNumber Sample.format Sample.eachDayOfInterval
              Sample.JSON_parse Sample.JSON_stringify Sample.now
              Sample.schedule Sample.this sample_pairUSXRecognised
              sample_no_derived_USX sample_schedule_fair)
    as (Hquotes & Hhistory).
  destruct (Hquotes Sample.items None true None) as (Hrequests & Hquote).
  split; [exact Hrequests|]. split.
  - destruct (outcome (sampleGetQuotes Sample.this Sample.items None true
                         None))
      as [e|response] eqn:Hout; [vm_compute in Hout; discriminate|].
    exists response. split; [reflexivity|].
    apply Hquote; [| |reflexivity].
    + exists (Sample.identifier "YAHOO" "USDUSX"). split; [|reflexivity].
      cbn. tauto.
    + intros i Hin Hsym. cbn in Hin.
      repeat (destruct Hin as [<-|Hin];
              [try discriminate Hsym; try reflexivity|]).
      contradiction.
  - destruct (outcome (sampleGetHistoricalRaw Sample.this
                         [Sample.identifier "YAHOO" "USDUSX"] Sample.from
                         Sample.to))
      as [e|result] eqn:Hout; [vm_compute in Hout; discriminate|].
    destruct (Hhistory [Sample.identifier "YAHOO" "USDUSX"] Sample.from
                Sample.to (Sample.identifier "YAHOO" "USDUSX") Sample.yahoo
                result)
      as (days & series & Hdays & Hget & Heach & _).
    + left. reflexivity.
    + reflexivity.
    + reflexivity.
    + reflexivity.
    + exact Hout.
    + exists result, series. split; [reflexivity|]. split; [exact Hget|].
      cbn in Hdays. injection Hdays as <-.
      destruct (Heach (Some 1704153600000%Z)) as (key & Hkey & Hday).
      * cbn. tauto.
      * cbn in Hkey. injection Hkey as <-. exact Hday.
Defined.

(** A call that fails: AAPL is asked from YAHOO and BTCUSD from a provider
    whose requests are rejected.  The call is rejected, and the callback of
    the request to YAHOO still runs: the store is called once, with AAPL at
    181.  And at the sample service, whose store rejects every update, the
    quotes come back as they do with a store that accepts them. *)
Lemma intraday_prices_persisted_witness :
  outcome (sampleGetQuotes Sample.thisWithBroken
             [ Sample.identifier "YAHOO" "AAPL";
               Sample.identifier "COINGECKO" "BTCUSD" ]
             None false None)
  = inl (Error "socket hang up")
  /\ filter isUpdateMany
       (trace (sampleGetQuotes Sample.thisWithBroken
                 [ Sample.identifier "YAHOO" "AAPL";
                   Sample.identifier "COINGECKO" "BTCUSD" ]
                 None false None))
     = [ MarketDataUpdateMany
           [ {| Update.symbol := "AAPL";
                Update.dataSource := "YAHOO";
                Update.date := Some 1762128000000%Z;
                Update.marketPrice := Js.Number 181;
                Update.state := "INTRADAY" |} ] ]
  /\ MarketDataService.updateMany (marketDataService Sample.this) []
     = inl (Error "database is down")
  /\ outcome (sampleGetQuotes
                (withMarketDataService Sample.this
                   {| MarketDataService.updateMany := fun _ => inr tt |})
                Sample.items None true None)
     = outcome (sampleGetQuotes Sample.this Sample.items None true None).
Proof.
  split; [reflexivity|]. split.
  - destruct (intraday_prices_persisted Sample.DEFAULT_CURRENCY
                Sample.DERIVED_CURRENCIES Sample.getCurrencyFromSymbol
                Sample.getStartOfUtcDate Sample.isCurrency
                Sample.isDerivedCurrency Sample.Big_mul_toNumber
                Sample.JSON_parse Sample.JSON_stringify Sample.now
                Sample.schedule Sample.thisWithBroken
                [ Sample.identifier "YAHOO" "AAPL";
                  Sample.identifier "COINGECKO" "BTCUSD" ]
                None false None)
      as (_ & Hupdates & _).
    rewrite Hupdates. reflexivity.
  - split; [reflexivity|].
    apply (intraday_prices_persisted Sample.DEFAULT_CURRENCY
             Sample.DERIVED_CURRENCIES Sample.getCurrencyFromSymbol
             Sample.getStartOfUtcDate Sample.isCurrency
             Sample.isDerivedCurrency Sample.Big_mul_toNumber
             Sample.JSON_parse Sample.JSON_stringify Sample.now
             Sample.schedule Sample.this Sample.items None true None).
Defined.

(** ** Where the behaviour departs from its description *)



(** C6, as first stated, fails when a symbol of a premium provider is asked
    from a second provider as well: a Basic user reads AAPL from the premium
    provider and from YAHOO, without the cache; AAPL is requested from YAHOO
    and is in the response, though no quote came from the cache. *)
Lemma premium_symbols_not_fetched_counterexample :
  User.subscriptionType Sample.basicUser = "Basic"%string
  /\ ConfigurationService.ENABLE_FEATURE_SUBSCRIPTION
       (configurationService Sample.this) = true
  /\ getDataProvider Sample.this "FINANCIAL_MODELING_PREP"
     = inr Sample.premium
  /\ Info.isPremium (DataProviderInterface.getDataProviderInfo Sample.premium)
     = true
  /\ Sample.isCurrency (Sample.getCurrencyFromSymbol "AAPL") = false
  /\ (forall i, sampleCachedQuote Sample.this false i = None)
  /\ filter isProviderGetQuotes
       (trace (sampleGetQuotes Sample.this
                 [ Sample.identifier "FINANCIAL_MODELING_PREP" "AAPL";
                   Sample.identifier "YAHOO" "AAPL" ]
                 None false (Some Sample.basicUser)))
     = [ProviderGetQuotes "YAHOO" None ["AAPL"%string]]
  /\ outcome (sampleGetQuotes Sample.this
                [ Sample.identifier "FINANCIAL_MODELING_PREP" "AAPL";
                  Sample.identifier "YAHOO" "AAPL" ]
                None false (Some Sample.basicUser))
     = inr [("AAPL"%string, Sample.quote "USD" "YAHOO" 181 "open")].
Proof. repeat split; reflexivity. Qed.

(** C7, as first stated, fails when a callback throws.  The request for
    USDCHF, USDGBP and USDZAR is fulfilled, and its result holds USDGBP
    without a price.  The callback adds USDCHF, at 0.5 and open, and USDGBP
    to the response, then throws when big.js is given the missing price of
    USDGBP: the store is not called at all. *)
Lemma intraday_prices_persisted_counterexample :
  DataProviderInterface.getQuotes Sample.eod None
    ["USDCHF"; "USDGBP"; "USDZAR"]%string
  = inr Sample.eodQuotes
  /\ Js.get "USDCHF" Sample.eodQuotes
     = Some (Sample.quote "CHF" "EOD_HISTORICAL_DATA" 0.5 "open")
  /\ trace (sampleGetQuotes Sample.thisWithEod
              [ Sample.identifier "EOD_HISTORICAL_DATA" "USDCHF";
                Sample.identifier "EOD_HISTORICAL_DATA" "USDGBP";
                Sample.identifier "EOD_HISTORICAL_DATA" "USDZAR" ]
              None true None)
     = [ ProviderGetQuotes "EOD_HISTORICAL_DATA" None
           ["USDCHF"; "USDGBP"; "USDZAR"]%string;
         RedisSet "quote-EOD_HISTORICAL_DATA-USDCHF"
           "{CHF EOD_HISTORICAL_DATA open}" 60000;
         RedisSet "quote-EOD_HISTORICAL_DATA-USDGBP"
           "{GBP EOD_HISTORICAL_DATA open}" 60000 ]
  /\ filter isUpdateMany
       (trace (sampleGetQuotes Sample.thisWithEod
                 [ Sample.identifier "EOD_HISTORICAL_DATA" "USDCHF";
                   Sample.identifier "EOD_HISTORICAL_DATA" "USDGBP";
                   Sample.identifier "EOD_HISTORICAL_DATA" "USDZAR" ]
                 None true None))
     = [].
Proof. repeat split; reflexivity. Qed.

(** C9, as first stated, fails twice.  With a quote cached under the key of
    USDUSX, the quote of USDUSX is the cached one, at 99.  And the history of
    USDUSX asked with a data source whose provider declines the symbol holds
    no series at all. *)
Lemma usx_has_fixed_price_counterexample :
  outcome (sampleGetQuotes Sample.thisWithCachedUSX
             [Sample.identifier "YAHOO" "USDUSX"] None true None)
  = inr [("USDUSX"%string, Sample.quote "USX" "YAHOO" 99 "open")]
  /\ getDataProvider Sample.this "RAPID_API" = inr Sample.rapidApi
  /\ DataProviderInterface.canHandle Sample.rapidApi "USDUSX" = false
  /\ sampleGetHistoricalRaw Sample.this
       [Sample.identifier "RAPID_API" "USDUSX"] Sample.from Sample.to
     = ([], inr Js.empty).
Proof. repeat split; reflexivity. Qed.

(** ** Further properties, at closed terms *)

(** *** getDataSources *)

Lemma string_leb_total (a b : string) :
  String.leb a b = true \/ String.leb b a = true.
Proof.
  destruct (String.leb_total a b) as [H|H]; auto.
Qed.

Lemma string_leb_trans (a b c : string) :
  String.leb a b = true -> String.leb b c = true -> String.leb a c = true.
Proof.
  unfold String.leb. intros Hab Hbc.
  pose proof (string_compare_le_trans a b c) as H.
  destruct (String.compare a b); try discriminate;
    destruct (String.compare b c); try discriminate;
    destruct (String.compare a c); try reflexivity;
    exfalso; apply H; congruence.
Qed.

(** X4. [getDataSources] returns its data sources in ascending order.  They
    are the configured data sources (the legacy ones only for a user
    without the role ADMIN created before 2025-03-23, and only when the
    legacy list is not empty), with 'GHOSTFOLIO' added once exactly when it
    is asked for or an API key of Ghostfolio is stored. *)
Theorem getDataSources_sorted :
  forall (PROPERTY_API_KEY_GHOSTFOLIO : string)
         (hasRole : User.t -> string -> bool)
         (this : DataProviderService) (includeGhostfolio : bool)
         (user : User.t),
    StronglySorted (fun a b => String.leb a b = true)
      (getDataSources PROPERTY_API_KEY_GHOSTFOLIO hasRole this
         includeGhostfolio user)
    /\ Permutation
         (getDataSources PROPERTY_API_KEY_GHOSTFOLIO hasRole this
            includeGhostfolio user)
         (configuredDataSources hasRole this user
          ++ if includeGhostfolio
                || hasGhostfolioApiKey PROPERTY_API_KEY_GHOSTFOLIO this
             then ["GHOSTFOLIO"]
             else [])
    /\ (hasRole user "ADMIN" = true
        \/ Js.isBefore (User.createdAt user) date_2025_03_23 = false ->
        configuredDataSources hasRole this user
        = ConfigurationService.DATA_SOURCES (configurationService this)).
Proof.
  intros key hasRole this includeGhostfolio user. split; [|split].
  - unfold getDataSources.
    apply sortBy_sorted; [apply string_leb_total|apply string_leb_trans].
  - unfold getDataSources, configuredDataSources, hasGhostfolioApiKey.
    eapply Permutation_trans; [apply sortBy_perm|].
    destruct (ConfigurationService.DATA_SOURCES_LEGACY
                (configurationService this)) as [[|dataSource rest]|];
      cbn [length Nat.ltb Nat.leb andb];
      rewrite ?andb_false_r, ?andb_true_r;
      destruct (negb (hasRole user "ADMIN")
                && Js.isBefore (User.createdAt user) date_2025_03_23);
      destruct (includeGhostfolio
                || match PropertyService.getByKey (propertyService this) key
                   with
                   | Some k => Js.truthy k
                   | None => false
                   end);
      rewrite ?app_nil_r; apply Permutation_refl.
  - intros Hnew. unfold configuredDataSources.
    destruct (ConfigurationService.DATA_SOURCES_LEGACY
                (configurationService this)) as [[|dataSource rest]|];
      try reflexivity.
    destruct Hnew as [-> | ->]; cbn; rewrite ?andb_false_r; reflexivity.
Qed.

(** *** ShowAccessTokenDialog *)

Lemma dialog_calls (this : ShowAccessTokenDialog.t)
    (cs : list ShowAccessTokenDialog.Call) :
  ShowAccessTokenDialog.isCreateAccountButtonDisabled
    (ShowAccessTokenDialog.calls this cs)
  = ShowAccessTokenDialog.isCreateAccountButtonDisabled this
    && negb (existsb ShowAccessTokenDialog.isEnable cs)
  /\ ShowAccessTokenDialog.disclaimerChecked
       (ShowAccessTokenDialog.calls this cs)
     = xorb (ShowAccessTokenDialog.disclaimerChecked this)
         (Nat.odd (length (filter ShowAccessTokenDialog.isChange cs))).
Proof.
  revert this. induction cs as [|c cs IH]; intros this.
  - cbn. now rewrite andb_true_r, xorb_false_r.
  - unfold ShowAccessTokenDialog.calls in *. cbn [fold_left].
    destruct (IH (ShowAccessTokenDialog.call this c)) as [Hbutton Hcheck].
    rewrite Hbutton, Hcheck. destruct c; cbn.
    + split; [reflexivity|].
      rewrite Nat.odd_succ, <- Nat.negb_odd.
      destruct (ShowAccessTokenDialog.disclaimerChecked this),
        (Nat.odd (length (filter ShowAccessTokenDialog.isChange cs)));
        reflexivity.
    + split; [|reflexivity]. now rewrite andb_false_r.
Qed.

(** X21. The dialog that shows the access token.  Whatever methods the
    template calls and in whatever order, the button that creates the
    account is disabled exactly as long as [enableCreateAccountButton] has
    not been called (changing the disclaimer never disables it again), and
    the disclaimer is checked exactly after an odd number of changes. *)
Theorem dialog_button_stays_enabled :
  forall cs : list ShowAccessTokenDialog.Call,
    ShowAccessTokenDialog.isCreateAccountButtonDisabled
      (ShowAccessTokenDialog.calls ShowAccessTokenDialog.create cs)
    = negb (existsb ShowAccessTokenDialog.isEnable cs)
    /\ ShowAccessTokenDialog.disclaimerChecked
         (ShowAccessTokenDialog.calls ShowAccessTokenDialog.create cs)
       = Nat.odd (length (filter ShowAccessTokenDialog.isChange cs)).
Proof.
  intros cs.
  destruct (dialog_calls ShowAccessTokenDialog.create cs) as [Hbutton Hcheck].
  rewrite Hbutton, Hcheck. split; reflexivity.
Qed.

(** *** The further properties at the sample deployment *)

Abbreviation sampleGetHistorical :=
  (getHistorical Sample.DATE_FORMAT Sample.format).

Abbreviation sampleHistoricalPromises :=
  (historicalPromises Sample.DEFAULT_CURRENCY Sample.DATE_FORMAT
     Sample.format Sample.eachDayOfInterval).

Abbreviation sampleDerivedPairs :=
  (derivedPairs Sample.DEFAULT_CURRENCY Sample.DERIVED_CURRENCIES).

Abbreviation sampleCheckQuote :=
  (checkQuote Sample.DEFAULT_CURRENCY Sample.DERIVED_CURRENCIES
     Sample.getCurrencyFromSymbol Sample.getStartOfUtcDate Sample.isCurrency
     Sample.isDerivedCurrency Sample.Big_mul_toNumber Sample.JSON_parse
     Sample.JSON_stringify Sample.now Sample.schedule Sample.getTestSymbol).

Abbreviation sampleGetAssetProfiles :=
  (getAssetProfiles Sample.schedule Sample.SymbolProfile
     Sample.getAssetProfile).

(** Without a mapping, YAHOO is found by its name and KRAKEN, which no
    interface is named, is not found. *)
Lemma getDataProvider_without_mapping_witness :
  getDataProvider Sample.this "YAHOO" = inr Sample.yahoo
  /\ getDataProvider Sample.this "KRAKEN"
     = inl (Error "No data provider has been found.").
Proof.
  split.
  - rewrite (getDataProvider_without_mapping Sample.this "YAHOO" eq_refl).
    reflexivity.
  - rewrite (getDataProvider_without_mapping Sample.this "KRAKEN" eq_refl).
    reflexivity.
Defined.

(** With YAHOO mapped to the premium provider, the provider returned for
    RAPID_API is registered, and it is the target of the mapping of YAHOO. *)
Lemma getDataProvider_sound_witness :
  In Sample.premium (dataProviderInterfaces Sample.thisWithMapping)
  /\ (DataProviderInterface.getName Sample.premium = "RAPID_API"%string
      \/ exists source,
           In source (dataProviderInterfaces Sample.thisWithMapping)
           /\ Js.get (DataProviderInterface.getName source)
                (dataProviderMapping Sample.thisWithMapping)
              = Some (DataProviderInterface.getName Sample.premium)).
Proof.
  exact (getDataProvider_sound Sample.thisWithMapping "RAPID_API"
           Sample.premium eq_refl).
Defined.

(** With YAHOO, the first interface, mapped to the premium provider, a
    request for a name that no interface has is answered with the premium
    provider. *)
Lemma getDataProvider_redirected_witness :
  getDataProvider Sample.thisWithMapping "KRAKEN" = inr Sample.premium.
Proof.
  apply (getDataProvider_redirected Sample.thisWithMapping "KRAKEN" []
           Sample.yahoo [Sample.premium; Sample.rapidApi] Sample.premium).
  - reflexivity.
  - intros dataProvider [].
  - reflexivity.
Defined.

(** Rows with two prices of AAPL for 2024-01-01: the later row wins. *)
Lemma getHistorical_last_row_wins_witness :
  exists response series,
    outcome (sampleGetHistorical Sample.thisWithTwoSources
               [Sample.identifier "YAHOO" "AAPL"] "day" Sample.from
               Sample.to)
    = inr response
    /\ Js.get "AAPL" response = Some series
    /\ Js.get "day 19723" series
       = Some {| Historical.marketPrice := Js.Number 179 |}.
Proof.
  destruct (getHistorical_last_row_wins Sample.DATE_FORMAT Sample.format
              Sample.thisWithTwoSources [Sample.identifier "YAHOO" "AAPL"]
              "day" Sample.from Sample.to Sample.rowsOfTwoSources)
    as (response & Hout & Hlast & _).
  - discriminate.
  - reflexivity.
  - reflexivity.
  - intros query _. reflexivity.
  - intros row Hin. cbn in Hin.
    repeat (destruct Hin as [<-|Hin]; [reflexivity|]). contradiction.
  - destruct (Hlast Sample.rows
                {| MarketData.date := Some 1704067200000%Z;
                   MarketData.marketPrice := Js.Number 179;
                   MarketData.symbol := "AAPL" |}
                [] "day 19723"%string eq_refl eq_refl)
      as (series & Hseries & Hday).
    + intros row' [].
    + exists response, series. split; [exact Hout|]. now split.
Defined.

(** Rows of which the last has no valid date: the response is empty and
    the error is logged. *)
Lemma getHistorical_invalid_row_witness :
  outcome (sampleGetHistorical Sample.thisWithInvalidRow
             [Sample.identifier "YAHOO" "AAPL"] "day" Sample.from Sample.to)
  = inr Js.empty
  /\ exists query,
      trace (sampleGetHistorical Sample.thisWithInvalidRow
               [Sample.identifier "YAHOO" "AAPL"] "day" Sample.from
               Sample.to)
      = [ PrismaQueryRawUnsafe query;
          LoggerError (Error "Invalid time value") "DataProviderService" ].
Proof.
  apply (getHistorical_invalid_row Sample.DATE_FORMAT Sample.format
           Sample.thisWithInvalidRow [Sample.identifier "YAHOO" "AAPL"]
           "day" Sample.from Sample.to Sample.rowsWithInvalidDate
           {| MarketData.date := None;
              MarketData.marketPrice := Js.Number 179;
              MarketData.symbol := "AAPL" |}).
  - discriminate.
  - reflexivity.
  - reflexivity.
  - intros query _. reflexivity.
  - cbn. auto.
  - reflexivity.
Defined.

(** The history of USDGBP and of BTCUSD, the second from the provider whose
    requests fail: the call fails with the error of that provider, which is
    logged. *)
Lemma getHistoricalRaw_rejects_witness :
  exists e,
    outcome (sampleGetHistoricalRaw Sample.thisWithBroken
               [ Sample.identifier "YAHOO" "USDGBP";
                 Sample.identifier "COINGECKO" "BTCUSD" ]
               Sample.from Sample.to)
    = inl e
    /\ In (LoggerError e "DataProviderService")
         (trace (sampleGetHistoricalRaw Sample.thisWithBroken
                   [ Sample.identifier "YAHOO" "USDGBP";
                     Sample.identifier "COINGECKO" "BTCUSD" ]
                   Sample.from Sample.to)).
Proof.
  destruct (getHistoricalRaw_rejects Sample.DEFAULT_CURRENCY
              Sample.DERIVED_CURRENCIES Sample.DATE_FORMAT
              Sample.Big_mul_toNumber Sample.format Sample.eachDayOfInterval
              Sample.schedule Sample.thisWithBroken
              [ Sample.identifier "YAHOO" "USDGBP";
                Sample.identifier "COINGECKO" "BTCUSD" ]
              Sample.from Sample.to sample_schedule_fair)
    as [Hrejects _].
  destruct (Hrejects
              [ inr {| data := Some Sample.yahooSeries;
                       dataSymbol := "USDGBP" |};
                inl (Error "socket hang up") ]
              (Error "socket hang up"))
    as (e' & _ & Hout & Hlogged).
  - reflexivity.
  - cbn. auto.
  - exists e'. now split.
Defined.

(** The history of USDGBP, asked from YAHOO, and of XYZ, asked from a
    provider that handles no symbol: the entry of USDGBP is the series of
    the provider. *)
Lemma getHistoricalRaw_passes_through_witness :
  exists result,
    outcome (sampleGetHistoricalRaw Sample.this
               [ Sample.identifier "YAHOO" "USDGBP";
                 Sample.identifier "RAPID_API" "XYZ" ]
               Sample.from Sample.to)
    = inr result
    /\ Js.get "USDGBP" result = Some (Some Sample.yahooSeries).
Proof.
  destruct (outcome (sampleGetHistoricalRaw Sample.this
                       [ Sample.identifier "YAHOO" "USDGBP";
                         Sample.identifier "RAPID_API" "XYZ" ]
                       Sample.from Sample.to))
    as [e|result] eqn:Hout; [vm_compute in Hout; discriminate|].
  exists result. split; [reflexivity|].
  destruct (getHistoricalRaw_passes_through Sample.DEFAULT_CURRENCY
              Sample.DERIVED_CURRENCIES Sample.DATE_FORMAT
              Sample.Big_mul_toNumber Sample.format Sample.eachDayOfInterval
              Sample.schedule Sample.this
              [ Sample.identifier "YAHOO" "USDGBP";
                Sample.identifier "RAPID_API" "XYZ" ]
              Sample.from Sample.to result
              (Sample.identifier "YAHOO" "USDGBP") Sample.yahoo
              sample_schedule_fair Hout)
    as (response & Hresponse & Hentry).
  - cbn. auto.
  - intros j Hj Hsym. cbn in Hj.
    repeat (destruct Hj as [<-|Hj]; [try reflexivity; discriminate Hsym|]).
    contradiction.
  - reflexivity.
  - reflexivity.
  - cbn. intuition discriminate.
  - discriminate.
  - cbn in Hresponse. injection Hresponse as <-. exact Hentry.
Defined.

(** The same call: XYZ, which its provider cannot handle, has no entry. *)
Lemma getHistoricalRaw_keys_witness :
  exists result,
    outcome (sampleGetHistoricalRaw Sample.this
               [ Sample.identifier "YAHOO" "USDGBP";
                 Sample.identifier "RAPID_API" "XYZ" ]
               Sample.from Sample.to)
    = inr result
    /\ Js.get "XYZ" result = None.
Proof.
  destruct (outcome (sampleGetHistoricalRaw Sample.this
                       [ Sample.identifier "YAHOO" "USDGBP";
                         Sample.identifier "RAPID_API" "XYZ" ]
                       Sample.from Sample.to))
    as [e|result] eqn:Hout; [vm_compute in Hout; discriminate|].
  exists result. split; [reflexivity|].
  destruct (Js.get "XYZ" result) as [v|] eqn:Hget; [|reflexivity].
  destruct (getHistoricalRaw_keys Sample.DEFAULT_CURRENCY
              Sample.DERIVED_CURRENCIES Sample.DATE_FORMAT
              Sample.Big_mul_toNumber Sample.format Sample.eachDayOfInterval
              Sample.schedule Sample.this
              [ Sample.identifier "YAHOO" "USDGBP";
                Sample.identifier "RAPID_API" "XYZ" ]
              Sample.from Sample.to result "XYZ"%string v
              sample_schedule_fair Hout Hget)
    as [Hderived|(i & dataProvider & Hi & Hsym & Hdp & Hhandle)].
  - cbn in Hderived. exfalso. intuition discriminate.
  - cbn in Hi.
    repeat (destruct Hi as [<-|Hi];
            [try discriminate Hsym;
             cbn in Hdp; injection Hdp as <-; discriminate Hhandle|]).
    contradiction.
Defined.

(** The sample portfolio: every item to fetch has a provider and every
    upstream request was fulfilled. *)
Lemma getQuotes_all_or_nothing_witness :
  (forall i,
      In i (sampleItemsToFetch Sample.this true Sample.items) ->
      exists dataProvider,
        getDataProvider Sample.this (dataSource i) = inr dataProvider)
  /\ exists promises,
      outcome (sampleUpstreamRequests Sample.this Sample.items None true
                 None)
      = inr promises
      /\ forall promise,
          In promise promises ->
          exists result, pendingResult promise = inr result.
Proof.
  destruct (outcome (sampleGetQuotes Sample.this Sample.items None true None))
    as [e|response] eqn:Hout; [vm_compute in Hout; discriminate|].
  exact (getQuotes_all_or_nothing Sample.DEFAULT_CURRENCY
           Sample.DERIVED_CURRENCIES Sample.getCurrencyFromSymbol
           Sample.getStartOfUtcDate Sample.isCurrency
           Sample.isDerivedCurrency Sample.Big_mul_toNumber
           Sample.JSON_parse Sample.JSON_stringify Sample.now
           Sample.schedule Sample.this Sample.items None true None response
           sample_schedule_fair Hout).
Defined.

(** The sample portfolio: TSLA was not requested and is not in the
    response. *)
Lemma getQuotes_keys_requested_witness :
  exists response,
    outcome (sampleGetQuotes Sample.this Sample.items None true None)
    = inr response
    /\ Js.get "TSLA" response = None.
Proof.
  destruct (outcome (sampleGetQuotes Sample.this Sample.items None true None))
    as [e|response] eqn:Hout; [vm_compute in Hout; discriminate|].
  exists response. split; [reflexivity|].
  destruct (Js.get "TSLA" response) as [v|] eqn:Hget; [|reflexivity].
  destruct (getQuotes_keys_requested Sample.DEFAULT_CURRENCY
              Sample.DERIVED_CURRENCIES Sample.getCurrencyFromSymbol
              Sample.getStartOfUtcDate Sample.isCurrency
              Sample.isDerivedCurrency Sample.Big_mul_toNumber
              Sample.JSON_parse Sample.JSON_stringify Sample.now
              Sample.schedule Sample.this Sample.items None true None response
              "TSLA"%string v sample_schedule_fair
              sample_results_answer_requests Hout Hget)
    as [(i & Hi & Hsym)|Hderived].
  - cbn in Hi.
    repeat (destruct Hi as [<-|Hi]; [discriminate Hsym|]). contradiction.
  - cbn in Hderived. exfalso. intuition discriminate.
Defined.

(** The sample portfolio: every write to the cache carries the time to live
    of the configuration, under a key of a requested data source and of a
    symbol other than USDUSX. *)
Lemma getQuotes_cache_writes_witness :
  Forall
    (writtenBy Sample.DEFAULT_CURRENCY Sample.JSON_stringify Sample.this
       (map dataSource Sample.items))
    (trace (sampleGetQuotes Sample.this Sample.items None true None)).
Proof.
  exact (getQuotes_cache_writes Sample.DEFAULT_CURRENCY
           Sample.DERIVED_CURRENCIES Sample.getCurrencyFromSymbol
           Sample.getStartOfUtcDate Sample.isCurrency
           Sample.isDerivedCurrency Sample.Big_mul_toNumber
           Sample.JSON_parse Sample.JSON_stringify Sample.now
           Sample.schedule Sample.this Sample.items None true None
           sample_schedule_fair sample_no_derived_USX).
Defined.

(** A search in which the provider COINGECKO rejects: both providers are
    asked, and the search fails with the rejection. *)
Lemma search_rejects_witness :
  exists e,
    outcome (sampleSearch Sample.thisWithBroken false "ap" Sample.basicUser)
    = inl e
    /\ trace (sampleSearch Sample.thisWithBroken false "ap" Sample.basicUser)
       = [ ProviderSearch "COINGECKO" false "ap" "user-1";
           ProviderSearch "YAHOO" false "ap" "user-1" ].
Proof.
  assert (Hlong : 2 <= String.length "ap") by (cbn; lia).
  destruct (search_rejects Sample.DEFAULT_CURRENCY
              Sample.PROPERTY_API_KEY_GHOSTFOLIO Sample.hasRole
              Sample.toLowerCase Sample.localeCompare_le Sample.schedule
              Sample.thisWithBroken false "ap" Sample.basicUser
              [Sample.broken; Sample.yahoo] Sample.broken
              (Error "socket hang up") sample_schedule_fair Hlong)
    as (provider' & e' & _ & _ & Hout & Htrace).
  - repeat constructor.
  - now left.
  - reflexivity.
  - exists e'. split; [exact Hout|exact Htrace].
Defined.


(** The check of YAHOO: the provider is asked for its test symbol AAPL with
    a timeout of 30 seconds and answers 181, so the check holds. *)
Lemma checkQuote_asks_provider_witness :
  outcome (sampleCheckQuote Sample.this "YAHOO") = inr true
  /\ exists quote result,
       DataProviderInterface.getQuotes Sample.yahoo (Some ms_30_seconds)
         ["AAPL"%string]
       = inr result
       /\ In ("AAPL"%string, quote) result
       /\ Js.gt0 (Quote.marketPrice quote) = true.
Proof.
  split; [reflexivity|].
  destruct (checkQuote_asks_provider Sample.DEFAULT_CURRENCY
              Sample.DERIVED_CURRENCIES Sample.getCurrencyFromSymbol
              Sample.getStartOfUtcDate Sample.isCurrency
              Sample.isDerivedCurrency Sample.Big_mul_toNumber
              Sample.JSON_parse Sample.JSON_stringify Sample.now
              Sample.schedule Sample.getTestSymbol Sample.this "YAHOO"
              sample_schedule_fair)
    as [_ Htrue].
  destruct (Htrue eq_refl)
    as (dataProvider & quote & Hdp & Hpositive & Hcase).
  cbn in Hdp. injection Hdp as <-.
  destruct Hcase as [Husx|[Hderived|(result & Hresult & Hentry)]].
  - discriminate Husx.
  - cbn in Hderived. exfalso. intuition discriminate.
  - exists quote, result. split; [exact Hresult|]. now split.
Defined.

(** The profiles of three items: each symbol has the profile that the
    provider of its item returned. *)
Lemma getAssetProfiles_complete_and_sound_witness :
  exists response,
    outcome (sampleGetAssetProfiles Sample.this
               [ Sample.identifier "YAHOO" "AAPL";
                 Sample.identifier "FINANCIAL_MODELING_PREP" "MSFT";
                 Sample.identifier "YAHOO" "TSLA" ])
    = inr response
    /\ (exists profile, Js.get "MSFT" response = Some profile)
    /\ forall profile,
         Js.get "MSFT" response = Some profile ->
         profile = "FINANCIAL_MODELING_PREP:MSFT"%string.
Proof.
  destruct (outcome (sampleGetAssetProfiles Sample.this
                       [ Sample.identifier "YAHOO" "AAPL";
                         Sample.identifier "FINANCIAL_MODELING_PREP" "MSFT";
                         Sample.identifier "YAHOO" "TSLA" ]))
    as [e|response] eqn:Hout; [vm_compute in Hout; discriminate|].
  destruct (getAssetProfiles_complete_and_sound Sample.schedule
              Sample.SymbolProfile Sample.getAssetProfile Sample.this
              [ Sample.identifier "YAHOO" "AAPL";
                Sample.identifier "FINANCIAL_MODELING_PREP" "MSFT";
                Sample.identifier "YAHOO" "TSLA" ]
              response sample_schedule_fair Hout)
    as [Hcomplete Hsound].
  exists response. split; [reflexivity|]. split.
  - destruct (Hcomplete (Sample.identifier "FINANCIAL_MODELING_PREP" "MSFT"))
      as (dataProvider & profile & _ & Hget); [cbn; auto|].
    now exists profile.
  - intros profile Hget.
    destruct (Hsound _ _ Hget) as (i & dataProvider & Hi & Hsym & Hdp & Hp).
    cbn in Hi.
    repeat (destruct Hi as [<-|Hi];
            [try discriminate Hsym;
             cbn in Hdp; injection Hdp as <-;
             cbn in Hp; now injection Hp as <-|]).
    contradiction.
Defined.

(** The profiles of two items, the second from the provider whose requests
    fail: the call fails with the error of that provider, logged once; and
    with an item of a data source without provider it throws without
    logging. *)
Lemma getAssetProfiles_rejects_witness :
  sampleGetAssetProfiles Sample.thisWithBroken
    [ Sample.identifier "YAHOO" "AAPL";
      Sample.identifier "COINGECKO" "BTCUSD" ]
  = ([LoggerError (Error "socket hang up") "DataProviderService"],
     inl (Error "socket hang up"))
  /\ sampleGetAssetProfiles Sample.thisWithBroken
       [ Sample.identifier "YAHOO" "AAPL";
         Sample.identifier "KRAKEN" "BTCUSD" ]
     = ([], inl (Error "No data provider has been found.")).
Proof.
  split.
  - destruct (getAssetProfiles_rejects Sample.schedule Sample.SymbolProfile
                Sample.getAssetProfile Sample.thisWithBroken
                [ Sample.identifier "YAHOO" "AAPL";
                  Sample.identifier "COINGECKO" "BTCUSD" ]
                sample_schedule_fair)
      as [_ Hrejects].
    destruct (Hrejects
                [ {| profileSymbol := "AAPL";
                     profileResult := inr "YAHOO:AAPL"%string |};
                  {| profileSymbol := "BTCUSD";
                     profileResult := inl (Error "socket hang up") |} ]
                {| profileSymbol := "BTCUSD";
                   profileResult := inl (Error "socket hang up") |}
                (Error "socket hang up"))
      as (promise' & e' & Hin & Hfail & Hrun).
    + reflexivity.
    + cbn. auto.
    + reflexivity.
    + rewrite Hrun. cbn in Hin.
      destruct Hin as [<-|[<-|[]]]; [discriminate Hfail|].
      cbn in Hfail. now injection Hfail as <-.
  - destruct (getAssetProfiles_rejects Sample.schedule Sample.SymbolProfile
                Sample.getAssetProfile Sample.thisWithBroken
                [ Sample.identifier "YAHOO" "AAPL";
                  Sample.identifier "KRAKEN" "BTCUSD" ]
                sample_schedule_fair)
      as [Hthrows _].
    apply (Hthrows (Sample.identifier "KRAKEN" "BTCUSD")
             (Error "No data provider has been found."));
      [cbn; auto|reflexivity].
Defined.

(** One item of a provider that declares a maximum of 0: [getQuotes] does
    not return. *)
Lemma getQuotes_zero_maximum_witness :
  outcome (sampleGetQuotes Sample.thisWithStuck
             [Sample.identifier "MANUAL" "GOLD"] None false None)
  = inl DoesNotTerminate.
Proof.
  apply (getQuotes_zero_maximum Sample.DEFAULT_CURRENCY
           Sample.DERIVED_CURRENCIES Sample.getCurrencyFromSymbol
           Sample.getStartOfUtcDate Sample.isCurrency
           Sample.isDerivedCurrency Sample.Big_mul_toNumber
           Sample.JSON_parse Sample.JSON_stringify Sample.now
           Sample.schedule Sample.thisWithStuck
           [Sample.identifier "MANUAL" "GOLD"] None false None
           "MANUAL"%string [Sample.identifier "MANUAL" "GOLD"] []
           Sample.stuck).
  - reflexivity.
  - reflexivity.
  - reflexivity.
  - discriminate.
Defined.
